(** * Classroom attendance kiosk: check-in integrity protocol

    A shallow embedding of [app.py]: the credential hasher, the daily
    session code, the per-session rate limiter, the snapshot adapter, the
    kiosk check-in handler, the daily report and the admin routes, with the
    store, the Flask session and the snapshot directory as explicit state.

    Conventions of the model.
    - A Python [str] is a Rocq [string]; [strip], [upper] and slicing are the
      Python operations on text of the ASCII range.
    - A Python [bytes] is a [list byte].
    - [hashlib.sha256] is a parameter of the development.
    - A table is the list of its rows in insertion order; a uniqueness
      constraint is the check the insert performs.  Rows are never deleted,
      so the position of a row of [attendance] or [audit_log] stands for its
      AUTOINCREMENT id.
    - The clock, the random source, the camera and the outcome of writing a
      picture are inputs of a call.
    - A response is the data a page shows or the endpoint of a redirect;
      rendering a page with [page] takes the queued flash messages out of
      the session, a redirect leaves them queued.
    - A route answers 405 to a method it is not registered for; a handler
      that reads nothing of the request ([home], [admin_logout],
      [snapshot]) is the view as it runs for a GET. *)

From Stdlib Require Import ZArith NArith Ascii String.
From Stdlib.Strings Require Import Byte.
From stdpp Require Import base tactics option list sorting strings gmap.

Local Open Scope string_scope.
Local Open Scope N_scope.

(** ** Python strings *)

Module Py.

(** [str.isspace] on the ASCII range: TAB..CR, FS..US and the blank. *)
Definition isspace (a : ascii) : bool :=
  let n := N_of_ascii a in
  ((9 <=? n) && (n <=? 13)) || ((28 <=? n) && (n <=? 32)).

Fixpoint lstrip (s : string) : string :=
  match s with
  | String a s' => if isspace a then lstrip s' else s
  | EmptyString => EmptyString
  end.

(** [rstrip]: a character is dropped when it is a blank and everything
    after it has been dropped. *)
Fixpoint rstrip (s : string) : string :=
  match s with
  | String a s' =>
      match rstrip s' with
      | EmptyString => if isspace a then EmptyString else String a EmptyString
      | r => String a r
      end
  | EmptyString => EmptyString
  end.

Definition strip (s : string) : string := rstrip (lstrip s).

(** [str.upper] on the ASCII range: a..z move to A..Z. *)
Definition upper_char (a : ascii) : ascii :=
  let n := N_of_ascii a in
  if (97 <=? n) && (n <=? 122) then ascii_of_N (n - 32) else a.

Fixpoint upper (s : string) : string :=
  match s with
  | String a s' => String (upper_char a) (upper s')
  | EmptyString => EmptyString
  end.

(** The slice [s[:n]]. *)
Fixpoint prefix (n : nat) (s : string) : string :=
  match n, s with
  | S n', String a s' => String a (prefix n' s')
  | _, _ => EmptyString
  end.

(** Truthiness of a string: [not s] holds of the empty string only. *)
Definition falsy (s : string) : bool :=
  match s with EmptyString => true | _ => false end.

(** [bytes.hex]: two lowercase hexadecimal digits per byte. *)
Definition hex_digit (n : N) : ascii :=
  if n <? 10 then ascii_of_N (48 + n) else ascii_of_N (87 + n).

Definition hex_byte (b : byte) (rest : string) : string :=
  let n := Byte.to_N b in
  String (hex_digit (n / 16)) (String (hex_digit (n mod 16)) rest).

Definition hex (bs : list byte) : string := foldr hex_byte EmptyString bs.

(** [str.encode("utf-8")] on the ASCII range. *)
Definition encode (s : string) : list byte := list_byte_of_string s.

End Py.

(** ** Credential hasher *)

Section Hasher.

(** [hashlib.sha256(h).digest()] *)
Variable sha256 : list byte -> list byte.

Definition rounds : N := 150000.

Definition hash_pw (password salt : string) : string :=
  let h := Py.encode (salt ++ password) in
  Py.hex (N.iter rounds sha256 h).

(** The check the callers make: [hash_pw(pin, salt) != stored] rejects. *)
Definition verify_pw (password salt digest : string) : bool :=
  String.eqb (hash_pw password salt) digest.

End Hasher.

(** ** Data model: the tables of [init_db] *)

Record Student := {
  stu_id : N;                    (* id INTEGER PRIMARY KEY AUTOINCREMENT *)
  roll_no : string;              (* TEXT UNIQUE NOT NULL *)
  full_name : string;
  class_name : string;
  section : string;
  pin_hash : string;
  salt : string;
  stu_created_at : string
}.

Record DaySession := {
  day : string;                  (* TEXT PRIMARY KEY *)
  session_code : string;
  created_at : string
}.

Record Attendance := {
  student_id : N;
  att_day : string;
  status : string;               (* CHECK(status IN ('P')) *)
  checked_in_at : string;
  snapshot_path : option string;
  ip : option string;
  user_agent : option string     (* UNIQUE(student_id, day) *)
}.

Record AuditEvent := {
  ts : string;
  event : string;
  detail : string
}.

Record DB := {
  students : list Student;
  day_sessions : list DaySession;
  attendance : list Attendance;
  audit_log : list AuditEvent
}.

(** ** The Flask session of one client, and the snapshot directory *)

Record RateLimit := { count : N; rl_ts : string }.

Record Session := {
  rl : option RateLimit;         (* session["rl"] *)
  admin : bool;                  (* session["admin"] *)
  flashes : list string          (* messages queued by flash() *)
}.

Definition Frame := list byte.

Record World := {
  db : DB;
  session : Session;
  snap_dir : gmap string Frame
}.

Definition empty_db : DB :=
  {| students := []; day_sessions := []; attendance := []; audit_log := [] |}.
Definition empty_session : Session :=
  {| rl := None; admin := false; flashes := [] |}.
Definition empty_world : World :=
  {| db := empty_db; session := empty_session; snap_dir := ∅ |}.

Definition with_db (f : DB -> DB) (w : World) : World :=
  {| db := f (db w); session := session w; snap_dir := snap_dir w |}.
Definition with_session (f : Session -> Session) (w : World) : World :=
  {| db := db w; session := f (session w); snap_dir := snap_dir w |}.
Definition with_snap_dir (f : gmap string Frame -> gmap string Frame) (w : World) : World :=
  {| db := db w; session := session w; snap_dir := f (snap_dir w) |}.

Definition set_day_sessions (l : list DaySession) (d : DB) : DB :=
  {| students := students d; day_sessions := l;
     attendance := attendance d; audit_log := audit_log d |}.
Definition set_attendance (l : list Attendance) (d : DB) : DB :=
  {| students := students d; day_sessions := day_sessions d;
     attendance := l; audit_log := audit_log d |}.
Definition set_audit_log (l : list AuditEvent) (d : DB) : DB :=
  {| students := students d; day_sessions := day_sessions d;
     attendance := attendance d; audit_log := l |}.
Definition set_students (l : list Student) (d : DB) : DB :=
  {| students := l; day_sessions := day_sessions d;
     attendance := attendance d; audit_log := audit_log d |}.

Definition set_rl (r : option RateLimit) (s : Session) : Session :=
  {| rl := r; admin := admin s; flashes := flashes s |}.
Definition push_flash (m : string) (s : Session) : Session :=
  {| rl := rl s; admin := admin s; flashes := flashes s ++ [m] |}.

(** ** Inputs of a call *)

(** One reading of the wall clock, in the three renderings the code uses:
    [date.today().isoformat()], [strftime("%Y-%m-%d %H:%M:%S")] and
    [strftime("%Y%m%d_%H%M%S")]. *)
Record Clock := { today : string; now : string; stamp : string }.

(** The camera as [capture_snapshot] observes it. *)
Record Camera := {
  OPENCV_OK : bool;              (* import cv2 succeeded *)
  isOpened : bool;               (* cam.isOpened() *)
  read_ok : bool;                (* ok of the frame kept *)
  read_frame : option Frame;     (* frame of the frame kept *)
  imwrite_ok : bool              (* cv2.imwrite wrote the file *)
}.

Inductive Method := GET | POST.

Record Request := {
  method : Method;
  form : gmap string string;
  args : gmap string string;
  remote_addr : option string;
  headers : gmap string string
}.

Record ReportRow := {
  r_roll_no : string;
  r_full_name : string;
  r_class_name : string;
  r_section : string;
  r_status : string;
  r_checked_in_at : option string;
  r_snapshot_path : option string
}.

Inductive Response :=
  | Redirect (endpoint : string)
  | KioskForm (code : string)
  | CheckedIn (stu : Student)
  | Reports (day : string) (rows : list ReportRow) (present absent : N).

(** ** Handlers as state transformers that may raise *)

Inductive Exn :=
  | HTTPException (code : N)     (* abort(code) *)
  | IntegrityError.              (* sqlite3.IntegrityError *)

Inductive Result (A : Type) :=
  | Ok (a : A)
  | Raise (e : Exn).
Arguments Ok {A} a.
Arguments Raise {A} e.

Definition M (A : Type) : Type := World -> Result A * World.

Global Instance M_ret : MRet M := fun A a w => (Ok a, w).
Global Instance M_bind : MBind M := fun A B f m w =>
  match m w with
  | (Ok a, w') => f a w'
  | (Raise e, w') => (Raise e, w')
  end.

Definition raise {A} (e : Exn) : M A := fun w => (Raise e, w).
Definition get_world : M World := fun w => (Ok w, w).
Definition modify (f : World -> World) : M unit := fun w => (Ok tt, f w).

(** [try: body except IntegrityError: handler] *)
Definition try_except_integrity {A} (body handler : M A) : M A := fun w =>
  match body w with
  | (Raise IntegrityError, w') => handler w'
  | r => r
  end.

Definition abort {A} (code : N) : M A := raise (HTTPException code).
Definition flash (msg : string) : M unit := modify (with_session (push_flash msg)).

(** ** SQLite: the statements the handlers issue *)

Module Sql.

(** [SELECT session_code FROM day_session WHERE day=?], [fetchone()] *)
Definition select_day_session (d : string) (t : DB) : option DaySession :=
  find (fun r => String.eqb (day r) d) (day_sessions t).

(** [INSERT INTO day_session ...]: [day] is the primary key. *)
Definition insert_day_session (r : DaySession) : M unit := fun w =>
  if existsb (fun r' => String.eqb (day r') (day r)) (day_sessions (db w))
  then (Raise IntegrityError, w)
  else (Ok tt, with_db (set_day_sessions (day_sessions (db w) ++ [r])) w).

(** [SELECT * FROM students WHERE roll_no=?], [fetchone()] *)
Definition select_student (roll : string) (t : DB) : option Student :=
  find (fun s => String.eqb (roll_no s) roll) (students t).

Definition same_key (a b : Attendance) : bool :=
  N.eqb (student_id a) (student_id b) && String.eqb (att_day a) (att_day b).

(** [INSERT INTO attendance ...]: [CHECK(status IN ('P'))] and
    [UNIQUE(student_id, day)]; a violated constraint raises and leaves the
    table as it was.  (Foreign keys are not enforced: the pragma is off.) *)
Definition insert_attendance (a : Attendance) : M unit := fun w =>
  if negb (String.eqb (status a) "P") then (Raise IntegrityError, w)
  else if existsb (same_key a) (attendance (db w)) then (Raise IntegrityError, w)
  else (Ok tt, with_db (set_attendance (attendance (db w) ++ [a])) w).

(** [INSERT INTO audit_log(ts,event,detail)] *)
Definition insert_audit (e : AuditEvent) : M unit :=
  modify (with_db (fun t => set_audit_log (audit_log t ++ [e]) t)).

(** [CAST(text AS INT)]: blanks are skipped, then the longest prefix that
    reads as a signed decimal integer is taken (0 when there is none), and
    the value saturates at the ends of the 64-bit range. *)
Definition isspace (a : ascii) : bool :=
  let n := N_of_ascii a in
  ((9 <=? n) && (n <=? 13)) || (n =? 32).

Fixpoint skip_spaces (s : string) : string :=
  match s with
  | String a s' => if isspace a then skip_spaces s' else s
  | EmptyString => EmptyString
  end.

Definition digit (a : ascii) : option Z :=
  let n := N_of_ascii a in
  if (48 <=? n) && (n <=? 57) then Some (Z.of_N n - 48)%Z else None.

Fixpoint digits (acc : Z) (s : string) : Z :=
  match s with
  | String a s' =>
      match digit a with
      | Some d => digits (10 * acc + d)%Z s'
      | None => acc
      end
  | EmptyString => acc
  end.

Definition saturate (z : Z) : Z :=
  Z.max (- 2 ^ 63) (Z.min z (2 ^ 63 - 1)).

Definition cast_int (s : string) : Z :=
  match skip_spaces s with
  | String "-" s' => saturate (- digits 0 s')
  | String "+" s' => saturate (digits 0 s')
  | s' => saturate (digits 0 s')
  end.

(** [ORDER BY s.class_name, s.section, CAST(s.roll_no AS INT), s.roll_no]
    under the BINARY collation. *)
Definition then_by (c1 c2 : comparison) : comparison :=
  match c1 with Eq => c2 | _ => c1 end.

Definition order_by (s1 s2 : Student) : comparison :=
  then_by (String.compare (class_name s1) (class_name s2))
    (then_by (String.compare (section s1) (section s2))
       (then_by (Z.compare (cast_int (roll_no s1)) (cast_int (roll_no s2)))
          (String.compare (roll_no s1) (roll_no s2)))).

Definition order_le (p1 p2 : Student * option Attendance) : Prop :=
  order_by p1.1 p2.1 <> Gt.

Global Instance order_le_dec : RelDecision order_le.
Proof. intros p1 p2. unfold order_le. apply _. Defined.

(** [FROM students s LEFT JOIN attendance a ON a.student_id=s.id AND a.day=?] *)
Definition on_clause (d : string) (s : Student) (a : Attendance) : bool :=
  N.eqb (student_id a) (stu_id s) && String.eqb (att_day a) d.

Definition left_join (d : string) (t : DB) : list (Student * option Attendance) :=
  flat_map
    (fun s =>
       match List.filter (on_clause d s) (attendance t) with
       | [] => [(s, None)]
       | ms => List.map (fun a => (s, Some a)) ms
       end)
    (students t).

(** The select list, with [CASE WHEN a.id IS NULL THEN 'A' ELSE 'P' END]. *)
Definition select_list (p : Student * option Attendance) : ReportRow :=
  {| r_roll_no := roll_no p.1;
     r_full_name := full_name p.1;
     r_class_name := class_name p.1;
     r_section := section p.1;
     r_status := match p.2 with None => "A" | Some _ => "P" end;
     r_checked_in_at := option_map checked_in_at p.2;
     r_snapshot_path := match p.2 with None => None | Some a => snapshot_path a end |}.

Definition report_query (d : string) (t : DB) : list ReportRow :=
  List.map select_list (merge_sort order_le (left_join d t)).

End Sql.

(** ** Helpers of [app.py] *)

Definition log (c : Clock) (ev : string) (det : string) : M unit :=
  Sql.insert_audit {| ts := now c; event := ev; detail := Py.prefix 1000 det |}.

Definition require_admin : M (option Response) := fun w =>
  if negb (admin (session w)) then (Ok (Some (Redirect "admin_login")), w)
  else (Ok None, w).

Definition rate_limit_key (c : Clock) : M RateLimit := fun w =>
  match rl (session w) with
  | None =>
      let r := {| count := 0; rl_ts := now c |} in
      (Ok r, with_session (set_rl (Some r)) w)
  | Some r => (Ok r, w)
  end.

Definition bump_rate_limit (c : Clock) (max_attempts : N) : M unit :=
  r ← rate_limit_key c;
  let r' := {| count := count r + 1; rl_ts := rl_ts r |} in
  modify (with_session (set_rl (Some r')));;
  if max_attempts <? count r' then abort 429 else mret tt.

(** [secrets.token_hex(3)] on the three bytes the random source yields. *)
Definition Entropy3 : Type := byte * byte * byte.
Definition token_hex3 (r : Entropy3) : string :=
  let '(b1, b2, b3) := r in Py.hex [b1; b2; b3].

(** [get_or_create_session_code].  The lookup and the insert are two
    statements; [others] stands for what other connections commit between
    them, and is the identity when the call runs alone. *)
Definition get_or_create_session_code_among
    (others : DB -> DB) (c : Clock) (r : Entropy3) : M string :=
  let d := today c in
  w ← get_world;
  match Sql.select_day_session d (db w) with
  | Some row => mret (session_code row)
  | None =>
      let code := Py.upper (token_hex3 r) in
      modify (with_db others);;
      Sql.insert_day_session {| day := d; session_code := code; created_at := now c |};;
      log c "NEW_DAY_SESSION" ("day=" ++ d ++ ", code=" ++ code);;
      mret code
  end.

Definition get_or_create_session_code : Clock -> Entropy3 -> M string :=
  get_or_create_session_code_among id.

(** [page]: the template calls [get_flashed_messages()], which takes the
    queued messages out of the session to show them above the body. *)
Definition get_flashed_messages : M (list string) := fun w =>
  (Ok (flashes (session w)),
   with_session (fun s => {| rl := rl s; admin := admin s; flashes := [] |}) w).

Definition page : M unit :=
  get_flashed_messages;;
  mret tt.

(** [capture_snapshot]: [cv2.imwrite] writes the file under [SNAP_DIR], or
    writes nothing and returns [False] (the directory of the path is
    missing, as for a roll number with a slash; the disk is full); its
    result is dropped and the file name is returned either way. *)
Definition capture_snapshot (c : Clock) (cam : Camera) (roll : string)
  : M (option string) :=
  if negb (OPENCV_OK cam) then mret None
  else if negb (isOpened cam) then mret None
  else
    match read_ok cam, read_frame cam with
    | true, Some frame =>
        let filename := today c ++ "_" ++ roll ++ "_" ++ stamp c ++ ".jpg" in
        (if imwrite_ok cam then modify (with_snap_dir (insert filename frame))
         else mret tt);;
        mret (Some filename)
    | _, _ => mret None
    end.

(** [x or 'none'] on an optional string. *)
Definition or_none (x : option string) : string :=
  match x with
  | Some s => if Py.falsy s then "none" else s
  | None => "none"
  end.

Definition form_get (rq : Request) (k : string) : string :=
  default "" (form rq !! k).

(** ** Routes *)

(** The readings a kiosk request takes from its environment, one per helper
    it calls. *)
Record KioskEnv := {
  clk_code : Clock;              (* get_or_create_session_code *)
  entropy : Entropy3;
  clk_rl : Clock;                (* rate_limit_key *)
  camera : Camera;
  clk_snap : Clock;              (* capture_snapshot *)
  clk_insert : Clock;            (* today(), now() of the insert *)
  clk_log : Clock                (* the CHECKIN_* audit event *)
}.

Definition msg_fill : string := "Fill all fields.".
Definition msg_bad_code : string := "Wrong session code. Ask teacher for today’s code.".
Definition msg_unknown : string := "Unknown roll number.".
Definition msg_bad_pin : string := "Wrong PIN.".
Definition msg_dup : string := "Already checked in today.".

Section Routes.

Variable sha256 : list byte -> list byte.

Definition kiosk (rq : Request) (e : KioskEnv) : M Response :=
  code ← get_or_create_session_code (clk_code e) (entropy e);
  match method rq with
  | POST =>
      bump_rate_limit (clk_rl e) 20;;
      let roll := Py.strip (form_get rq "roll_no") in
      let pin := Py.strip (form_get rq "pin") in
      let scode := Py.upper (Py.strip (form_get rq "session_code")) in
      if Py.falsy roll || Py.falsy pin || Py.falsy scode then
        flash msg_fill;;
        mret (Redirect "kiosk")
      else if negb (String.eqb scode code) then
        log (clk_log e) "CHECKIN_FAIL" ("roll=" ++ roll ++ ", reason=bad_session_code");;
        flash msg_bad_code;;
        mret (Redirect "kiosk")
      else
        w ← get_world;
        match Sql.select_student roll (db w) with
        | None =>
            log (clk_log e) "CHECKIN_FAIL" ("roll=" ++ roll ++ ", reason=unknown_roll");;
            flash msg_unknown;;
            mret (Redirect "kiosk")
        | Some stu =>
            let expected := hash_pw sha256 pin (salt stu) in
            if negb (String.eqb expected (pin_hash stu)) then
              log (clk_log e) "CHECKIN_FAIL" ("roll=" ++ roll ++ ", reason=bad_pin");;
              flash msg_bad_pin;;
              mret (Redirect "kiosk")
            else
              snap_file ← capture_snapshot (clk_snap e) (camera e) roll;
              try_except_integrity
                (Sql.insert_attendance
                   {| student_id := stu_id stu;
                      att_day := today (clk_insert e);
                      status := "P";
                      checked_in_at := now (clk_insert e);
                      snapshot_path := snap_file;
                      ip := remote_addr rq;
                      user_agent :=
                        Some (Py.prefix 300 (default "" (headers rq !! "User-Agent"))) |};;
                 log (clk_log e) "CHECKIN_OK"
                   ("roll=" ++ roll ++ ", snap=" ++ or_none snap_file);;
                 page;;
                 mret (CheckedIn stu))
                (log (clk_log e) "CHECKIN_DUP" ("roll=" ++ roll ++ " already checked today");;
                 flash msg_dup;;
                 mret (Redirect "kiosk"))
        end
  | GET =>
      page;;
      mret (KioskForm code)
  end.

End Routes.

(** [home] *)
Definition home : M Response := mret (Redirect "kiosk").

(** [admin_logout]: [session.clear()] *)
Definition admin_logout : M Response :=
  modify (with_session (fun _ => empty_session));;
  mret (Redirect "admin_login").

(** [admin_reports]: the rows of the query and the two counters of the loop
    over them. *)
Definition count_status (acc : N * N) (x : ReportRow) : N * N :=
  if String.eqb (r_status x) "P" then (acc.1 + 1, acc.2) else (acc.1, acc.2 + 1).

Definition admin_reports (rq : Request) (c : Clock) : M Response :=
  match method rq with
  | POST => abort 405
  | GET =>
      r ← require_admin;
      match r with
      | Some resp => mret resp
      | None =>
          let d := Py.strip (default (today c) (args rq !! "day")) in
          w ← get_world;
          let rows := Sql.report_query d (db w) in
          let '(present, absent) := fold_left count_status rows (0, 0) in
          page;;
          mret (Reports d rows present absent)
      end
  end.

(** ** Vocabulary of the properties *)

(** The value of the per-session counter: zero until [rate_limit_key] has
    created the entry. *)
Definition attempts (s : Session) : N :=
  match rl s with Some r => count r | None => 0 end.

(** The code a call of [get_or_create_session_code] works with. *)
Definition todays_code (c : Clock) (r : Entropy3) (w : World) : string :=
  match Sql.select_day_session (today c) (db w) with
  | Some row => session_code row
  | None => Py.upper (token_hex3 r)
  end.

Definition new_day_row (c : Clock) (r : Entropy3) : DaySession :=
  {| day := today c; session_code := Py.upper (token_hex3 r); created_at := now c |}.

Definition new_day_event (c : Clock) (r : Entropy3) : AuditEvent :=
  {| ts := now c; event := "NEW_DAY_SESSION";
     detail := Py.prefix 1000 ("day=" ++ today c ++ ", code=" ++ Py.upper (token_hex3 r)) |}.

(** The world a call of [get_or_create_session_code] leaves. *)
Definition ensure_code (c : Clock) (r : Entropy3) (w : World) : World :=
  match Sql.select_day_session (today c) (db w) with
  | Some _ => w
  | None =>
      with_db (fun t => set_audit_log (audit_log t ++ [new_day_event c r]) t)
        (with_db (fun t => set_day_sessions (day_sessions t ++ [new_day_row c r]) t) w)
  end.

(** The world a call of [bump_rate_limit] leaves. *)
Definition bumped (c : Clock) (w : World) : World :=
  with_session
    (set_rl (Some {| count := attempts (session w) + 1;
                     rl_ts := match rl (session w) with
                              | Some r => rl_ts r
                              | None => now c
                              end |})) w.

(** The world a call of [page] leaves: the queued messages are shown. *)
Definition shown (w : World) : World :=
  with_session (fun s => {| rl := rl s; admin := admin s; flashes := [] |}) w.

Definition logged (e : AuditEvent) (w : World) : World :=
  with_db (fun t => set_audit_log (audit_log t ++ [e]) t) w.
Definition flashed (m : string) (w : World) : World :=
  with_session (push_flash m) w.

(** The fields of a check-in form as the handler reads them. *)
Definition submitted_roll (rq : Request) : string := Py.strip (form_get rq "roll_no").
Definition submitted_pin (rq : Request) : string := Py.strip (form_get rq "pin").
Definition submitted_code (rq : Request) : string :=
  Py.upper (Py.strip (form_get rq "session_code")).

(** What [capture_snapshot] saves, if anything: the file name and the frame. *)
Definition snapshot_of (c : Clock) (cam : Camera) (roll : string) : option (string * Frame) :=
  if OPENCV_OK cam && isOpened cam && read_ok cam then
    match read_frame cam with
    | Some frame => Some (today c ++ "_" ++ roll ++ "_" ++ stamp c ++ ".jpg", frame)
    | None => None
    end
  else None.

(** The world a call of [capture_snapshot] leaves. *)
Definition snapshot_saved (c : Clock) (cam : Camera) (roll : string) (w : World) : World :=
  match snapshot_of c cam roll with
  | Some (f, frame) => if imwrite_ok cam then with_snap_dir (insert f frame) w else w
  | None => w
  end.

(** The row the kiosk inserts for a student, and the audit events it writes. *)
Definition attendance_row (rq : Request) (e : KioskEnv) (stu : Student) : Attendance :=
  {| student_id := stu_id stu;
     att_day := today (clk_insert e);
     status := "P";
     checked_in_at := now (clk_insert e);
     snapshot_path := fst <$> snapshot_of (clk_snap e) (camera e) (submitted_roll rq);
     ip := remote_addr rq;
     user_agent := Some (Py.prefix 300 (default "" (headers rq !! "User-Agent"))) |}.

Definition audit_event (e : KioskEnv) (ev det : string) : AuditEvent :=
  {| ts := now (clk_log e); event := ev; detail := Py.prefix 1000 det |}.

(** The rejections of a check-in, each told to the client by its flash
    message, and the audit event each one owes. *)
Inductive Rejection :=
  | MissingField | BadSessionCode | UnknownStudent | BadCredential | AlreadyCheckedIn.

Definition flash_of (r : Rejection) : string :=
  match r with
  | MissingField => msg_fill
  | BadSessionCode => msg_bad_code
  | UnknownStudent => msg_unknown
  | BadCredential => msg_bad_pin
  | AlreadyCheckedIn => msg_dup
  end.

Definition audit_of (r : Rejection) (roll : string) : option (string * string) :=
  match r with
  | MissingField => None
  | BadSessionCode => Some ("CHECKIN_FAIL", "roll=" ++ roll ++ ", reason=bad_session_code")
  | UnknownStudent => Some ("CHECKIN_FAIL", "roll=" ++ roll ++ ", reason=unknown_roll")
  | BadCredential => Some ("CHECKIN_FAIL", "roll=" ++ roll ++ ", reason=bad_pin")
  | AlreadyCheckedIn => Some ("CHECKIN_DUP", "roll=" ++ roll ++ " already checked today")
  end.

(** [out] is the rejection [r] of a request served in world [w]. *)
Definition rejected_as (r : Rejection) (w : World) (out : Result Response * World) : Prop :=
  out.1 = Ok (Redirect "kiosk") /\
  flashes (session out.2) = (flashes (session w) ++ [flash_of r])%list.

Definition rate_limited (out : Result Response * World) : Prop :=
  out.1 = Raise (HTTPException 429).

(** The attendance rows of a student for a day. *)
Definition records_of (sid : N) (d : string) (t : DB) : list Attendance :=
  List.filter (fun a => N.eqb (student_id a) sid && String.eqb (att_day a) d) (attendance t).

(** The two uniqueness constraints as properties of a table. *)
Definition att_key (a : Attendance) : N * string := (student_id a, att_day a).
Definition att_unique (t : DB) : Prop := NoDup (att_key <$> attendance t).
Definition day_unique (t : DB) : Prop := NoDup (day <$> day_sessions t).

(** A session code as the registry makes it: six characters out of 0-9, A-F. *)
Definition code_char (a : ascii) : bool :=
  let n := N_of_ascii a in
  ((48 <=? n) && (n <=? 57)) || ((65 <=? n) && (n <=? 70)).

Definition is_code (s : string) : bool :=
  Nat.eqb (String.length s) 6 && forallb code_char (list_ascii_of_string s).

Definition codes_wf (t : DB) : Prop :=
  Forall (fun r => is_code (session_code r) = true) (day_sessions t).

(** A client's requests to the kiosk served one after the other, the
    session and the store carried from one to the next. *)
Section Serve.
Variable sha256 : list byte -> list byte.

Fixpoint serve (rqs : list (Request * KioskEnv)) (w : World)
  : list (Result Response) * World :=
  match rqs with
  | [] => ([], w)
  | (rq, e) :: rest =>
      let out := kiosk sha256 rq e w in
      let tl := serve rest out.2 in
      (out.1 :: tl.1, tl.2)
  end.
End Serve.

Definition is_post (p : Request * KioskEnv) : bool :=
  match method p.1 with POST => true | GET => false end.

(** A check-in that passes the four checks before the insert. *)
Definition valid_checkin (sha256 : list byte -> list byte)
    (rq : Request) (e : KioskEnv) (w : World) (stu : Student) : Prop :=
  method rq = POST /\
  attempts (session w) < 20 /\
  submitted_roll rq <> "" /\
  submitted_pin rq <> "" /\
  submitted_code rq <> "" /\
  submitted_code rq = todays_code (clk_code e) (entropy e) w /\
  Sql.select_student (submitted_roll rq) (db w) = Some stu /\
  hash_pw sha256 (submitted_pin rq) (salt stu) = pin_hash stu.

(** The number a roll is ordered by, said without the SQL: blanks in front
    are passed over, a sign is taken, and the decimal digits that follow are
    read in positional notation, up to the first character that is no
    digit; no digit reads as 0; the value is kept within the 64-bit
    integers. *)
Definition is_digit (a : ascii) : bool :=
  (nat_of_ascii "0" <=? nat_of_ascii a)%nat && (nat_of_ascii a <=? nat_of_ascii "9")%nat.

Definition digit_value (a : ascii) : Z :=
  Z.of_nat (nat_of_ascii a - nat_of_ascii "0").

Fixpoint decimal (s : string) : Z :=
  match s with
  | String a s' => (digit_value a * 10 ^ Z.of_nat (String.length s') + decimal s')%Z
  | EmptyString => 0%Z
  end.

Fixpoint leading_digits (s : string) : string :=
  match s with
  | String a s' => if is_digit a then String a (leading_digits s') else EmptyString
  | EmptyString => EmptyString
  end.

Definition is_blank (a : ascii) : bool :=
  existsb (Ascii.eqb a) [" "; "009"; "010"; "011"; "012"; "013"]%char.

Fixpoint drop_blanks (s : string) : string :=
  match s with
  | String a s' => if is_blank a then drop_blanks s' else s
  | EmptyString => EmptyString
  end.

Definition within_int64 (z : Z) : Z := Z.max (- 2 ^ 63) (Z.min z (2 ^ 63 - 1)).

Definition roll_number (s : string) : Z :=
  match drop_blanks s with
  | String a s' =>
      if Ascii.eqb a "-" then within_int64 (- decimal (leading_digits s'))
      else if Ascii.eqb a "+" then within_int64 (decimal (leading_digits s'))
      else within_int64 (decimal (leading_digits (String a s')))
  | EmptyString => 0%Z
  end.

(** Rolls that are numbers (decimal digits only), and rolls that start no
    number at all. *)
Definition numeric (s : string) : bool :=
  negb (String.eqb s "") && forallb is_digit (list_ascii_of_string s).

Definition non_numeric (s : string) : bool :=
  match s with
  | String a _ =>
      negb (is_digit a) && negb (is_blank a)
      && negb (Ascii.eqb a "-") && negb (Ascii.eqb a "+")
  | EmptyString => true
  end.

(** The roll numbers of a report, in the order of its rows. *)
Definition report_rolls (out : Result Response * World) : list string :=
  match out.1 with
  | Ok (Reports _ rows _ _) => r_roll_no <$> rows
  | _ => []
  end.

(** The row of the join for a student, and the rows counted as present. *)
Definition joined_row (d : string) (t : DB) (s : Student) : Student * option Attendance :=
  (s, find (Sql.on_clause d s) (attendance t)).

Definition is_present (x : ReportRow) : bool := String.eqb (r_status x) "P".

(** Three-way comparisons that order their arguments. *)
Class Ordering {A} (cmp : A -> A -> comparison) := {
  cmp_lt_trans a b c : cmp a b = Lt -> cmp b c = Lt -> cmp a c = Lt;
  cmp_eq_l a b c : cmp a b = Eq -> cmp a c = cmp b c;
  cmp_eq_r a b c : cmp b c = Eq -> cmp a c = cmp a b;
  cmp_opp a b : cmp b a = CompOpp (cmp a b)
}.

(** ** Sample data: a class of three, a Monday, a stand-in for SHA-256 *)

Module Sample.

Definition spin (bs : list byte) : list byte :=
  match bs with
  | [] => []
  | b :: t => t ++ [b]
  end.

Definition monday : Clock :=
  {| today := "2026-01-05"; now := "2026-01-05 09:00:00"; stamp := "20260105_090000" |}.

Definition dice : Entropy3 := (xa1, xb2, xc3).

Definition webcam : Camera :=
  {| OPENCV_OK := true; isOpened := true; read_ok := true; read_frame := Some [xff; xd8];
     imwrite_ok := true |}.

Definition env : KioskEnv :=
  {| clk_code := monday; entropy := dice; clk_rl := monday; camera := webcam;
     clk_snap := monday; clk_insert := monday; clk_log := monday |}.

(** The digest stored for the PIN 4321 under the salt s4lt. *)
Definition pin_digest : string := Eval vm_compute in hash_pw spin "4321" "s4lt".

Definition enrol (sid : N) (roll name : string) : Student :=
  {| stu_id := sid; roll_no := roll; full_name := name; class_name := "10"; section := "A";
     pin_hash := pin_digest;
     salt := "s4lt"; stu_created_at := "2026-01-02 08:00:00" |}.

Definition twelve : Student := enrol 1 "12" "Asha".
Definition five : Student := enrol 2 "5" "Bikram".
Definition abc : Student := enrol 3 "abc" "Chandra".

Definition todays_row : DaySession :=
  {| day := "2026-01-05"; session_code := "A1B2C3"; created_at := "2026-01-05 08:00:00" |}.

Definition enrolled : World :=
  {| db := {| students := [twelve; five; abc]; day_sessions := [todays_row];
              attendance := []; audit_log := [] |};
     session := empty_session;
     snap_dir := ∅ |}.

Definition present_row : Attendance :=
  {| student_id := 1; att_day := "2026-01-05"; status := "P";
     checked_in_at := "2026-01-05 08:55:00"; snapshot_path := None;
     ip := Some "127.0.0.1"; user_agent := Some "" |}.

Definition checked_in : World := with_db (set_attendance [present_row]) enrolled.

Definition teacher : World :=
  with_session (fun s => {| rl := rl s; admin := true; flashes := flashes s |}) checked_in.

Definition checkin (roll pin code : string) : Request :=
  {| method := POST;
     form := <["roll_no" := roll]> (<["pin" := pin]> (<["session_code" := code]> ∅));
     args := ∅; remote_addr := Some "127.0.0.1"; headers := ∅ |}.

Definition good_post : Request := checkin " 12 " "4321" "a1b2c3".
Definition wrong_code_post : Request := checkin "12" "4321" "ZZZZZZ".
Definition blank_post : Request := checkin "" "4321" "A1B2C3".

Definition report_get : Request :=
  {| method := GET; form := ∅; args := ∅; remote_addr := Some "127.0.0.1"; headers := ∅ |}.

(** A class whose roll numbers are no small numbers. *)
Definition odd_rolls : World :=
  with_db
    (set_students
       [enrol 1 "10x" "Asha"; enrol 2 "9x" "Bikram";
        enrol 3 "9223372036854775808" "Chandra";
        enrol 4 "10000000000000000000" "Dawa"])
    teacher.

(** Twenty-one check-in attempts in a row from one session. *)
Definition burst : list (Request * KioskEnv) := replicate 21 (blank_post, env).

(** Another connection creating the day's row first. *)
Definition rival_row : DaySession :=
  {| day := "2026-01-05"; session_code := "FFFFFF"; created_at := "2026-01-05 08:59:59" |}.
Definition rival (t : DB) : DB := set_day_sessions (day_sessions t ++ [rival_row]) t.

End Sample.

(** ** The admin table and the admin routes *)

Record AdminRow := {
  adm_id : N;                    (* id INTEGER PRIMARY KEY *)
  username : string;             (* TEXT UNIQUE NOT NULL *)
  pass_hash : string;
  adm_salt : string
}.

(** The store with its [admin] table beside the world of the kiosk. *)
Record Site := {
  world : World;
  admins : list AdminRow
}.

Definition empty_site : Site := {| world := empty_world; admins := [] |}.

Definition with_world (f : World -> World) (s : Site) : Site :=
  {| world := f (world s); admins := admins s |}.
Definition with_admins (f : list AdminRow -> list AdminRow) (s : Site) : Site :=
  {| world := world s; admins := f (admins s) |}.

Definition MS (A : Type) : Type := Site -> Result A * Site.

Global Instance MS_ret : MRet MS := fun A a s => (Ok a, s).
Global Instance MS_bind : MBind MS := fun A B f m s =>
  match m s with
  | (Ok a, s') => f a s'
  | (Raise e, s') => (Raise e, s')
  end.

(** A helper of the kiosk run on the world of the site. *)
Definition lift {A} (m : M A) : MS A := fun s =>
  let out := m (world s) in
  (out.1, {| world := out.2; admins := admins s |}).

Definition get_site : MS Site := fun s => (Ok s, s).

(** [try: body except sqlite3.IntegrityError: handler] on the site *)
Definition try_except_integrity_site {A} (body handler : MS A) : MS A := fun s =>
  match body s with
  | (Raise IntegrityError, s') => handler s'
  | r => r
  end.

(** [secrets.token_hex(16)] on the bytes the random source yields. *)
Definition token_hex (r : list byte) : string := Py.hex r.

Record RecentRow := {
  rc_checked_in_at : string;
  rc_roll_no : string;
  rc_full_name : string;
  rc_snapshot_path : option string
}.

Inductive AdminResponse :=
  | Plain (r : Response)
  | LoginForm
  | PasswordForm
  | Dashboard (d code : string) (total_students today_present : N)
      (recent : list RecentRow)
  | SnapshotFile (frame : Frame).

Module AdminSql.

(** The rowid SQLite gives a new row of a table whose rows are never
    deleted: one more than the largest in use, 1 in an empty table. *)
Definition next_rowid (ids : list N) : N := 1 + foldr N.max 0 ids.

(** [SELECT COUNT( * ) AS c FROM admin] *)
Definition count_admin (s : Site) : N := N.of_nat (length (admins s)).

(** [SELECT * FROM admin WHERE username=?], [fetchone()] *)
Definition select_admin (user : string) (s : Site) : option AdminRow :=
  find (fun r => String.eqb (username r) user) (admins s).

(** [INSERT INTO admin(username, pass_hash, salt)]: [username] is unique. *)
Definition insert_admin (user ph sl : string) : MS unit := fun s =>
  if existsb (fun r => String.eqb (username r) user) (admins s)
  then (Raise IntegrityError, s)
  else (Ok tt,
        with_admins
          (fun l => (l ++ [{| adm_id := next_rowid (adm_id <$> l); username := user;
                              pass_hash := ph; adm_salt := sl |}])%list) s).

(** [UPDATE admin SET pass_hash=?, salt=? WHERE username='admin'] *)
Definition update_admin_password (ph sl : string) : MS unit := fun s =>
  (Ok tt,
   with_admins
     (List.map (fun r =>
        if String.eqb (username r) "admin"
        then {| adm_id := adm_id r; username := username r;
                pass_hash := ph; adm_salt := sl |}
        else r)) s).

(** [INSERT INTO students(...)]: [roll_no] is unique, [id] is the next rowid. *)
Definition insert_student (roll name cls sec ph sl created : string) : M unit := fun w =>
  if existsb (fun s => String.eqb (roll_no s) roll) (students (db w))
  then (Raise IntegrityError, w)
  else (Ok tt,
        with_db
          (fun t => set_students
             (students t ++
              [{| stu_id := next_rowid (stu_id <$> students t); roll_no := roll;
                  full_name := name; class_name := cls; section := sec;
                  pin_hash := ph; salt := sl; stu_created_at := created |}])%list t) w).

(** [SELECT COUNT( * ) AS c FROM students] *)
Definition count_students (t : DB) : N := N.of_nat (length (students t)).

(** [SELECT COUNT( * ) AS c FROM attendance a WHERE a.day=?] *)
Definition count_attendance (d : string) (t : DB) : N :=
  N.of_nat (length (List.filter (fun a => String.eqb (att_day a) d) (attendance t))).

(** [FROM attendance a JOIN students s ON s.id=a.student_id WHERE a.day=?] *)
Definition join_students (d : string) (t : DB) : list (Attendance * Student) :=
  flat_map
    (fun a =>
       if String.eqb (att_day a) d
       then List.map (fun s => (a, s))
              (List.filter (fun s => N.eqb (stu_id s) (student_id a)) (students t))
       else [])
    (attendance t).

(** [ORDER BY a.checked_in_at DESC] *)
Definition latest_first (p1 p2 : Attendance * Student) : Prop :=
  String.compare (checked_in_at p2.1) (checked_in_at p1.1) <> Gt.

Global Instance latest_first_dec : RelDecision latest_first.
Proof. intros p1 p2. unfold latest_first. apply _. Defined.

Definition recent_row (p : Attendance * Student) : RecentRow :=
  {| rc_checked_in_at := checked_in_at p.1;
     rc_roll_no := roll_no p.2;
     rc_full_name := full_name p.2;
     rc_snapshot_path := snapshot_path p.1 |}.

(** The query of the dashboard, with [LIMIT 50]. *)
Definition recent_checkins (d : string) (t : DB) : list RecentRow :=
  List.map recent_row (take 50 (merge_sort latest_first (join_students d t))).

End AdminSql.

Definition msg_invalid : string := "Invalid credentials.".
Definition msg_all_required : string := "All fields required.".
Definition msg_added : string := "Student added.".
Definition msg_roll_exists : string := "Roll number already exists.".
Definition msg_no_match : string := "New passwords do not match.".
Definition msg_old_wrong : string := "Old password wrong.".
Definition msg_updated : string := "Password updated.".

(** [snapshot]: [send_from_directory] answers 404 for a file that is not in
    the directory. *)
Definition snapshot (filename : string) : MS AdminResponse :=
  r ← lift require_admin;
  match r with
  | Some resp => mret (Plain resp)
  | None =>
      s ← get_site;
      match snap_dir (world s) !! filename with
      | Some frame => mret (SnapshotFile frame)
      | None => lift (abort 404)
      end
  end.

Section AdminRoutes.

Variable sha256 : list byte -> list byte.

(** [init_db]: the tables are created when missing, which touches no row;
    the default admin is created when the table has none. *)
Definition init_db (c : Clock) (r : list byte) : MS unit :=
  s ← get_site;
  if AdminSql.count_admin s =? 0 then
    let sl := token_hex r in
    let ph := hash_pw sha256 "admin123" sl in
    AdminSql.insert_admin "admin" ph sl;;
    lift (Sql.insert_audit
            {| ts := now c; event := "INIT_ADMIN";
               detail := "Default admin created (admin/admin123). Change ASAP." |})
  else mret tt.

Definition admin_login (rq : Request) (c : Clock) : MS AdminResponse :=
  match method rq with
  | POST =>
      let user := Py.strip (form_get rq "username") in
      let pw := Py.strip (form_get rq "password") in
      s ← get_site;
      match AdminSql.select_admin user s with
      | None =>
          lift (flash msg_invalid);;
          mret (Plain (Redirect "admin_login"))
      | Some row =>
          if negb (String.eqb (hash_pw sha256 pw (adm_salt row)) (pass_hash row)) then
            lift (flash msg_invalid);;
            mret (Plain (Redirect "admin_login"))
          else
            lift (modify (with_session (fun x =>
                    {| rl := rl x; admin := true; flashes := flashes x |})));;
            lift (log c "ADMIN_LOGIN" user);;
            mret (Plain (Redirect "admin_dashboard"))
      end
  | GET =>
      lift page;;
      mret LoginForm
  end.

(** [admin_dashboard], a GET route. [today()] is read by the count of the
    day, by the query of the recent check-ins and by the page. *)
Definition admin_dashboard (rq : Request) (ck : Clock) (ent : Entropy3)
    (c_count c_recent c_page : Clock) : MS AdminResponse :=
  match method rq with
  | POST => lift (abort 405)
  | GET =>
      r ← lift require_admin;
      match r with
      | Some resp => mret (Plain resp)
      | None =>
          code ← lift (get_or_create_session_code ck ent);
          s ← get_site;
          let t := db (world s) in
          lift page;;
          mret (Dashboard (today c_page) code (AdminSql.count_students t)
                  (AdminSql.count_attendance (today c_count) t)
                  (AdminSql.recent_checkins (today c_recent) t))
      end
  end.

(** [admin_add_student], a POST route. [now()] is read by the insert and
    again by [log]. *)
Definition admin_add_student (rq : Request) (c c_log : Clock) (r : list byte)
  : MS AdminResponse :=
  match method rq with
  | GET => lift (abort 405)
  | POST =>
      a ← lift require_admin;
      match a with
      | Some resp => mret (Plain resp)
      | None =>
          let roll := Py.strip (form_get rq "roll_no") in
          let name := Py.strip (form_get rq "full_name") in
          let cls := Py.strip (form_get rq "class_name") in
          let sec := Py.strip (form_get rq "section") in
          let pin := Py.strip (form_get rq "pin") in
          if Py.falsy roll || Py.falsy name || Py.falsy cls || Py.falsy sec || Py.falsy pin
          then
            lift (flash msg_all_required);;
            mret (Plain (Redirect "admin_dashboard"))
          else
            let sl := token_hex r in
            let ph := hash_pw sha256 pin sl in
            try_except_integrity_site
              (lift (AdminSql.insert_student roll name cls sec ph sl (now c));;
               lift (log c_log "ADD_STUDENT"
                       ("roll=" ++ roll ++ ", name=" ++ name ++ ", class=" ++ cls
                        ++ "-" ++ sec));;
               lift (flash msg_added))
              (lift (flash msg_roll_exists));;
            mret (Plain (Redirect "admin_dashboard"))
      end
  end.

Definition admin_change_password (rq : Request) (c : Clock) (r : list byte)
  : MS AdminResponse :=
  a ← lift require_admin;
  match a with
  | Some resp => mret (Plain resp)
  | None =>
      match method rq with
      | POST =>
          let old := form_get rq "old" in
          let new := form_get rq "new" in
          let new2 := form_get rq "new2" in
          if Py.falsy new || negb (String.eqb new new2) then
            lift (flash msg_no_match);;
            mret (Plain (Redirect "admin_change_password"))
          else
            s ← get_site;
            match AdminSql.select_admin "admin" s with
            | None =>
                lift (flash msg_old_wrong);;
                mret (Plain (Redirect "admin_change_password"))
            | Some row =>
                if negb (String.eqb (hash_pw sha256 old (adm_salt row)) (pass_hash row)) then
                  lift (flash msg_old_wrong);;
                  mret (Plain (Redirect "admin_change_password"))
                else
                  let sl := token_hex r in
                  let ph := hash_pw sha256 new sl in
                  AdminSql.update_admin_password ph sl;;
                  lift (log c "ADMIN_PW_CHANGE" "admin password changed");;
                  lift (flash msg_updated);;
                  mret (Plain (Redirect "admin_dashboard"))
            end
      | GET =>
          lift page;;
          mret PasswordForm
      end
  end.

End AdminRoutes.

(** ** Vocabulary of the further properties *)

(** The requests of one client to the routes of the application, each with
    what its handler takes from the environment, served one after the
    other: the session and the store are carried from one to the next. *)
Inductive Visit :=
  | ToHome                                     (* GET / *)
  | ToKiosk (rq : Request) (e : KioskEnv)
  | ToLogin (rq : Request) (c : Clock)
  | ToLogout                                   (* GET /admin/logout *)
  | ToDashboard (rq : Request) (ck : Clock) (ent : Entropy3) (c1 c2 c3 : Clock)
  | ToAddStudent (rq : Request) (c cl : Clock) (r : list byte)
  | ToReports (rq : Request) (c : Clock)
  | ToChangePassword (rq : Request) (c : Clock) (r : list byte)
  | ToSnapshot (filename : string).            (* GET /snapshots/<filename> *)

Section Browse.
Variable sha256 : list byte -> list byte.

Definition visit (v : Visit) (s : Site) : Site :=
  match v with
  | ToHome => (lift home s).2
  | ToKiosk rq e => (lift (kiosk sha256 rq e) s).2
  | ToLogin rq c => (admin_login sha256 rq c s).2
  | ToLogout => (lift admin_logout s).2
  | ToDashboard rq ck ent c1 c2 c3 => (admin_dashboard rq ck ent c1 c2 c3 s).2
  | ToAddStudent rq c cl r => (admin_add_student sha256 rq c cl r s).2
  | ToReports rq c => (lift (admin_reports rq c) s).2
  | ToChangePassword rq c r => (admin_change_password sha256 rq c r s).2
  | ToSnapshot f => (snapshot f s).2
  end.

Definition browse (vs : list Visit) (s : Site) : Site :=
  fold_left (fun s v => visit v s) vs s.

End Browse.

(** The check-in attempts of a session, counted without the code: one for
    each POST to the kiosk, starting again at a logout. *)
Definition kiosk_post (v : Visit) : bool :=
  match v with
  | ToKiosk rq _ => match method rq with POST => true | GET => false end
  | _ => false
  end.

Definition is_logout (v : Visit) : bool :=
  match v with ToLogout => true | _ => false end.

Definition counted (n : N) (v : Visit) : N :=
  if is_logout v then 0 else if kiosk_post v then n + 1 else n.

Definition attempts_after (vs : list Visit) (n : N) : N := fold_left counted vs n.

(** A handler that leaves the rate-limit entry of the session alone. *)
Definition keeps_rl {A} (m : MS A) : Prop :=
  forall s, rl (session (world (m s).2)) = rl (session (world s)).
Definition keeps_rl_M {A} (m : M A) : Prop :=
  forall w, rl (session (m w).2) = rl (session w).

(** The environment of a kiosk request with another camera. *)
Definition with_camera (cam : Camera) (e : KioskEnv) : KioskEnv :=
  {| clk_code := clk_code e; entropy := entropy e; clk_rl := clk_rl e; camera := cam;
     clk_snap := clk_snap e; clk_insert := clk_insert e; clk_log := clk_log e |}.

(** The roster as the inserts keep it: rolls and ids unique, and every
    attendance row of an enrolled student (the foreign key is not enforced
    by the store). *)
Definition roll_unique (t : DB) : Prop := NoDup (roll_no <$> students t).
Definition id_unique (t : DB) : Prop := NoDup (stu_id <$> students t).
Definition refs_ok (t : DB) : Prop :=
  Forall (fun a => student_id a ∈ stu_id <$> students t) (attendance t).
Definition roster_ok (t : DB) : Prop := roll_unique t /\ id_unique t /\ refs_ok t.

(** Every snapshot an attendance row names is a file of the directory. *)
Definition snaps_ok (w : World) : Prop :=
  Forall (fun a => forall f, snapshot_path a = Some f -> is_Some (snap_dir w !! f))
    (attendance (db w)).

Definition bounded_detail (ev : AuditEvent) : Prop :=
  (String.length (detail ev) <= 1000)%nat.

(** A row as the kiosk inserts it: present, and of an enrolled student. *)
Definition checked_in_row (t : DB) (a : Attendance) : Prop :=
  status a = "P" /\ exists stu, stu ∈ students t /\ stu_id stu = student_id a.

(** The fields of the add-student form as the handler reads them, and the
    student it inserts. *)
Definition added_roll (rq : Request) : string := Py.strip (form_get rq "roll_no").
Definition added_pin (rq : Request) : string := Py.strip (form_get rq "pin").

Definition form_complete (rq : Request) : Prop :=
  added_roll rq <> "" /\ Py.strip (form_get rq "full_name") <> "" /\
  Py.strip (form_get rq "class_name") <> "" /\ Py.strip (form_get rq "section") <> "" /\
  added_pin rq <> "".

Definition new_student (sha256 : list byte -> list byte)
    (rq : Request) (c : Clock) (r : list byte) (t : DB) : Student :=
  {| stu_id := AdminSql.next_rowid (stu_id <$> students t);
     roll_no := added_roll rq;
     full_name := Py.strip (form_get rq "full_name");
     class_name := Py.strip (form_get rq "class_name");
     section := Py.strip (form_get rq "section");
     pin_hash := hash_pw sha256 (added_pin rq) (token_hex r);
     salt := token_hex r;
     stu_created_at := now c |}.

(** The attendance rows of a day. *)
Definition rows_of_day (d : string) (t : DB) : list Attendance :=
  List.filter (fun a => String.eqb (att_day a) d) (attendance t).

(** The request with another PIN typed into the form. *)
Definition typed_pin (p : string) (rq : Request) : Request :=
  {| method := method rq; form := <["pin" := p]> (form rq); args := args rq;
     remote_addr := remote_addr rq; headers := headers rq |}.

(** How [admin_login] answers a POST: the row of the typed user name
    exists and the typed password hashes to what the row stores. *)
Definition credentials_ok (sha256 : list byte -> list byte) (rq : Request) (s : Site) : Prop :=
  exists row,
    AdminSql.select_admin (Py.strip (form_get rq "username")) s = Some row /\
    hash_pw sha256 (Py.strip (form_get rq "password")) (adm_salt row) = pass_hash row.

(** The row and the audit event of the default admin. *)
Definition default_admin (sha256 : list byte -> list byte) (r : list byte) : AdminRow :=
  {| adm_id := 1; username := "admin";
     pass_hash := hash_pw sha256 "admin123" (token_hex r); adm_salt := token_hex r |}.

Definition init_admin_event (c : Clock) : AuditEvent :=
  {| ts := now c; event := "INIT_ADMIN";
     detail := "Default admin created (admin/admin123). Change ASAP." |}.

(** How [admin_change_password] answers a POST of an admin. *)
Definition set_admin_password (ph sl : string) (r : AdminRow) : AdminRow :=
  if String.eqb (username r) "admin"
  then {| adm_id := adm_id r; username := username r; pass_hash := ph; adm_salt := sl |}
  else r.

Definition change_accepted (sha256 : list byte -> list byte) (rq : Request) (s : Site) : Prop :=
  form_get rq "new" <> "" /\
  form_get rq "new" = form_get rq "new2" /\
  exists row,
    AdminSql.select_admin "admin" s = Some row /\
    hash_pw sha256 (form_get rq "old") (adm_salt row) = pass_hash row.

(** ** Sample data: the site of the class, with its admin *)

Module SampleSite.

Import Sample.

(** Sixteen bytes of the random source. *)
Definition salt_bytes : list byte :=
  [x01; x23; x45; x67; x89; xab; xcd; xef; x10; x32; x54; x76; x98; xba; xdc; xfe].

(** The site on its first start: the class is enrolled, nobody is admin. *)
Definition first_start : Site := {| world := enrolled; admins := [] |}.

(** The row [init_db] creates, under the stand-in for SHA-256. *)
Definition head_row : AdminRow := Eval vm_compute in default_admin spin salt_bytes.

(** The site with a visitor at the kiosk, and with the teacher logged in. *)
Definition lobby : Site := {| world := checked_in; admins := [head_row] |}.
Definition office : Site := {| world := teacher; admins := [head_row] |}.

Definition post (fields : list (string * string)) : Request :=
  {| method := POST; form := list_to_map fields; args := ∅;
     remote_addr := Some "127.0.0.1"; headers := ∅ |}.

Definition login_post : Request :=
  post [("username", "admin"); ("password", " admin123 ")].
Definition wrong_login_post : Request :=
  post [("username", "admin"); ("password", "letmein")].
Definition add_post : Request :=
  post [("roll_no", " 7 "); ("full_name", "Dawa"); ("class_name", "10");
        ("section", "A"); ("pin", "9999")].
Definition add_again_post : Request :=
  post [("roll_no", "12"); ("full_name", "Asha"); ("class_name", "10");
        ("section", "A"); ("pin", "1111")].
Definition change_post : Request :=
  post [("old", "admin123"); ("new", "s3cret"); ("new2", "s3cret")].
Definition new_login_post : Request :=
  post [("username", "admin"); ("password", "s3cret")].

(** The check-ins of the student just added, and of the student with roll 5. *)
Definition dawa_post : Request := checkin " 7 " "9999" "a1b2c3".
Definition five_post : Request := checkin "5" "4321" "A1B2C3".

(** The Monday with a camera that works and a disk that takes no file. *)
Definition full_disk : KioskEnv :=
  with_camera
    {| OPENCV_OK := true; isOpened := true; read_ok := true; read_frame := Some [xff; xd8];
       imwrite_ok := false |}
    env.

End SampleSite.

(** * Properties *)

(** ** Running the handlers *)

Lemma bind_run {A B} (m : M A) (f : A -> M B) (w : World) :
  (m ≫= f) w =
  match m w with
  | (Ok a, w') => f a w'
  | (Raise e, w') => (Raise e, w')
  end.
Proof. reflexivity. Qed.

Lemma find_none_existsb {A} (p : A -> bool) (l : list A) :
  find p l = None -> existsb p l = false.
Proof.
  induction l as [|x l IH]; simpl; [done|].
  destruct (p x); [done|]. exact IH.
Qed.

Lemma with_db_id w : with_db id w = w.
Proof. by destruct w. Qed.

Lemma get_or_create_session_code_among_run others c r w :
  get_or_create_session_code_among others c r w =
  match Sql.select_day_session (today c) (db w) with
  | Some row => (Ok (session_code row), w)
  | None =>
      if existsb (fun r' => String.eqb (day r') (today c)) (day_sessions (others (db w)))
      then (Raise IntegrityError, with_db others w)
      else (Ok (Py.upper (token_hex3 r)),
            logged (new_day_event c r)
              (with_db (fun t => set_day_sessions (day_sessions t ++ [new_day_row c r]) t)
                 (with_db others w)))
  end.
Proof.
  unfold get_or_create_session_code_among.
  rewrite bind_run. cbn [get_world].
  destruct (Sql.select_day_session (today c) (db w)) as [row|]; [done|].
  rewrite bind_run. cbn [modify]. rewrite bind_run.
  unfold Sql.insert_day_session. cbn [day db with_db].
  destruct (existsb _ _); reflexivity.
Qed.

Lemma get_or_create_session_code_run c r w :
  get_or_create_session_code c r w = (Ok (todays_code c r w), ensure_code c r w).
Proof.
  unfold get_or_create_session_code, todays_code, ensure_code.
  rewrite get_or_create_session_code_among_run, with_db_id.
  destruct (Sql.select_day_session (today c) (db w)) as [row|] eqn:Hsel; [done|].
  unfold Sql.select_day_session in Hsel.
  unfold id. by rewrite (find_none_existsb _ _ Hsel).
Qed.

Lemma bump_rate_limit_run c w :
  bump_rate_limit c 20 w =
  (if 20 <? attempts (session w) + 1 then Raise (HTTPException 429) else Ok tt,
   bumped c w).
Proof.
  unfold bump_rate_limit, rate_limit_key, bumped, attempts.
  rewrite bind_run.
  destruct w as [t [o a f] sd]. cbn [session rl].
  destruct o as [r|]; cbn [count rl_ts N.add].
  - rewrite bind_run. cbn. destruct (20 <? count r + 1); reflexivity.
  - rewrite bind_run. cbn. reflexivity.
Qed.

Lemma ensure_code_session c r w : session (ensure_code c r w) = session w.
Proof. unfold ensure_code. by destruct (Sql.select_day_session _ _). Qed.

Lemma capture_snapshot_run c cam roll w :
  capture_snapshot c cam roll w =
  (Ok (fst <$> snapshot_of c cam roll), snapshot_saved c cam roll w).
Proof.
  unfold capture_snapshot, snapshot_saved, snapshot_of.
  destruct (OPENCV_OK cam); [|done].
  destruct (isOpened cam); [|done].
  destruct (read_ok cam); [|done].
  destruct (read_frame cam); [|done].
  by destruct (imwrite_ok cam).
Qed.

Lemma page_run w : page w = (Ok tt, shown w).
Proof. reflexivity. Qed.

Lemma ensure_code_students c r w : students (db (ensure_code c r w)) = students (db w).
Proof. unfold ensure_code. by destruct (Sql.select_day_session _ _). Qed.
Lemma ensure_code_attendance c r w : attendance (db (ensure_code c r w)) = attendance (db w).
Proof. unfold ensure_code. by destruct (Sql.select_day_session _ _). Qed.
Lemma ensure_code_snap_dir c r w : snap_dir (ensure_code c r w) = snap_dir w.
Proof. unfold ensure_code. by destruct (Sql.select_day_session _ _). Qed.
Lemma snapshot_saved_db c cam roll w : db (snapshot_saved c cam roll w) = db w.
Proof.
  unfold snapshot_saved.
  by destruct (snapshot_of c cam roll) as [[??]|], (imwrite_ok cam).
Qed.
Lemma snapshot_saved_session c cam roll w : session (snapshot_saved c cam roll w) = session w.
Proof.
  unfold snapshot_saved.
  by destruct (snapshot_of c cam roll) as [[??]|], (imwrite_ok cam).
Qed.

Section KioskRun.
Variable sha256 : list byte -> list byte.

Lemma kiosk_run rq e w :
  kiosk sha256 rq e w =
  let code := todays_code (clk_code e) (entropy e) w in
  let w1 := ensure_code (clk_code e) (entropy e) w in
  match method rq with
  | GET => (Ok (KioskForm code), shown w1)
  | POST =>
    let w2 := bumped (clk_rl e) w1 in
    let roll := submitted_roll rq in
    if 20 <? attempts (session w) + 1 then (Raise (HTTPException 429), w2)
    else if Py.falsy roll || Py.falsy (submitted_pin rq) || Py.falsy (submitted_code rq)
    then (Ok (Redirect "kiosk"), flashed msg_fill w2)
    else if negb (String.eqb (submitted_code rq) code)
    then (Ok (Redirect "kiosk"),
          flashed msg_bad_code
            (logged (audit_event e "CHECKIN_FAIL" ("roll=" ++ roll ++ ", reason=bad_session_code")) w2))
    else
      match Sql.select_student roll (db w) with
      | None =>
          (Ok (Redirect "kiosk"),
           flashed msg_unknown
             (logged (audit_event e "CHECKIN_FAIL" ("roll=" ++ roll ++ ", reason=unknown_roll")) w2))
      | Some stu =>
          if negb (String.eqb (hash_pw sha256 (submitted_pin rq) (salt stu)) (pin_hash stu))
          then (Ok (Redirect "kiosk"),
                flashed msg_bad_pin
                  (logged (audit_event e "CHECKIN_FAIL" ("roll=" ++ roll ++ ", reason=bad_pin")) w2))
          else
            let w3 := snapshot_saved (clk_snap e) (camera e) roll w2 in
            let a := attendance_row rq e stu in
            if existsb (Sql.same_key a) (attendance (db w))
            then (Ok (Redirect "kiosk"),
                  flashed msg_dup
                    (logged (audit_event e "CHECKIN_DUP" ("roll=" ++ roll ++ " already checked today")) w3))
            else (Ok (CheckedIn stu),
                  shown
                    (logged (audit_event e "CHECKIN_OK"
                               ("roll=" ++ roll ++ ", snap=" ++ or_none (snapshot_path a)))
                       (with_db (set_attendance (attendance (db w) ++ [a])) w3)))
      end
  end.
Proof.
  unfold kiosk. rewrite bind_run, get_or_create_session_code_run.
  destruct (method rq); [done|].
  rewrite bind_run, bump_rate_limit_run, ensure_code_session.
  cbv zeta.
  destruct (20 <? attempts (session w) + 1); [done|].
  fold (submitted_roll rq) (submitted_pin rq) (submitted_code rq).
  destruct (Py.falsy (submitted_roll rq) || Py.falsy (submitted_pin rq)
            || Py.falsy (submitted_code rq)); [done|].
  destruct (negb _); [done|].
  rewrite bind_run. cbn [get_world].
  unfold Sql.select_student. cbn [bumped with_session db].
  rewrite ensure_code_students.
  destruct (find _ (students (db w))) as [stu|]; [|done].
  destruct (negb _); [done|].
  rewrite bind_run, capture_snapshot_run.
  unfold try_except_integrity. rewrite bind_run.
  unfold Sql.insert_attendance.
  fold (attendance_row rq e stu).
  rewrite snapshot_saved_db. cbn [attendance_row status String.eqb Ascii.eqb Bool.eqb negb].
  cbn [bumped with_session db]. rewrite ensure_code_attendance.
  fold (attendance_row rq e stu).
  destruct (existsb _ (attendance (db w))); [done|].
  reflexivity.
Qed.
End KioskRun.

(** ** Session code registry *)

Lemma select_day_session_app d t r :
  Sql.select_day_session d (set_day_sessions (day_sessions t ++ [r]) t) =
  match Sql.select_day_session d t with
  | Some row => Some row
  | None => if String.eqb (day r) d then Some r else None
  end.
Proof.
  unfold Sql.select_day_session. cbn [day_sessions set_day_sessions].
  induction (day_sessions t) as [|x l IH]; simpl.
  - by destruct (String.eqb (day r) d).
  - by destruct (String.eqb (day x) d).
Qed.

Lemma select_day_session_ensure c r w :
  Sql.select_day_session (today c) (db (ensure_code c r w)) =
  Some (match Sql.select_day_session (today c) (db w) with
        | Some row => row
        | None => new_day_row c r
        end).
Proof.
  unfold ensure_code.
  destruct (Sql.select_day_session (today c) (db w)) as [row|] eqn:Hsel; [done|].
  cbn [db with_db].
  change (Sql.select_day_session (today c) (set_audit_log ?l ?t))
    with (Sql.select_day_session (today c) t).
  rewrite select_day_session_app, Hsel. cbn [day new_day_row].
  by rewrite String.eqb_refl.
Qed.

(** C3.  [get_or_create_session_code] is idempotent per day.  Once a row
    for the day exists, a call returns the stored code and leaves the whole
    world as it was: no new code, no update of the row, no audit event,
    whatever the random source holds.  When no row exists, the call creates
    it, appends one NEW_DAY_SESSION event, and every later call on that day
    returns the same code and changes nothing. *)
Theorem session_code_fixed_for_the_day (c : Clock) (r : Entropy3) (w : World) :
  (forall row, Sql.select_day_session (today c) (db w) = Some row ->
     get_or_create_session_code c r w = (Ok (session_code row), w)) /\
  (Sql.select_day_session (today c) (db w) = None ->
     exists code w1,
       get_or_create_session_code c r w = (Ok code, w1) /\
       day_sessions (db w1) = (day_sessions (db w) ++ [new_day_row c r])%list /\
       session_code (new_day_row c r) = code /\
       audit_log (db w1) = (audit_log (db w) ++ [new_day_event c r])%list /\
       event (new_day_event c r) = "NEW_DAY_SESSION" /\
       forall c' r', today c' = today c ->
         get_or_create_session_code c' r' w1 = (Ok code, w1)).
Proof.
  split.
  - intros row Hsel.
    rewrite get_or_create_session_code_run. unfold todays_code, ensure_code.
    by rewrite Hsel.
  - intros Hsel.
    exists (Py.upper (token_hex3 r)), (ensure_code c r w).
    rewrite get_or_create_session_code_run.
    pose proof (select_day_session_ensure c r w) as Hnew.
    unfold todays_code. rewrite Hsel in Hnew |- *.
    split; [done|].
    unfold ensure_code in *. rewrite Hsel in *.
    repeat split; try done.
    intros c' r' Hday.
    rewrite get_or_create_session_code_run. unfold todays_code, ensure_code.
    rewrite Hday. unfold ensure_code in Hnew. by rewrite Hnew.
Qed.

Lemma hex_digits_code (b : byte) :
  code_char (Py.upper_char (Py.hex_digit (Byte.to_N b / 16))) = true /\
  code_char (Py.upper_char (Py.hex_digit (Byte.to_N b mod 16))) = true.
Proof. destruct b; vm_compute; done. Qed.

Lemma token_is_code (r : Entropy3) : is_code (Py.upper (token_hex3 r)) = true.
Proof.
  destruct r as [[b1 b2] b3].
  unfold is_code, token_hex3, Py.hex. cbn [foldr Py.hex_byte Py.upper String.length Nat.eqb].
  cbn [list_ascii_of_string forallb andb].
  destruct (hex_digits_code b1) as [-> ->], (hex_digits_code b2) as [-> ->],
    (hex_digits_code b3) as [-> ->].
  reflexivity.
Qed.

Lemma existsb_day_elem d (l : list DaySession) :
  existsb (fun r' => String.eqb (day r') d) l = false -> d ∉ day <$> l.
Proof.
  induction l as [|x l IH]; simpl; intros H.
  - apply not_elem_of_nil.
  - apply orb_false_iff in H as [Hx Hl].
    apply not_elem_of_cons. split; [|by apply IH].
    intros ->. by rewrite String.eqb_refl in Hx.
Qed.

Lemma select_day_session_existsb d t :
  existsb (fun r' => String.eqb (day r') d) (day_sessions t) =
  bool_decide (is_Some (Sql.select_day_session d t)).
Proof.
  unfold Sql.select_day_session.
  induction (day_sessions t) as [|x l IH]; simpl; [done|].
  by destruct (String.eqb (day x) d).
Qed.

(** C7, as amended.  When the lookup finds no row for the day, the code
    made is six characters out of 0-9 and A-F.  With no row created by others
    between the lookup and the insert, the call persists the row and returns
    its code.  With such a row, the primary key refuses the insert: the call
    raises the integrity error, returns no code and adds nothing (it does
    not read the table again).  Either way the table keeps one row per day,
    and a code is returned only when the table holds it for the day. *)
Theorem session_code_created_once
    (others : DB -> DB) (c : Clock) (r : Entropy3) (w : World) :
  Sql.select_day_session (today c) (db w) = None ->
  day_unique (others (db w)) ->
  let code := Py.upper (token_hex3 r) in
  let out := get_or_create_session_code_among others c r w in
  is_code code = true /\
  day_unique (db out.2) /\
  match Sql.select_day_session (today c) (others (db w)) with
  | None =>
      out.1 = Ok code /\
      day_sessions (db out.2) = (day_sessions (others (db w)) ++ [new_day_row c r])%list /\
      Sql.select_day_session (today c) (db out.2) = Some (new_day_row c r)
  | Some _ =>
      out = (Raise IntegrityError, with_db others w)
  end /\
  (forall code', out.1 = Ok code' ->
     exists row, Sql.select_day_session (today c) (db out.2) = Some row /\
                 session_code row = code').
Proof.
  intros Hsel Huniq code out. subst out.
  rewrite get_or_create_session_code_among_run, Hsel, select_day_session_existsb.
  split; [apply token_is_code|].
  destruct (Sql.select_day_session (today c) (others (db w))) as [row|] eqn:Hoth.
  - rewrite bool_decide_eq_true_2 by eauto. cbn [fst snd db with_db].
    repeat split; [done|]. intros code' [=].
  - rewrite bool_decide_eq_false_2 by (intros [? [=]]).
    cbn [fst snd db with_db logged set_audit_log day_sessions set_day_sessions].
    assert (Sql.select_day_session (today c)
              (set_day_sessions (day_sessions (others (db w)) ++ [new_day_row c r])
                 (others (db w))) = Some (new_day_row c r)) as Hnew.
    { rewrite select_day_session_app, Hoth. cbn [day new_day_row].
      by rewrite String.eqb_refl. }
    repeat split.
    + unfold day_unique. cbn [day_sessions set_audit_log set_day_sessions]. rewrite fmap_app.
      apply NoDup_app. split; [done|]. split; [|apply NoDup_singleton].
      intros d Hd Hin%list_elem_of_singleton. cbn [day new_day_row] in Hin. subst d.
      revert Hd. apply existsb_day_elem.
      rewrite select_day_session_existsb, Hoth.
      apply bool_decide_eq_false_2. intros [? [=]].
    + exact Hnew.
    + intros code' [= <-]. exists (new_day_row c r). split; [exact Hnew|done].
Qed.

(** ** Credential hasher *)

Lemma hex_digit_inj n m : n < 16 -> m < 16 -> Py.hex_digit n = Py.hex_digit m -> n = m.
Proof.
  unfold Py.hex_digit. intros Hn Hm H.
  apply (f_equal N_of_ascii) in H.
  destruct (n <? 10) eqn:Hn10, (m <? 10) eqn:Hm10;
    rewrite ?N.ltb_lt, ?N.ltb_ge in *;
    rewrite !N_ascii_embedding in H by lia; lia.
Qed.

Lemma byte_to_N_inj b1 b2 : Byte.to_N b1 = Byte.to_N b2 -> b1 = b2.
Proof.
  intros H. apply (f_equal Byte.of_N) in H. rewrite !Byte.of_to_N in H. congruence.
Qed.

Lemma byte_to_N_bound b : Byte.to_N b < 256.
Proof. pose proof (Byte.to_N_bounded b). lia. Qed.

Lemma hex_inj : Inj (=) (=) Py.hex.
Proof.
  intros bs1. induction bs1 as [|b1 bs1 IH]; intros [|b2 bs2] H; try done.
  cbn [Py.hex foldr Py.hex_byte] in H. injection H as Hhi Hlo Hrest.
  pose proof (byte_to_N_bound b1). pose proof (byte_to_N_bound b2).
  apply hex_digit_inj in Hhi; [|apply N.Div0.div_lt_upper_bound; lia..].
  apply hex_digit_inj in Hlo; [|apply N.mod_lt; lia..].
  f_equal; [|by apply IH].
  apply byte_to_N_inj.
  rewrite (N.div_mod (Byte.to_N b1) 16), (N.div_mod (Byte.to_N b2) 16) by lia.
  by rewrite Hhi, Hlo.
Qed.

Lemma encode_inj : Inj (=) (=) Py.encode.
Proof.
  intros s1 s2 H. apply (f_equal string_of_list_byte) in H.
  unfold Py.encode in H. by rewrite !string_of_list_byte_of_string in H.
Qed.

Lemma iter_inj {A} (f : A -> A) (n : N) : Inj (=) (=) f -> Inj (=) (=) (N.iter n f).
Proof.
  intros Hf. induction n as [|n IH] using N.peano_ind; intros x y H.
  - done.
  - rewrite !N.iter_succ in H. by apply IH, Hf.
Qed.

Section HasherProperties.
Variable sha256 : list byte -> list byte.

Lemma verify_pw_iff (password other salt : string) :
  verify_pw sha256 other salt (hash_pw sha256 password salt) = true <->
  N.iter rounds sha256 (Py.encode (salt ++ other)) =
  N.iter rounds sha256 (Py.encode (salt ++ password)).
Proof.
  unfold verify_pw, hash_pw. rewrite String.eqb_eq.
  split; [apply hex_inj|by intros ->].
Qed.

(** C4.  Credential hash round trip.  Verifying a secret against its own
    digest under the same salt succeeds; the digest is the hexadecimal form
    of SHA-256 iterated 150000 times (at least 100000) on the bytes of salt
    followed by secret.  Another secret gives other input bytes and is
    accepted exactly when the two iterated digests collide; under a
    collision-free hash it is refused. *)
Theorem credential_hash_round_trip (secret salt : string) :
  verify_pw sha256 secret salt (hash_pw sha256 secret salt) = true /\
  hash_pw sha256 secret salt =
    Py.hex (N.iter rounds sha256 (Py.encode (salt ++ secret))) /\
  100000 <= rounds /\
  (forall other, other <> secret ->
     Py.encode (salt ++ other) <> Py.encode (salt ++ secret) /\
     (verify_pw sha256 other salt (hash_pw sha256 secret salt) = true <->
      N.iter rounds sha256 (Py.encode (salt ++ other)) =
      N.iter rounds sha256 (Py.encode (salt ++ secret))) /\
     (Inj (=) (=) sha256 ->
      verify_pw sha256 other salt (hash_pw sha256 secret salt) = false)).
Proof.
  split; [by apply verify_pw_iff|]. split; [done|]. split; [by vm_compute|].
  intros other Hne.
  assert (Py.encode (salt ++ other) <> Py.encode (salt ++ secret)) as Hin.
  { intros H. apply encode_inj, String.app_inj in H. done. }
  split; [done|]. split; [apply verify_pw_iff|].
  intros Hsha. apply not_true_is_false. rewrite verify_pw_iff.
  intros H. by apply (iter_inj sha256 rounds Hsha) in H.
Qed.
End HasherProperties.

(** ** Kiosk *)

(** The branches of [kiosk], one goal each, the conditions met on the way
    left as equations in the context. *)
Ltac kiosk_branches sha rq e w :=
  let s := fresh "stu" in
  rewrite (kiosk_run sha rq e w); cbv zeta;
  destruct (method rq) eqn:?;
  [ | destruct (20 <? attempts (session w) + 1) eqn:?;
      [ | destruct (Py.falsy (submitted_roll rq) || Py.falsy (submitted_pin rq)
                    || Py.falsy (submitted_code rq)) eqn:?;
          [ | destruct (negb (String.eqb (submitted_code rq)
                               (todays_code (clk_code e) (entropy e) w))) eqn:?;
              [ | destruct (Sql.select_student (submitted_roll rq) (db w)) as [s|] eqn:?;
                  [ destruct (negb (String.eqb
                                (hash_pw sha (submitted_pin rq) (salt s)) (pin_hash s))) eqn:?;
                    [ | destruct (existsb (Sql.same_key (attendance_row rq e s))
                                    (attendance (db w))) eqn:? ]
                  | ] ] ] ] ].

Lemma falsy_false s : s <> "" -> Py.falsy s = false.
Proof. by destruct s. Qed.

Lemma fields_present rq :
  submitted_roll rq <> "" -> submitted_pin rq <> "" -> submitted_code rq <> "" ->
  Py.falsy (submitted_roll rq) || Py.falsy (submitted_pin rq)
  || Py.falsy (submitted_code rq) = false.
Proof. intros. by rewrite !falsy_false. Qed.

Lemma fields_missing rq :
  submitted_roll rq = "" \/ submitted_pin rq = "" \/ submitted_code rq = "" ->
  Py.falsy (submitted_roll rq) || Py.falsy (submitted_pin rq)
  || Py.falsy (submitted_code rq) = true.
Proof.
  intros [->|[->| ->]]; cbn [Py.falsy]; by rewrite ?orb_true_r.
Qed.

Lemma under_ceiling n : n < 20 -> (20 <? n + 1) = false.
Proof. intros. apply N.ltb_ge. lia. Qed.

(** Replacing the roster commutes with what the registry and the limiter do. *)
Lemma todays_code_students l c r w :
  todays_code c r (with_db (set_students l) w) = todays_code c r w.
Proof. reflexivity. Qed.

Lemma ensure_code_set_students l c r w :
  ensure_code c r (with_db (set_students l) w) =
  with_db (set_students l) (ensure_code c r w).
Proof.
  unfold ensure_code.
  change (Sql.select_day_session (today c) (db (with_db (set_students l) w)))
    with (Sql.select_day_session (today c) (db w)).
  by destruct (Sql.select_day_session (today c) (db w)).
Qed.

Lemma length_append (s1 s2 : string) :
  String.length (s1 ++ s2) = (String.length s1 + String.length s2)%nat.
Proof. induction s1 as [|a s1 IH]; simpl; [done|]. by rewrite IH. Qed.

Lemma prefix_all (n : nat) (s : string) :
  (String.length s <= n)%nat -> Py.prefix n s = s.
Proof.
  revert n. induction s as [|a s IH]; intros [|n] H; simpl in *; try done; try lia.
  rewrite IH; [done|lia].
Qed.

Lemma audit_detail_kept (r : Rejection) (roll ev det : string) :
  audit_of r roll = Some (ev, det) ->
  (String.length roll <= 970)%nat ->
  Py.prefix 1000 det = det.
Proof.
  intros Ha Hlen. apply prefix_all.
  destruct r; simplify_eq/=; rewrite !length_append; simpl; lia.
Qed.

Lemma flash_of_inj : Inj (=) (=) flash_of.
Proof. intros [] [] H; try done; vm_compute in H; discriminate H. Qed.

(** Projections of the worlds the handlers leave. *)
Lemma session_flashed m w : session (flashed m w) = push_flash m (session w).
Proof. done. Qed.
Lemma session_logged a w : session (logged a w) = session w.
Proof. done. Qed.
Lemma session_with_db f w : session (with_db f w) = session w.
Proof. done. Qed.
Lemma session_bumped c w :
  session (bumped c w) =
  set_rl (Some {| count := attempts (session w) + 1;
                  rl_ts := match rl (session w) with
                           | Some r => rl_ts r | None => now c end |}) (session w).
Proof. done. Qed.
Lemma flashes_set_rl r s : flashes (set_rl r s) = flashes s.
Proof. done. Qed.
Lemma flashes_push_flash m s : flashes (push_flash m s) = (flashes s ++ [m])%list.
Proof. done. Qed.
Lemma db_flashed m w : db (flashed m w) = db w.
Proof. done. Qed.
Lemma db_bumped c w : db (bumped c w) = db w.
Proof. done. Qed.
Lemma db_logged a w : db (logged a w) = set_audit_log (audit_log (db w) ++ [a]) (db w).
Proof. done. Qed.
Lemma db_with_db f w : db (with_db f w) = f (db w).
Proof. done. Qed.
Lemma attendance_set_audit_log l t : attendance (set_audit_log l t) = attendance t.
Proof. done. Qed.
Lemma attendance_set_attendance l t : attendance (set_attendance l t) = l.
Proof. done. Qed.
Lemma audit_log_set_audit_log l t : audit_log (set_audit_log l t) = l.
Proof. done. Qed.
Lemma audit_log_set_attendance l t : audit_log (set_attendance l t) = audit_log t.
Proof. done. Qed.
Lemma day_sessions_set_audit_log l t : day_sessions (set_audit_log l t) = day_sessions t.
Proof. done. Qed.
Lemma day_sessions_set_attendance l t : day_sessions (set_attendance l t) = day_sessions t.
Proof. done. Qed.
Lemma snap_dir_flashed m w : snap_dir (flashed m w) = snap_dir w.
Proof. done. Qed.
Lemma snap_dir_logged a w : snap_dir (logged a w) = snap_dir w.
Proof. done. Qed.
Lemma snap_dir_bumped c w : snap_dir (bumped c w) = snap_dir w.
Proof. done. Qed.
Lemma snap_dir_with_db f w : snap_dir (with_db f w) = snap_dir w.
Proof. done. Qed.
Lemma db_shown w : db (shown w) = db w.
Proof. done. Qed.
Lemma snap_dir_shown w : snap_dir (shown w) = snap_dir w.
Proof. done. Qed.
Lemma rl_shown w : rl (session (shown w)) = rl (session w).
Proof. done. Qed.
Lemma admin_shown w : admin (session (shown w)) = admin (session w).
Proof. done. Qed.
Lemma flashes_shown w : flashes (session (shown w)) = [].
Proof. done. Qed.

Create Rewrite HintDb world.
#[local] Hint Rewrite
  session_flashed session_logged session_with_db session_bumped
  flashes_set_rl flashes_push_flash
  db_flashed db_bumped db_logged db_with_db
  attendance_set_audit_log attendance_set_attendance
  audit_log_set_audit_log audit_log_set_attendance
  day_sessions_set_audit_log day_sessions_set_attendance
  snap_dir_flashed snap_dir_logged snap_dir_bumped snap_dir_with_db
  db_shown snap_dir_shown rl_shown admin_shown flashes_shown
  snapshot_saved_db snapshot_saved_session
  ensure_code_session ensure_code_attendance ensure_code_students ensure_code_snap_dir
  : world.

(** The uniqueness check of the insert, in terms of keys and of rows. *)
Lemma same_key_spec a b : Sql.same_key a b = true <-> att_key a = att_key b.
Proof.
  unfold Sql.same_key, att_key. rewrite andb_true_iff, N.eqb_eq, String.eqb_eq.
  split; [intros [-> ->]; done|intros [= -> ->]; done].
Qed.

Lemma existsb_same_key_false a l :
  existsb (Sql.same_key a) l = false <-> att_key a ∉ att_key <$> l.
Proof.
  induction l as [|b l IH]; simpl.
  - split; [intros _; apply not_elem_of_nil|done].
  - rewrite orb_false_iff, IH, not_elem_of_cons.
    rewrite <- not_true_iff_false, same_key_spec. done.
Qed.

Lemma records_of_key sid d t a :
  a ∈ records_of sid d t <-> a ∈ attendance t /\ att_key a = (sid, d).
Proof.
  unfold records_of. rewrite !list_elem_of_In, filter_In.
  rewrite andb_true_iff, N.eqb_eq, String.eqb_eq. unfold att_key.
  split; [intros [? [-> ->]]; done|intros [? [= -> ->]]; done].
Qed.

Lemma existsb_same_key_records a t :
  existsb (Sql.same_key a) (attendance t) = true <->
  records_of (student_id a) (att_day a) t <> [].
Proof.
  rewrite existsb_exists. split.
  - intros (b & Hb & Hk%same_key_spec) Hnil.
    assert (b ∈ records_of (student_id a) (att_day a) t) as Hin
      by (apply records_of_key; split; [by apply list_elem_of_In|done]).
    rewrite Hnil in Hin. by apply not_elem_of_nil in Hin.
  - destruct (records_of _ _ _) as [|b l] eqn:Hr; [done|]. intros _.
    assert (b ∈ records_of (student_id a) (att_day a) t) as Hin
      by (rewrite Hr; apply list_elem_of_here).
    apply records_of_key in Hin as [Hin Hk].
    exists b. split; [by apply list_elem_of_In|by apply same_key_spec].
Qed.

Lemma filter_key_length {A K} `{EqDecision K} (key : A -> K) (p : A -> bool) (k : K)
    (l : list A) :
  (forall a, p a = true <-> key a = k) ->
  NoDup (key <$> l) -> (length (List.filter p l) <= 1)%nat.
Proof.
  intros Hp. induction l as [|a l IH]; simpl; [lia|].
  intros [Hnot Hnd]%NoDup_cons. specialize (IH Hnd).
  destruct (p a) eqn:Hpa; [|lia].
  apply Hp in Hpa. cbn [length].
  destruct (List.filter p l) as [|b l'] eqn:Hf; [simpl; lia|].
  exfalso. apply Hnot.
  assert (In b (List.filter p l)) as Hb by (rewrite Hf; by left).
  apply filter_In in Hb as [Hb Hpb]. apply Hp in Hpb.
  rewrite Hpa, <- Hpb. apply list_elem_of_fmap. exists b. split; [done|by apply list_elem_of_In].
Qed.

Lemma att_unique_records t sid d :
  att_unique t -> (length (records_of sid d t) <= 1)%nat.
Proof.
  intros Hu. unfold records_of.
  apply (filter_key_length att_key _ (sid, d)); [|exact Hu].
  intros a. rewrite andb_true_iff, N.eqb_eq, String.eqb_eq. unfold att_key.
  split; [intros [-> ->]; done|intros [= -> ->]; done].
Qed.

(** Codes of the registry are their own upper case, and not empty. *)
Lemma code_char_upper a : code_char a = true -> Py.upper_char a = a.
Proof.
  unfold code_char, Py.upper_char. intros H.
  destruct ((97 <=? N_of_ascii a) && (N_of_ascii a <=? 122)) eqn:Hl; [|done].
  exfalso. apply andb_true_iff in Hl as [H1%N.leb_le H2%N.leb_le].
  apply orb_true_iff in H as [H|H]; apply andb_true_iff in H as [H3%N.leb_le H4%N.leb_le]; lia.
Qed.

Lemma forallb_code_upper s :
  forallb code_char (list_ascii_of_string s) = true -> Py.upper s = s.
Proof.
  induction s as [|a s IH]; simpl; [done|].
  intros [Ha Hs]%andb_true_iff. by rewrite code_char_upper, IH.
Qed.

Lemma is_code_upper s : is_code s = true -> Py.upper s = s.
Proof. intros [_ H]%andb_true_iff. by apply forallb_code_upper. Qed.

Lemma is_code_nonempty s : is_code s = true -> s <> "".
Proof. by intros H ->. Qed.

Lemma todays_code_is_code c r w :
  codes_wf (db w) -> is_code (todays_code c r w) = true.
Proof.
  intros Hwf. unfold todays_code.
  destruct (Sql.select_day_session (today c) (db w)) as [row|] eqn:Hsel.
  - unfold Sql.select_day_session in Hsel. apply find_some in Hsel as [Hin _].
    unfold codes_wf in Hwf. rewrite Forall_forall in Hwf. by apply Hwf, list_elem_of_In.
  - apply token_is_code.
Qed.

(** The registry keeps the stored codes well formed. *)
Lemma ensure_code_codes_wf c r w :
  codes_wf (db w) -> codes_wf (db (ensure_code c r w)).
Proof.
  intros Hwf. unfold ensure_code.
  destruct (Sql.select_day_session (today c) (db w)); [done|].
  unfold codes_wf. cbn [db with_db]. autorewrite with world.
  cbn [day_sessions set_day_sessions].
  apply Forall_app. split; [done|].
  apply Forall_singleton. cbn [session_code new_day_row]. apply token_is_code.
Qed.

Section Kiosk.
Variable sha256 : list byte -> list byte.

Lemma kiosk_rl rq e w :
  rl (session (kiosk sha256 rq e w).2) =
  match method rq with
  | GET => rl (session w)
  | POST => Some {| count := attempts (session w) + 1;
                    rl_ts := match rl (session w) with
                             | Some r => rl_ts r | None => now (clk_rl e) end |}
  end.
Proof.
  kiosk_branches sha256 rq e w; cbn [snd];
    unfold shown, flashed, logged, bumped;
    cbn [session with_session with_db rl set_rl push_flash];
    rewrite ?snapshot_saved_session; cbn [session with_session with_db rl set_rl push_flash];
    rewrite ?ensure_code_session; try done.
Qed.

Lemma kiosk_attempts rq e w :
  attempts (session (kiosk sha256 rq e w).2) =
  attempts (session w) + (if is_post (rq, e) then 1 else 0).
Proof.
  unfold attempts at 1. rewrite kiosk_rl. unfold is_post. cbn [fst].
  destruct (method rq); cbn [count]; [|done].
  unfold attempts. lia.
Qed.

Lemma serve_app rqs1 rqs2 w :
  serve sha256 (rqs1 ++ rqs2) w =
  let o1 := serve sha256 rqs1 w in
  let o2 := serve sha256 rqs2 o1.2 in
  ((o1.1 ++ o2.1)%list, o2.2).
Proof.
  revert w. induction rqs1 as [|[rq e] rqs1 IH]; intros w; simpl.
  - by destruct (serve sha256 rqs2 w).
  - rewrite IH. reflexivity.
Qed.

Lemma serve_length rqs w : length (serve sha256 rqs w).1 = length rqs.
Proof.
  revert w. induction rqs as [|[rq e] rqs IH]; intros w; cbn [serve fst length]; [done|].
  by rewrite IH.
Qed.

Lemma serve_attempts rqs w :
  attempts (session (serve sha256 rqs w).2) =
  attempts (session w) + N.of_nat (length (List.filter is_post rqs)).
Proof.
  revert w. induction rqs as [|[rq e] rqs IH]; intros w; cbn [serve snd List.filter].
  - cbn. lia.
  - rewrite IH, kiosk_attempts. destruct (is_post (rq, e)); cbn [length]; lia.
Qed.

(** C2.  The checks run in the order fields, session code, roster, PIN, and
    the first that fails ends the request.  A missing field flashes and
    returns before the code is compared.  A wrong code is logged and flashed
    and returns before the roster is read or a PIN hashed: the outcome is
    the same for every roster and every hash function.  An unknown roll
    returns before any PIN is hashed; a wrong PIN returns before the snapshot
    and the insert; only a request that passes all four reaches them. *)
Theorem validation_short_circuits (rq : Request) (e : KioskEnv) (w : World) :
  method rq = POST ->
  attempts (session w) < 20 ->
  let code := todays_code (clk_code e) (entropy e) w in
  let w2 := bumped (clk_rl e) (ensure_code (clk_code e) (entropy e) w) in
  let roll := submitted_roll rq in
  let out := kiosk sha256 rq e w in
  (roll = "" \/ submitted_pin rq = "" \/ submitted_code rq = "" ->
     out = (Ok (Redirect "kiosk"), flashed (flash_of MissingField) w2)) /\
  (roll <> "" -> submitted_pin rq <> "" -> submitted_code rq <> "" ->
     (submitted_code rq <> code ->
        let w' := flashed (flash_of BadSessionCode)
                    (logged (audit_event e "CHECKIN_FAIL"
                               ("roll=" ++ roll ++ ", reason=bad_session_code")) w2) in
        out = (Ok (Redirect "kiosk"), w') /\
        forall sha' roster,
          kiosk sha' rq e (with_db (set_students roster) w) =
          (Ok (Redirect "kiosk"), with_db (set_students roster) w')) /\
     (submitted_code rq = code ->
        (Sql.select_student roll (db w) = None ->
           out = (Ok (Redirect "kiosk"),
                  flashed (flash_of UnknownStudent)
                    (logged (audit_event e "CHECKIN_FAIL"
                               ("roll=" ++ roll ++ ", reason=unknown_roll")) w2))) /\
        (forall stu, Sql.select_student roll (db w) = Some stu ->
           (hash_pw sha256 (submitted_pin rq) (salt stu) <> pin_hash stu ->
              out = (Ok (Redirect "kiosk"),
                     flashed (flash_of BadCredential)
                       (logged (audit_event e "CHECKIN_FAIL"
                                  ("roll=" ++ roll ++ ", reason=bad_pin")) w2))) /\
           (hash_pw sha256 (submitted_pin rq) (salt stu) = pin_hash stu ->
              snap_dir out.2 = snap_dir (snapshot_saved (clk_snap e) (camera e) roll w) /\
              (out.1 = Ok (CheckedIn stu) \/ rejected_as AlreadyCheckedIn w out))))).
Proof.
  intros Hpost Hlt code w2 roll out.
  split.
  - intros Hmiss. subst out. rewrite kiosk_run, Hpost. cbv zeta.
    rewrite under_ceiling, fields_missing by done. done.
  - intros Hr Hp Hc. split.
    + intros Hne w'. split.
      * subst out. rewrite kiosk_run, Hpost. cbv zeta.
        rewrite under_ceiling, fields_present by done.
        apply String.eqb_neq in Hne. fold code. by rewrite Hne.
      * intros sha' roster. rewrite kiosk_run, Hpost. cbv zeta.
        rewrite todays_code_students, ensure_code_set_students.
        change (attempts (session (with_db (set_students roster) w)))
          with (attempts (session w)).
        rewrite under_ceiling, fields_present by done.
        apply String.eqb_neq in Hne. fold code. by rewrite Hne.
    + intros Heq. split; [|intros stu Hstu; split].
      * intros Hnone. subst out. rewrite kiosk_run, Hpost. cbv zeta.
        rewrite under_ceiling, fields_present by done.
        fold code. rewrite Heq, String.eqb_refl. cbn [negb].
        fold roll. by rewrite Hnone.
      * intros Hbad. subst out. rewrite kiosk_run, Hpost. cbv zeta.
        rewrite under_ceiling, fields_present by done.
        fold code. rewrite Heq, String.eqb_refl. cbn [negb].
        fold roll. rewrite Hstu.
        apply String.eqb_neq in Hbad. by rewrite Hbad.
      * intros Hgood. subst out. rewrite kiosk_run, Hpost. cbv zeta.
        rewrite under_ceiling, fields_present by done.
        fold code. rewrite Heq, String.eqb_refl. cbn [negb].
        fold roll. rewrite Hstu, Hgood, String.eqb_refl. cbn [negb].
        destruct (existsb _ _); cbn [fst snd].
        -- split; [|right; split; [done|]].
           ++ unfold snapshot_saved.
              destruct (snapshot_of _ _ _) as [[??]|]; try destruct (imwrite_ok (camera e)); cbn;
                by rewrite ?ensure_code_snap_dir.
           ++ cbn. rewrite snapshot_saved_session. cbn. by rewrite ensure_code_session.
        -- split; [|by left].
           unfold snapshot_saved.
           destruct (snapshot_of _ _ _) as [[??]|]; try destruct (imwrite_ok (camera e)); cbn;
             by rewrite ?ensure_code_snap_dir.
Qed.

Lemma rejected_as_flash r w res w' m :
  rejected_as r w (res, flashed m w') ->
  session w' = session w \/ flashes (session w') = flashes (session w) ->
  res = Ok (Redirect "kiosk") /\ m = flash_of r.
Proof.
  intros [Hres Hfl] Hs. cbn [fst snd] in *. split; [done|].
  cbn in Hfl. assert (flashes (session w') = flashes (session w)) as Heq
    by (destruct Hs as [->|]; done).
  rewrite Heq in Hfl. by apply app_inv_head, (inj (.:: [])) in Hfl.
Qed.

(** C8, as amended.  A check-in turned away for a wrong session code, an
    unknown roll, a wrong PIN or a duplicate has, when the response is
    returned, one audit event appended that names the reason; the detail is
    cut to 1000 characters, which keeps the reason whole for rolls of up to
    970 characters.  A check-in turned away for a missing field appends no
    audit event. *)
Theorem rejections_are_audited (rq : Request) (e : KioskEnv) (w : World) (r : Rejection) :
  rejected_as r w (kiosk sha256 rq e w) ->
  let out := kiosk sha256 rq e w in
  let before := audit_log (db (ensure_code (clk_code e) (entropy e) w)) in
  match audit_of r (submitted_roll rq) with
  | Some (ev, det) =>
      audit_log (db out.2) =
        (before ++ [{| ts := now (clk_log e); event := ev; detail := Py.prefix 1000 det |}])%list /\
      ((String.length (submitted_roll rq) <= 970)%nat -> Py.prefix 1000 det = det)
  | None => audit_log (db out.2) = before
  end.
Proof.
  intros Hrej out before. subst out before.
  assert (forall ev det, audit_of r (submitted_roll rq) = Some (ev, det) ->
            (String.length (submitted_roll rq) <= 970)%nat -> Py.prefix 1000 det = det)
    as Hkept by (intros; by eapply audit_detail_kept).
  revert Hrej.
  assert (forall c w0, session (bumped c w0) = session w0 \/
                       flashes (session (bumped c w0)) = flashes (session w0)) as Hb
    by (intros; by right).
  kiosk_branches sha256 rq e w; intros Hrej.
  - by destruct Hrej as [[=] _].
  - by destruct Hrej as [[=] _].
  - apply rejected_as_flash in Hrej as [_ Hm];
      [|right; by autorewrite with world].
    apply (flash_of_inj MissingField r) in Hm as <-. done.
  - apply rejected_as_flash in Hrej as [_ Hm];
      [|right; by autorewrite with world].
    apply (flash_of_inj BadSessionCode r) in Hm as <-.
    split; [done|]. by eapply Hkept.
  - apply rejected_as_flash in Hrej as [_ Hm];
      [|right; by autorewrite with world].
    apply (flash_of_inj BadCredential r) in Hm as <-.
    split; [done|]. by eapply Hkept.
  - apply rejected_as_flash in Hrej as [_ Hm];
      [|right; by autorewrite with world].
    apply (flash_of_inj AlreadyCheckedIn r) in Hm as <-.
    split; [|by eapply Hkept].
    cbn [snd]. by autorewrite with world.
  - by destruct Hrej as [[=] _].
  - apply rejected_as_flash in Hrej as [_ Hm];
      [|right; by autorewrite with world].
    apply (flash_of_inj UnknownStudent r) in Hm as <-.
    split; [done|]. by eapply Hkept.
Qed.

(** A check-in that passes the four checks reaches the insert, and the
    uniqueness constraint decides between the two outcomes. *)
Lemma kiosk_valid rq e w stu :
  valid_checkin sha256 rq e w stu ->
  kiosk sha256 rq e w =
  let roll := submitted_roll rq in
  let w3 := snapshot_saved (clk_snap e) (camera e) roll
              (bumped (clk_rl e) (ensure_code (clk_code e) (entropy e) w)) in
  let a := attendance_row rq e stu in
  if existsb (Sql.same_key a) (attendance (db w))
  then (Ok (Redirect "kiosk"),
        flashed msg_dup
          (logged (audit_event e "CHECKIN_DUP" ("roll=" ++ roll ++ " already checked today")) w3))
  else (Ok (CheckedIn stu),
        shown
          (logged (audit_event e "CHECKIN_OK"
                     ("roll=" ++ roll ++ ", snap=" ++ or_none (snapshot_path a)))
             (with_db (set_attendance (attendance (db w) ++ [a])) w3))).
Proof.
  intros (Hpost & Hlt & Hr & Hp & Hc & Hcode & Hstu & Hpin).
  rewrite kiosk_run, Hpost. cbv zeta.
  rewrite under_ceiling, fields_present by done.
  rewrite <- Hcode, String.eqb_refl. cbn [negb].
  rewrite Hstu, Hpin, String.eqb_refl. cbn [negb]. done.
Qed.

Lemma kiosk_attendance rq e w :
  attendance (db (kiosk sha256 rq e w).2) = attendance (db w) \/
  exists stu,
    Sql.select_student (submitted_roll rq) (db w) = Some stu /\
    (kiosk sha256 rq e w).1 = Ok (CheckedIn stu) /\
    existsb (Sql.same_key (attendance_row rq e stu)) (attendance (db w)) = false /\
    attendance (db (kiosk sha256 rq e w).2) =
      (attendance (db w) ++ [attendance_row rq e stu])%list.
Proof.
  kiosk_branches sha256 rq e w; cbn [fst snd];
    try (left; by autorewrite with world).
  right. exists stu. repeat split; done.
Qed.

Lemma kiosk_day_sessions rq e w :
  day_sessions (db (kiosk sha256 rq e w).2) =
  day_sessions (db (ensure_code (clk_code e) (entropy e) w)).
Proof.
  kiosk_branches sha256 rq e w; cbn [snd]; by autorewrite with world.
Qed.

Lemma kiosk_codes_wf rq e w :
  codes_wf (db w) -> codes_wf (db (kiosk sha256 rq e w).2).
Proof.
  intros Hwf. unfold codes_wf. rewrite kiosk_day_sessions.
  by apply ensure_code_codes_wf.
Qed.

Lemma kiosk_att_unique rq e w :
  att_unique (db w) -> att_unique (db (kiosk sha256 rq e w).2).
Proof.
  intros Hu. destruct (kiosk_attendance rq e w) as [Heq|(stu & _ & _ & Hnew & Heq)];
    unfold att_unique; rewrite Heq; [done|].
  rewrite fmap_app. apply NoDup_app. split; [done|]. split; [|apply NoDup_singleton].
  intros k Hk ->%list_elem_of_singleton. revert Hk. by apply existsb_same_key_false.
Qed.

Lemma serve_att_unique rqs w :
  att_unique (db w) -> att_unique (db (serve sha256 rqs w).2).
Proof.
  revert w. induction rqs as [|[rq e] rqs IH]; intros w Hu; cbn [serve snd]; [done|].
  by apply IH, kiosk_att_unique.
Qed.

(** C1.  At most one attendance row per student and day.  A check-in for a
    student who already has a row for the day adds no row, whatever it
    submits; when it passes the checks before the insert, the uniqueness
    violation of the insert turns it away as already checked in, and
    CHECKIN_DUP is the last audit event.  The uniqueness constraint holds
    after the request and after any further requests. *)
Theorem one_record_per_student_per_day
    (rq : Request) (e : KioskEnv) (w : World) (stu : Student) :
  att_unique (db w) ->
  Sql.select_student (submitted_roll rq) (db w) = Some stu ->
  records_of (stu_id stu) (today (clk_insert e)) (db w) <> [] ->
  let out := kiosk sha256 rq e w in
  attendance (db out.2) = attendance (db w) /\
  (valid_checkin sha256 rq e w stu ->
     rejected_as AlreadyCheckedIn w out /\
     exists t, last (audit_log (db out.2)) =
               Some {| ts := t; event := "CHECKIN_DUP";
                       detail := Py.prefix 1000
                         ("roll=" ++ submitted_roll rq ++ " already checked today") |}) /\
  att_unique (db out.2) /\
  (forall sid d, (length (records_of sid d (db out.2)) <= 1)%nat) /\
  (forall rqs sid d, (length (records_of sid d (db (serve sha256 rqs out.2).2)) <= 1)%nat).
Proof.
  intros Hu Hstu Hrec out.
  assert (existsb (Sql.same_key (attendance_row rq e stu)) (attendance (db w)) = true)
    as Hdup by (by apply existsb_same_key_records).
  assert (att_unique (db out.2)) as Hu' by (by apply kiosk_att_unique).
  split; [|split; [|split; [done|split]]].
  - destruct (kiosk_attendance rq e w) as [Heq|(stu' & Hstu' & _ & Hnew & _)]; [done|].
    congruence.
  - intros Hv. subst out. rewrite (kiosk_valid rq e w stu Hv). cbv zeta. rewrite Hdup.
    split.
    + split; [done|]. cbn [snd]. by autorewrite with world.
    + exists (now (clk_log e)). cbn [snd]. autorewrite with world.
      by rewrite last_snoc.
  - intros sid d. by apply att_unique_records.
  - intros rqs sid d. by apply att_unique_records, serve_att_unique.
Qed.

(** C9.  The session code is matched without regard to letter case.  When
    the submitted code equals the day's code up to case after trimming, and
    the request is otherwise valid, it is not turned away for its code: the
    student is checked in or found already checked in, and afterwards has
    exactly one attendance row for the day; a student without a row gets the
    new row appended.  The stored codes are taken to be codes the registry
    made, which every request keeps true. *)
Theorem session_code_case_insensitive
    (rq : Request) (e : KioskEnv) (w : World) (stu : Student) :
  codes_wf (db w) ->
  att_unique (db w) ->
  method rq = POST ->
  attempts (session w) < 20 ->
  submitted_roll rq <> "" ->
  submitted_pin rq <> "" ->
  Py.upper (Py.strip (form_get rq "session_code")) =
    Py.upper (todays_code (clk_code e) (entropy e) w) ->
  Sql.select_student (submitted_roll rq) (db w) = Some stu ->
  hash_pw sha256 (submitted_pin rq) (salt stu) = pin_hash stu ->
  let out := kiosk sha256 rq e w in
  let d := today (clk_insert e) in
  codes_wf (db out.2) /\
  ~ rejected_as BadSessionCode w out /\
  (out.1 = Ok (CheckedIn stu) \/ rejected_as AlreadyCheckedIn w out) /\
  length (records_of (stu_id stu) d (db out.2)) = 1%nat /\
  (records_of (stu_id stu) d (db w) = [] ->
     out.1 = Ok (CheckedIn stu) /\
     attendance (db out.2) = (attendance (db w) ++ [attendance_row rq e stu])%list).
Proof.
  intros Hwf Hu Hpost Hlt Hr Hp Hcase Hstu Hpin out d.
  split; [by apply kiosk_codes_wf|].
  pose proof (todays_code_is_code (clk_code e) (entropy e) w Hwf) as Hcode.
  rewrite (is_code_upper _ Hcode) in Hcase. fold (submitted_code rq) in Hcase.
  assert (valid_checkin sha256 rq e w stu) as Hv.
  { repeat split; try done. rewrite Hcase. by apply is_code_nonempty. }
  subst out. rewrite (kiosk_valid rq e w stu Hv). cbv zeta.
  pose proof (existsb_same_key_records (attendance_row rq e stu) (db w)) as Hex.
  cbn [student_id att_day attendance_row] in Hex. fold d in Hex.
  destruct (existsb _ _) eqn:Hdup; cbn [fst snd].
  - assert (records_of (stu_id stu) d (db w) <> []) as Hne by (by apply Hex).
    split; [|split; [|split]].
    + intros [_ Hfl]. cbn [snd] in Hfl. autorewrite with world in Hfl.
      by apply app_inv_head in Hfl.
    + right. split; [done|]. cbn [snd]. by autorewrite with world.
    + pose proof (att_unique_records (db w) (stu_id stu) d Hu) as Hle.
      unfold records_of in *. autorewrite with world.
      destruct (List.filter _ (attendance (db w))); [done|simpl in *; lia].
    + done.
  - assert (records_of (stu_id stu) d (db w) = []) as Hnil.
    { destruct (records_of (stu_id stu) d (db w)) eqn:Hrec; [done|].
      assert (false = true) by (by apply Hex). done. }
    split; [|split; [|split]].
    + by intros [[=] _].
    + by left.
    + unfold records_of in *. autorewrite with world.
      rewrite List.filter_app, Hnil. cbn [List.filter student_id att_day attendance_row].
      by rewrite N.eqb_refl, String.eqb_refl.
    + intros _. split; [done|]. by autorewrite with world.
Qed.

(** C10.  The snapshot is taken before the insert.  When a valid check-in
    of a student who already has a row for the day is turned away as a
    duplicate and the camera delivers a frame, the attendance table is
    unchanged, so no new row and no new snapshot path is stored.  When
    [cv2.imwrite] wrote the picture, the snapshot directory holds the new
    file all the same: the rejection is not free of effects on the file
    system.  When it wrote nothing, the directory is as it was. *)
Theorem duplicate_leaves_snapshot
    (rq : Request) (e : KioskEnv) (w : World) (stu : Student) (frame : Frame) :
  valid_checkin sha256 rq e w stu ->
  OPENCV_OK (camera e) = true ->
  isOpened (camera e) = true ->
  read_ok (camera e) = true ->
  read_frame (camera e) = Some frame ->
  records_of (stu_id stu) (today (clk_insert e)) (db w) <> [] ->
  let out := kiosk sha256 rq e w in
  let file := today (clk_snap e) ++ "_" ++ submitted_roll rq ++ "_"
              ++ stamp (clk_snap e) ++ ".jpg" in
  rejected_as AlreadyCheckedIn w out /\
  attendance (db out.2) = attendance (db w) /\
  (imwrite_ok (camera e) = true ->
     snap_dir out.2 = <[file := frame]> (snap_dir w) /\
     snap_dir out.2 !! file = Some frame /\
     (snap_dir w !! file = None -> snap_dir out.2 <> snap_dir w)) /\
  (imwrite_ok (camera e) = false -> snap_dir out.2 = snap_dir w).
Proof.
  intros Hv Hcv Hopen Hok Hframe Hrec out file.
  assert (existsb (Sql.same_key (attendance_row rq e stu)) (attendance (db w)) = true)
    as Hdup by (by apply existsb_same_key_records).
  subst out. rewrite (kiosk_valid rq e w stu Hv). cbv zeta. rewrite Hdup. cbn [fst snd].
  assert (snap_dir (snapshot_saved (clk_snap e) (camera e) (submitted_roll rq)
            (bumped (clk_rl e) (ensure_code (clk_code e) (entropy e) w)))
          = if imwrite_ok (camera e) then <[file := frame]> (snap_dir w) else snap_dir w)
    as Hdir.
  { unfold snapshot_saved, snapshot_of. rewrite Hcv, Hopen, Hok, Hframe. cbn [andb].
    destruct (imwrite_ok (camera e)); cbn [snap_dir with_snap_dir];
      by autorewrite with world. }
  split; [|split; [|split]].
  - split; [done|]. cbn [snd]. by autorewrite with world.
  - by autorewrite with world.
  - intros Hw. rewrite Hw in Hdir. split; [|split].
    + by autorewrite with world.
    + autorewrite with world. rewrite Hdir. apply lookup_insert_eq.
    + intros Hnone Heq. autorewrite with world in Heq. rewrite Hdir in Heq.
      rewrite <- Heq, lookup_insert_eq in Hnone. done.
  - intros Hw. rewrite Hw in Hdir. by autorewrite with world.
Qed.

End Kiosk.

(** ** Daily report *)

Lemma string_compare_lt_trans (s1 s2 s3 : string) :
  String.compare s1 s2 = Lt -> String.compare s2 s3 = Lt -> String.compare s1 s3 = Lt.
Proof.
  revert s2 s3. induction s1 as [|a1 s1 IH]; intros [|a2 s2] [|a3 s3]; simpl; try done.
  unfold Ascii.compare.
  destruct (N.compare_spec (N_of_ascii a1) (N_of_ascii a2)) as [H12|H12|H12]; [| |done];
    destruct (N.compare_spec (N_of_ascii a2) (N_of_ascii a3)) as [H23|H23|H23]; try done.
  - rewrite H12, H23, N.compare_refl. apply IH.
  - intros _ _. rewrite H12. by apply N.compare_lt_iff in H23 as ->.
  - intros _ _. rewrite <- H23. by apply N.compare_lt_iff in H12 as ->.
  - intros _ _. assert (N_of_ascii a1 < N_of_ascii a3) as H by lia.
    by apply N.compare_lt_iff in H as ->.
Qed.

Global Instance string_compare_ordering : Ordering String.compare.
Proof.
  split.
  - apply string_compare_lt_trans.
  - by intros a b c ->%String.compare_eq_iff.
  - by intros a b c ->%String.compare_eq_iff.
  - intros a b. apply String.compare_antisym.
Qed.

Global Instance Z_compare_ordering : Ordering Z.compare.
Proof.
  split.
  - intros a b c. rewrite !Z.compare_lt_iff. lia.
  - by intros a b c ->%Z.compare_eq.
  - by intros a b c ->%Z.compare_eq.
  - intros a b. apply Z.compare_antisym.
Qed.

Global Instance on_key_ordering {A K} (key : A -> K) (cmp : K -> K -> comparison)
    `{!Ordering cmp} : Ordering (fun a b => cmp (key a) (key b)).
Proof.
  split.
  - intros a b c. apply (cmp_lt_trans (cmp:=cmp)).
  - intros a b c. apply (cmp_eq_l (cmp:=cmp)).
  - intros a b c. apply (cmp_eq_r (cmp:=cmp)).
  - intros a b. apply (cmp_opp (cmp:=cmp)).
Qed.

Global Instance then_by_ordering {A} (cmp1 cmp2 : A -> A -> comparison)
    `{!Ordering cmp1, !Ordering cmp2} :
  Ordering (fun a b => Sql.then_by (cmp1 a b) (cmp2 a b)).
Proof.
  split.
  - intros a b c. unfold Sql.then_by.
    destruct (cmp1 a b) eqn:H1, (cmp1 b c) eqn:H2; try done; intros H3 H4.
    + rewrite (cmp_eq_l (cmp:=cmp1) a b c H1), H2. by eapply cmp_lt_trans.
    + by rewrite (cmp_eq_l (cmp:=cmp1) a b c H1), H2.
    + by rewrite (cmp_eq_r (cmp:=cmp1) a b c H2), H1.
    + by rewrite (cmp_lt_trans (cmp:=cmp1) a b c H1 H2).
  - intros a b c. unfold Sql.then_by.
    destruct (cmp1 a b) eqn:H1; try done. intros H2.
    by rewrite (cmp_eq_l (cmp:=cmp1) a b c H1), (cmp_eq_l (cmp:=cmp2) a b c H2).
  - intros a b c. unfold Sql.then_by.
    destruct (cmp1 b c) eqn:H1; try done. intros H2.
    by rewrite (cmp_eq_r (cmp:=cmp1) a b c H1), (cmp_eq_r (cmp:=cmp2) a b c H2).
  - intros a b. unfold Sql.then_by.
    rewrite (cmp_opp (cmp:=cmp1) a b), (cmp_opp (cmp:=cmp2) a b).
    by destruct (cmp1 a b).
Qed.

Global Instance order_by_ordering : Ordering Sql.order_by.
Proof.
  unfold Sql.order_by.
  apply (then_by_ordering (fun a b => String.compare (class_name a) (class_name b)) _).
Qed.

Lemma ordering_le_trans {A} (cmp : A -> A -> comparison) `{!Ordering cmp} a b c :
  cmp a b <> Gt -> cmp b c <> Gt -> cmp a c <> Gt.
Proof.
  intros H1 H2.
  destruct (cmp a b) eqn:Hab; [| |done].
  - by rewrite (cmp_eq_l a b c Hab).
  - destruct (cmp b c) eqn:Hbc; [| |done].
    + by rewrite (cmp_eq_r a b c Hbc), Hab.
    + by rewrite (cmp_lt_trans a b c Hab Hbc).
Qed.

Global Instance order_le_trans : Transitive Sql.order_le.
Proof. intros a b c. apply (ordering_le_trans Sql.order_by). Qed.

Global Instance order_le_total : Total Sql.order_le.
Proof.
  intros a b. unfold Sql.order_le.
  rewrite (cmp_opp (cmp:=Sql.order_by) a.1 b.1).
  destruct (Sql.order_by a.1 b.1); auto.
Qed.

(** [CAST(roll_no AS INT)] is the number of the roll. *)
Lemma isspace_blank a : Sql.isspace a = is_blank a.
Proof. destruct a as [[] [] [] [] [] [] [] []]; reflexivity. Qed.

Lemma digit_spec a : Sql.digit a = if is_digit a then Some (digit_value a) else None.
Proof. destruct a as [[] [] [] [] [] [] [] []]; reflexivity. Qed.

Lemma digit_value_range a : is_digit a = true -> (0 <= digit_value a <= 9)%Z.
Proof.
  destruct a as [[] [] [] [] [] [] [] []];
    (discriminate || (intros _; vm_compute; split; discriminate)).
Qed.

Lemma digit_starts a :
  is_digit a = true ->
  is_blank a = false /\ Ascii.eqb a "-" = false /\ Ascii.eqb a "+" = false.
Proof.
  destruct a as [[] [] [] [] [] [] [] []];
    (discriminate || (intros _; split_and!; reflexivity)).
Qed.

Lemma skip_spaces_drop_blanks s : Sql.skip_spaces s = drop_blanks s.
Proof.
  induction s as [|a s IH]; [done|].
  cbn [Sql.skip_spaces drop_blanks]. by rewrite isspace_blank, IH.
Qed.

Lemma digits_leading (s : string) (acc : Z) :
  Sql.digits acc s =
  (acc * 10 ^ Z.of_nat (String.length (leading_digits s)) + decimal (leading_digits s))%Z.
Proof.
  revert acc. induction s as [|a s IH]; intros acc; cbn [Sql.digits leading_digits].
  - cbn [String.length decimal]. change (10 ^ Z.of_nat 0)%Z with 1%Z. lia.
  - rewrite digit_spec. destruct (is_digit a).
    + rewrite IH. cbn [decimal String.length].
      rewrite Nat2Z.inj_succ, Z.pow_succ_r by lia. ring.
    + cbn [String.length decimal]. change (10 ^ Z.of_nat 0)%Z with 1%Z. lia.
Qed.

Lemma cast_int_cases s :
  Sql.cast_int s =
  match Sql.skip_spaces s with
  | String a s' =>
      if Ascii.eqb a "-" then Sql.saturate (- Sql.digits 0 s')
      else if Ascii.eqb a "+" then Sql.saturate (Sql.digits 0 s')
      else Sql.saturate (Sql.digits 0 (String a s'))
  | EmptyString => Sql.saturate (Sql.digits 0 EmptyString)
  end.
Proof.
  unfold Sql.cast_int. destruct (Sql.skip_spaces s) as [|a s']; [done|].
  destruct a as [[] [] [] [] [] [] [] []]; reflexivity.
Qed.

Lemma cast_int_roll_number s : Sql.cast_int s = roll_number s.
Proof.
  rewrite cast_int_cases, skip_spaces_drop_blanks. unfold roll_number.
  destruct (drop_blanks s) as [|a s']; [vm_compute; reflexivity|].
  rewrite !digits_leading. unfold Sql.saturate, within_int64.
  by destruct (Ascii.eqb a "-"), (Ascii.eqb a "+"); rewrite ?Z.mul_0_l, ?Z.add_0_l.
Qed.

Lemma leading_digits_all s :
  forallb is_digit (list_ascii_of_string s) = true -> leading_digits s = s.
Proof.
  induction s as [|a s IH]; cbn [list_ascii_of_string forallb leading_digits]; [done|].
  intros [-> Hs]%andb_true_iff. by rewrite IH.
Qed.

Lemma decimal_nonneg s :
  forallb is_digit (list_ascii_of_string s) = true -> (0 <= decimal s)%Z.
Proof.
  induction s as [|a s IH]; cbn [list_ascii_of_string forallb decimal]; [done|].
  intros [Ha%digit_value_range Hs]%andb_true_iff. specialize (IH Hs).
  assert (0 <= 10 ^ Z.of_nat (String.length s))%Z by (apply Z.pow_nonneg; lia). nia.
Qed.

Lemma roll_number_numeric s :
  numeric s = true -> roll_number s = Z.min (decimal s) (2 ^ 63 - 1).
Proof.
  unfold numeric. intros [Hne Hdig]%andb_true_iff.
  destruct s as [|a s]; [done|].
  pose proof Hdig as Hall.
  cbn [list_ascii_of_string forallb] in Hdig. apply andb_true_iff in Hdig as [Ha _].
  destruct (digit_starts a Ha) as (Hb & Hm & Hp).
  unfold roll_number. cbn [drop_blanks]. rewrite Hb, Hm, Hp.
  rewrite (leading_digits_all _ Hall).
  pose proof (decimal_nonneg _ Hall). unfold within_int64. lia.
Qed.

Lemma roll_number_non_numeric s : non_numeric s = true -> roll_number s = 0%Z.
Proof.
  destruct s as [|a s]; [done|]. cbn [non_numeric].
  rewrite !andb_true_iff, !negb_true_iff. intros [[[Hd Hb] Hm] Hp].
  unfold roll_number. cbn [drop_blanks leading_digits]. by rewrite Hb, Hm, Hp, Hd.
Qed.

(** ** The join and the report *)

Lemma filter_find_unique {A} (p : A -> bool) (l : list A) :
  (length (List.filter p l) <= 1)%nat ->
  List.filter p l = match find p l with Some x => [x] | None => [] end.
Proof.
  induction l as [|a l IH]; simpl; [done|].
  destruct (p a); [|exact IH].
  cbn [length]. intros H. destruct (List.filter p l); [done|simpl in H; lia].
Qed.

Lemma left_join_unique d t :
  att_unique t -> Sql.left_join d t = joined_row d t <$> students t.
Proof.
  intros Hu. unfold Sql.left_join.
  induction (students t) as [|s l IH]; [done|].
  cbn [flat_map fmap list_fmap]. rewrite IH. clear IH.
  change (List.filter (Sql.on_clause d s) (attendance t)) with (records_of (stu_id s) d t).
  pose proof (att_unique_records t (stu_id s) d Hu) as Hle.
  unfold records_of in *. rewrite (filter_find_unique _ _ Hle).
  unfold joined_row.
  change (fun a => N.eqb (student_id a) (stu_id s) && String.eqb (att_day a) d)
    with (Sql.on_clause d s).
  by destruct (find (Sql.on_clause d s) (attendance t)).
Qed.

Lemma find_records_of d t s :
  find (Sql.on_clause d s) (attendance t) = head (records_of (stu_id s) d t).
Proof.
  unfold records_of.
  change (fun a => N.eqb (student_id a) (stu_id s) && String.eqb (att_day a) d)
    with (Sql.on_clause d s).
  induction (attendance t) as [|a l IH]; simpl; [done|].
  by destruct (Sql.on_clause d s a).
Qed.

Lemma count_status_fold rows p a :
  fold_left count_status rows (p, a) =
  (p + N.of_nat (length (List.filter is_present rows)),
   a + N.of_nat (length (List.filter (fun x => negb (is_present x)) rows))).
Proof.
  revert p a. induction rows as [|x rows IH]; intros p a; cbn [fold_left List.filter].
  - cbn. f_equal; lia.
  - unfold count_status at 2. cbn [fst snd].
    destruct (is_present x) eqn:Hx; unfold is_present in Hx; rewrite Hx;
      cbn [negb length]; rewrite IH; f_equal; lia.
Qed.

Lemma filter_split_length {A} (p : A -> bool) (l : list A) :
  (length (List.filter p l) + length (List.filter (fun x => negb (p x)) l))%nat = length l.
Proof.
  induction l as [|x l IH]; simpl; [done|].
  destruct (p x); simpl; lia.
Qed.

Lemma StronglySorted_lookup {A} (R : relation A) (l : list A) i j x y :
  StronglySorted R l -> (i < j)%nat -> l !! i = Some x -> l !! j = Some y -> R x y.
Proof.
  intros Hs. revert i j. induction Hs as [|a l Hs IH Hall]; intros i j Hij Hi Hj; [done|].
  destruct j as [|j]; [lia|]. destruct i as [|i]; simpl in *.
  - simplify_eq. rewrite Forall_forall in Hall. by eapply Hall, list_elem_of_lookup_2.
  - apply (IH i j); [lia|done..].
Qed.

Lemma ordering_refl {A} (cmp : A -> A -> comparison) `{!Ordering cmp} a : cmp a a = Eq.
Proof. pose proof (cmp_opp a a) as H. by destruct (cmp a a). Qed.

Lemma string_le_compare s1 s2 : String.compare s1 s2 <> Gt -> String.le s1 s2.
Proof. unfold String.le, String.leb. by destruct (String.compare s1 s2). Qed.

(** What [ORDER BY] promises of a row placed before another. *)
Lemma order_le_keys (p1 p2 : Student * option Attendance) :
  Sql.order_le p1 p2 ->
  String.le (class_name p1.1) (class_name p2.1) /\
  (class_name p1.1 = class_name p2.1 ->
   String.le (section p1.1) (section p2.1) /\
   (section p1.1 = section p2.1 ->
    (Sql.cast_int (roll_no p1.1) <= Sql.cast_int (roll_no p2.1))%Z /\
    (Sql.cast_int (roll_no p1.1) = Sql.cast_int (roll_no p2.1) ->
     String.le (roll_no p1.1) (roll_no p2.1)))).
Proof.
  unfold Sql.order_le, Sql.order_by, Sql.then_by. intros H.
  split; [apply string_le_compare; by destruct (String.compare _ _)|].
  intros Hc. rewrite Hc, (ordering_refl String.compare) in H.
  split; [apply string_le_compare; by destruct (String.compare (section _) _)|].
  intros Hs. rewrite Hs, (ordering_refl String.compare) in H.
  split.
  - apply Z.compare_le_iff. intros Hgt. by rewrite Hgt in H.
  - intros Hz. rewrite Hz, Z.compare_refl in H. by apply string_le_compare.
Qed.

(** C6, as amended.  The daily report, asked for with GET by an
    administrator.  The rows are the enrolled students, each exactly once;
    a student with an attendance row for the day is present with that row's
    time and snapshot, a student without one is absent with neither; the
    two counters are the numbers of present and absent rows and add up to
    the roster.  The rows are ordered by class, then section, then the
    number of the roll (the digits it starts with, 0 when it starts with
    none, kept within 64 bits), then the roll itself: rolls that are
    numbers below 2^63-1 go by value, rolls that start no number go
    lexically among themselves and come before the numbers above 0.  No
    table is changed; rendering the page takes the queued flash messages
    out of the session. *)
Theorem daily_report_complete (rq : Request) (c : Clock) (w : World) :
  method rq = GET ->
  admin (session w) = true ->
  att_unique (db w) ->
  let d := Py.strip (default (today c) (args rq !! "day")) in
  exists ps present absent,
    admin_reports rq c w = (Ok (Reports d (Sql.select_list <$> ps) present absent), shown w) /\
    db (admin_reports rq c w).2 = db w /\
    ps ≡ₚ joined_row d (db w) <$> students (db w) /\
    ps.*1 ≡ₚ students (db w) /\
    Forall (fun p =>
      let x := Sql.select_list p in
      r_roll_no x = roll_no p.1 /\ r_full_name x = full_name p.1 /\
      r_class_name x = class_name p.1 /\ r_section x = section p.1 /\
      match records_of (stu_id p.1) d (db w) with
      | a :: _ =>
          r_status x = "P" /\ r_checked_in_at x = Some (checked_in_at a) /\
          r_snapshot_path x = snapshot_path a
      | [] =>
          r_status x = "A" /\ r_checked_in_at x = None /\ r_snapshot_path x = None
      end) ps /\
    present = N.of_nat (length (List.filter is_present (Sql.select_list <$> ps))) /\
    absent = N.of_nat (length (List.filter (fun x => negb (is_present x))
                                 (Sql.select_list <$> ps))) /\
    present + absent = N.of_nat (length (students (db w))) /\
    StronglySorted Sql.order_le ps /\
    (forall i j p1 p2, (i < j)%nat -> ps !! i = Some p1 -> ps !! j = Some p2 ->
       let r1 := roll_no p1.1 in
       let r2 := roll_no p2.1 in
       String.le (class_name p1.1) (class_name p2.1) /\
       (class_name p1.1 = class_name p2.1 ->
        String.le (section p1.1) (section p2.1) /\
        (section p1.1 = section p2.1 ->
         (roll_number r1 <= roll_number r2)%Z /\
         (roll_number r1 = roll_number r2 -> String.le r1 r2) /\
         (numeric r1 = true -> numeric r2 = true -> (decimal r2 < 2 ^ 63 - 1)%Z ->
          (decimal r1 <= decimal r2)%Z) /\
         (non_numeric r1 = true -> non_numeric r2 = true -> String.le r1 r2) /\
         (numeric r1 = true -> non_numeric r2 = true -> decimal r1 = 0%Z)))).
Proof.
  intros Hget Hadmin Hu d.
  set (ps := merge_sort Sql.order_le (Sql.left_join d (db w))).
  assert (ps ≡ₚ joined_row d (db w) <$> students (db w)) as Hperm.
  { subst ps. rewrite merge_sort_Permutation. by rewrite left_join_unique. }
  assert (StronglySorted Sql.order_le ps) as Hsorted
    by apply (StronglySorted_merge_sort Sql.order_le).
  exists ps, (N.of_nat (length (List.filter is_present (Sql.select_list <$> ps)))),
    (N.of_nat (length (List.filter (fun x => negb (is_present x)) (Sql.select_list <$> ps)))).
  assert (admin_reports rq c w =
          (Ok (Reports d (Sql.select_list <$> ps)
                 (N.of_nat (length (List.filter is_present (Sql.select_list <$> ps))))
                 (N.of_nat (length (List.filter (fun x => negb (is_present x))
                                      (Sql.select_list <$> ps))))), shown w)) as Hrun.
  { unfold admin_reports, require_admin. rewrite Hget, bind_run, Hadmin. cbn [negb].
    rewrite bind_run. cbn [get_world]. fold d.
    unfold Sql.report_query. fold ps.
    change (List.map Sql.select_list ps) with (Sql.select_list <$> ps).
    rewrite count_status_fold. by rewrite !N.add_0_l. }
  split; [exact Hrun|]. split; [by rewrite Hrun|].
  split; [done|split; [|split; [|split; [done|split; [done|split; [|split; [done|]]]]]]].
  - rewrite Hperm, <- list_fmap_compose. by rewrite list_fmap_id.
  - apply Forall_forall. intros p Hp.
    assert (p ∈ joined_row d (db w) <$> students (db w)) as Hin
      by (by rewrite <- Hperm).
    apply list_elem_of_fmap in Hin as (s & -> & _).
    unfold joined_row. cbn [fst snd Sql.select_list r_roll_no r_full_name r_class_name
      r_section r_status r_checked_in_at r_snapshot_path].
    rewrite find_records_of.
    repeat split; try done. by destruct (records_of (stu_id s) d (db w)).
  - rewrite <- Nat2N.inj_add, filter_split_length, length_fmap.
    by rewrite Hperm, length_fmap.
  - intros i j p1 p2 Hij H1 H2 r1 r2.
    pose proof (StronglySorted_lookup _ _ _ _ _ _ Hsorted Hij H1 H2) as Hle.
    apply order_le_keys in Hle as [Hc Hrest]. split; [done|].
    intros Hceq. destruct (Hrest Hceq) as [Hs Hrest']. split; [done|].
    intros Hseq. destruct (Hrest' Hseq) as [Hz Hroll].
    rewrite !cast_int_roll_number in Hz, Hroll. fold r1 r2 in Hz, Hroll.
    split; [done|]. split; [done|]. split; [|split].
    + intros Hn1 Hn2 Hsmall.
      rewrite (roll_number_numeric _ Hn1), (roll_number_numeric _ Hn2) in Hz. lia.
    + intros Hn1 Hn2. apply Hroll.
      by rewrite (roll_number_non_numeric _ Hn1), (roll_number_non_numeric _ Hn2).
    + intros Hn1 Hn2.
      rewrite (roll_number_numeric _ Hn1), (roll_number_non_numeric _ Hn2) in Hz.
      assert (0 <= decimal r1)%Z.
      { apply decimal_nonneg. unfold numeric in Hn1.
        by apply andb_true_iff in Hn1 as [_ ?]. }
      lia.
Qed.

(** ** The properties on the sample data *)

Import Sample.

Lemma spin_inj : Inj (=) (=) spin.
Proof.
  assert (forall l, spin l = [] -> l = []) as Hnil.
  { intros [|b l]; [done|]. simpl. by destruct l. }
  intros [|b1 l1] [|b2 l2] H; simpl in H.
  - done.
  - symmetry in H. by apply app_eq_nil in H as [_ ?].
  - by apply app_eq_nil in H as [_ ?].
  - by apply app_inj_tail in H as [-> ->].
Qed.

Lemma att_unique_checked_in : att_unique (db checked_in).
Proof. unfold att_unique. cbn. apply NoDup_singleton. Qed.

Lemma valid_good_post (w : World) :
  session w = empty_session ->
  day_sessions (db w) = [todays_row] ->
  students (db w) = [twelve; five; abc] ->
  valid_checkin spin good_post env w twelve.
Proof.
  intros Hs Hd Hst. unfold valid_checkin, todays_code, Sql.select_day_session,
    Sql.select_student. rewrite Hs, Hd, Hst.
  split_and!; vm_compute; congruence.
Qed.

(** C1 on the sample: the student with roll 12 checks in a second time. *)
Lemma already_checked_in_example :
  att_unique (db checked_in) /\
  Sql.select_student (submitted_roll good_post) (db checked_in) = Some twelve /\
  records_of (stu_id twelve) (today (clk_insert env)) (db checked_in) <> [] /\
  valid_checkin spin good_post env checked_in twelve /\
  rejected_as AlreadyCheckedIn checked_in (kiosk spin good_post env checked_in) /\
  attendance (db (kiosk spin good_post env checked_in).2) = attendance (db checked_in).
Proof.
  assert (att_unique (db checked_in)) as H1 by apply att_unique_checked_in.
  assert (Sql.select_student (submitted_roll good_post) (db checked_in) = Some twelve)
    as H2 by (vm_compute; reflexivity).
  assert (records_of (stu_id twelve) (today (clk_insert env)) (db checked_in) <> [])
    as H3 by (vm_compute; discriminate).
  assert (valid_checkin spin good_post env checked_in twelve) as H4
    by (apply valid_good_post; reflexivity).
  destruct (one_record_per_student_per_day spin good_post env checked_in twelve H1 H2 H3)
    as (Hsame & Hdup & _).
  destruct (Hdup H4) as [Hrej _].
  exact (conj H1 (conj H2 (conj H3 (conj H4 (conj Hrej Hsame))))).
Defined.

(** C2 on the sample: the right roll and PIN with a wrong session code. *)
Lemma wrong_code_example :
  method wrong_code_post = POST /\
  attempts (session enrolled) < 20 /\
  submitted_code wrong_code_post <> todays_code (clk_code env) (entropy env) enrolled /\
  Sql.select_student (submitted_roll wrong_code_post) (db enrolled) = Some twelve /\
  hash_pw spin (submitted_pin wrong_code_post) (salt twelve) = pin_hash twelve /\
  rejected_as BadSessionCode enrolled (kiosk spin wrong_code_post env enrolled).
Proof.
  assert (method wrong_code_post = POST) as H1 by reflexivity.
  assert (attempts (session enrolled) < 20) as H2 by (vm_compute; reflexivity).
  assert (submitted_roll wrong_code_post <> "") as Hr by (vm_compute; discriminate).
  assert (submitted_pin wrong_code_post <> "") as Hp by (vm_compute; discriminate).
  assert (submitted_code wrong_code_post <> "") as Hc by (vm_compute; discriminate).
  assert (submitted_code wrong_code_post <> todays_code (clk_code env) (entropy env) enrolled)
    as Hne by (vm_compute; discriminate).
  assert (Sql.select_student (submitted_roll wrong_code_post) (db enrolled) = Some twelve)
    as Hs by (vm_compute; reflexivity).
  assert (hash_pw spin (submitted_pin wrong_code_post) (salt twelve) = pin_hash twelve)
    as Hh by (vm_compute; reflexivity).
  destruct (validation_short_circuits spin wrong_code_post env enrolled H1 H2)
    as [_ Hrest].
  destruct (Hrest Hr Hp Hc) as [Hbad _].
  destruct (Hbad Hne) as [Hout _].
  refine (conj H1 (conj H2 (conj Hne (conj Hs (conj Hh _))))).
  rewrite Hout. split; vm_compute; reflexivity.
Defined.

(** C3 on the sample: the stored code is returned, and a code just made is
    returned again by the next call. *)
Lemma same_code_all_day_example :
  Sql.select_day_session (today monday) (db enrolled) = Some todays_row /\
  get_or_create_session_code monday dice enrolled = (Ok (session_code todays_row), enrolled) /\
  Sql.select_day_session (today monday) (db empty_world) = None /\
  exists code w1,
    get_or_create_session_code monday dice empty_world = (Ok code, w1) /\
    get_or_create_session_code monday (x00, x00, x00) w1 = (Ok code, w1).
Proof.
  assert (Sql.select_day_session (today monday) (db enrolled) = Some todays_row) as H1
    by (vm_compute; reflexivity).
  assert (Sql.select_day_session (today monday) (db empty_world) = None) as H2
    by (vm_compute; reflexivity).
  destruct (session_code_fixed_for_the_day monday dice enrolled) as [Hold _].
  destruct (session_code_fixed_for_the_day monday dice empty_world) as [_ Hnew].
  destruct (Hnew H2) as (code & w1 & Hrun & _ & _ & _ & _ & Hagain).
  refine (conj H1 (conj (Hold todays_row H1) (conj H2 _))).
  exists code, w1. split; [exact Hrun|]. apply Hagain. reflexivity.
Defined.

(** C4 on the sample: the PIN 1234 against the digest of 4321. *)
Lemma wrong_pin_example :
  "1234" <> "4321" /\
  Inj (=) (=) spin /\
  verify_pw spin "4321" "s4lt" (hash_pw spin "4321" "s4lt") = true /\
  verify_pw spin "1234" "s4lt" (hash_pw spin "4321" "s4lt") = false.
Proof.
  assert ("1234" <> "4321") as Hne by discriminate.
  destruct (credential_hash_round_trip spin "4321" "s4lt") as (Hok & _ & _ & Hother).
  destruct (Hother "1234" Hne) as (_ & _ & Hinj).
  exact (conj Hne (conj spin_inj (conj Hok (Hinj spin_inj)))).
Defined.

(** C6 fails as stated: the rolls 9x and 10x are no numbers, and 10x comes
    first lexically, yet the report has 9x first; and of two rolls that are
    numbers the report has the greater first, both being beyond the 64-bit
    integers. *)
Lemma roll_order_not_as_claimed :
  report_rolls (admin_reports report_get monday odd_rolls) =
    ["9x"; "10x"; "10000000000000000000"; "9223372036854775808"] /\
  numeric "9x" = false /\ numeric "10x" = false /\
  String.compare "10x" "9x" = Lt /\
  numeric "10000000000000000000" = true /\ numeric "9223372036854775808" = true /\
  (decimal "9223372036854775808" < decimal "10000000000000000000")%Z.
Proof. split_and!; vm_compute; reflexivity. Qed.

(** C6 as amended, on the sample: the report of the Monday for the class
    of three. *)
Lemma report_example :
  method report_get = GET /\
  admin (session teacher) = true /\
  att_unique (db teacher) /\
  report_rolls (admin_reports report_get monday teacher) = ["abc"; "5"; "12"] /\
  exists ps present absent,
    admin_reports report_get monday teacher =
      (Ok (Reports (Py.strip (default (today monday) (args report_get !! "day")))
             (Sql.select_list <$> ps) present absent), shown teacher) /\
    present + absent = N.of_nat (length (students (db teacher))).
Proof.
  assert (method report_get = GET) as H0 by reflexivity.
  assert (admin (session teacher) = true) as H1 by reflexivity.
  assert (att_unique (db teacher)) as H2 by apply att_unique_checked_in.
  assert (report_rolls (admin_reports report_get monday teacher) = ["abc"; "5"; "12"])
    as H3 by (vm_compute; reflexivity).
  destruct (daily_report_complete report_get monday teacher H0 H1 H2)
    as (ps & present & absent & Hrun & _ & _ & _ & _ & _ & _ & Hsum & _).
  refine (conj H0 (conj H1 (conj H2 (conj H3 _)))).
  exists ps, present, absent. exact (conj Hrun Hsum).
Defined.

(** C7 fails as stated: another connection creates the row between the
    lookup and the insert, and the call raises instead of returning the
    stored code. *)
Lemma lost_race_raises :
  Sql.select_day_session (today monday) (db empty_world) = None /\
  Sql.select_day_session (today monday) (rival (db empty_world)) = Some rival_row /\
  get_or_create_session_code_among rival monday dice empty_world =
    (Raise IntegrityError, with_db rival empty_world) /\
  (get_or_create_session_code_among rival monday dice empty_world).1 <>
    Ok (session_code rival_row).
Proof. split_and!; vm_compute; congruence. Qed.

(** C7 as amended, on the sample. *)
Lemma lost_race_example :
  Sql.select_day_session (today monday) (db empty_world) = None /\
  day_unique (rival (db empty_world)) /\
  is_code (Py.upper (token_hex3 dice)) = true /\
  day_unique (db (get_or_create_session_code_among rival monday dice empty_world).2).
Proof.
  assert (Sql.select_day_session (today monday) (db empty_world) = None) as H1
    by (vm_compute; reflexivity).
  assert (day_unique (rival (db empty_world))) as H2
    by (unfold day_unique; cbn; apply NoDup_singleton).
  destruct (session_code_created_once rival monday dice empty_world H1 H2)
    as (Hcode & Huniq & _).
  exact (conj H1 (conj H2 (conj Hcode Huniq))).
Defined.

(** C8 fails as stated: a check-in with an empty roll number is turned
    away and the audit log is as it was. *)
Lemma missing_field_not_audited :
  rejected_as MissingField enrolled (kiosk spin blank_post env enrolled) /\
  audit_log (db (kiosk spin blank_post env enrolled).2) = audit_log (db enrolled).
Proof. split; [split|]; vm_compute; reflexivity. Qed.

(** C8 as amended, on the sample. *)
Lemma wrong_code_audited_example :
  rejected_as BadSessionCode enrolled (kiosk spin wrong_code_post env enrolled) /\
  audit_log (db (kiosk spin wrong_code_post env enrolled).2) =
    (audit_log (db (ensure_code (clk_code env) (entropy env) enrolled)) ++
     [{| ts := now (clk_log env); event := "CHECKIN_FAIL";
         detail := Py.prefix 1000
           ("roll=" ++ submitted_roll wrong_code_post ++ ", reason=bad_session_code") |}])%list.
Proof.
  assert (rejected_as BadSessionCode enrolled (kiosk spin wrong_code_post env enrolled))
    as H1 by (split; vm_compute; reflexivity).
  pose proof (rejections_are_audited spin wrong_code_post env enrolled BadSessionCode H1)
    as H.
  cbv zeta in H. cbn [audit_of] in H. destruct H as [H _].
  exact (conj H1 H).
Defined.

(** C9 on the sample: the code typed in lower case, the roll padded with
    blanks. *)
Lemma lower_case_code_example :
  codes_wf (db enrolled) /\
  att_unique (db enrolled) /\
  Py.upper (Py.strip (form_get good_post "session_code")) =
    Py.upper (todays_code (clk_code env) (entropy env) enrolled) /\
  (kiosk spin good_post env enrolled).1 = Ok (CheckedIn twelve) /\
  length (records_of (stu_id twelve) (today (clk_insert env))
            (db (kiosk spin good_post env enrolled).2)) = 1%nat.
Proof.
  assert (codes_wf (db enrolled)) as H1
    by (unfold codes_wf; cbn; constructor; [vm_compute; reflexivity|constructor]).
  assert (att_unique (db enrolled)) as H2 by (unfold att_unique; cbn; constructor).
  assert (method good_post = POST) as H3 by reflexivity.
  assert (attempts (session enrolled) < 20) as H4 by (vm_compute; reflexivity).
  assert (submitted_roll good_post <> "") as H5 by (vm_compute; discriminate).
  assert (submitted_pin good_post <> "") as H6 by (vm_compute; discriminate).
  assert (Py.upper (Py.strip (form_get good_post "session_code")) =
          Py.upper (todays_code (clk_code env) (entropy env) enrolled)) as H7
    by (vm_compute; reflexivity).
  assert (Sql.select_student (submitted_roll good_post) (db enrolled) = Some twelve) as H8
    by (vm_compute; reflexivity).
  assert (hash_pw spin (submitted_pin good_post) (salt twelve) = pin_hash twelve) as H9
    by (vm_compute; reflexivity).
  destruct (session_code_case_insensitive spin good_post env enrolled twelve
              H1 H2 H3 H4 H5 H6 H7 H8 H9) as (_ & _ & _ & Hone & Hfresh).
  assert (records_of (stu_id twelve) (today (clk_insert env)) (db enrolled) = []) as Hnone
    by (vm_compute; reflexivity).
  destruct (Hfresh Hnone) as [Hin _].
  exact (conj H1 (conj H2 (conj H7 (conj Hin Hone)))).
Defined.

(** C10 on the sample: the second check-in of roll 12 with the camera on. *)
Lemma duplicate_snapshot_example :
  valid_checkin spin good_post env checked_in twelve /\
  read_frame (camera env) = Some [xff; xd8] /\
  records_of (stu_id twelve) (today (clk_insert env)) (db checked_in) <> [] /\
  rejected_as AlreadyCheckedIn checked_in (kiosk spin good_post env checked_in) /\
  attendance (db (kiosk spin good_post env checked_in).2) = attendance (db checked_in) /\
  snap_dir (kiosk spin good_post env checked_in).2
    !! (today (clk_snap env) ++ "_" ++ submitted_roll good_post ++ "_"
        ++ stamp (clk_snap env) ++ ".jpg") = Some [xff; xd8].
Proof.
  assert (valid_checkin spin good_post env checked_in twelve) as H1
    by (apply valid_good_post; reflexivity).
  assert (read_frame (camera env) = Some [xff; xd8]) as H2 by reflexivity.
  assert (records_of (stu_id twelve) (today (clk_insert env)) (db checked_in) <> []) as H3
    by (vm_compute; discriminate).
  destruct (duplicate_leaves_snapshot spin good_post env checked_in twelve [xff; xd8]
              H1 eq_refl eq_refl eq_refl H2 H3) as (Hrej & Hsame & Hwritten & _).
  destruct (Hwritten eq_refl) as (_ & Hfile & _).
  exact (conj H1 (conj H2 (conj H3 (conj Hrej (conj Hsame Hfile))))).
Defined.

(** * Further properties *)

(** The world a handler leaves, projected and simplified. *)
Ltac world_simpl :=
  repeat progress
    (autorewrite with world;
     cbn [fst snd students day_sessions attendance audit_log
          set_audit_log set_attendance set_students set_day_sessions]).

(** ** The audit log and the attendance table only grow *)

Lemma prefix_length (n : nat) (s : string) : (String.length (Py.prefix n s) <= n)%nat.
Proof.
  revert s. induction n as [|n IH]; intros [|a s]; simpl; try lia.
  specialize (IH s). lia.
Qed.

Lemma ensure_code_audit_log c r w :
  exists new,
    audit_log (db (ensure_code c r w)) = (audit_log (db w) ++ new)%list /\
    Forall bounded_detail new /\ (length new <= 1)%nat.
Proof.
  unfold ensure_code. destruct (Sql.select_day_session (today c) (db w)).
  - exists []. rewrite app_nil_r. repeat split; [constructor|simpl; lia].
  - exists [new_day_event c r]. split; [done|]. split; [|simpl; lia].
    apply Forall_singleton. apply prefix_length.
Qed.

Section Growth.
Variable sha256 : list byte -> list byte.

Lemma kiosk_audit_log rq e w :
  exists new,
    audit_log (db (kiosk sha256 rq e w).2) = (audit_log (db w) ++ new)%list /\
    Forall bounded_detail new /\ (length new <= 2)%nat.
Proof.
  destruct (ensure_code_audit_log (clk_code e) (entropy e) w) as (n0 & Hn0 & Hb0 & Hl0).
  assert (forall ev det,
            exists new,
              (audit_log (db (ensure_code (clk_code e) (entropy e) w)) ++
               [audit_event e ev det])%list = (audit_log (db w) ++ new)%list /\
              Forall bounded_detail new /\ (length new <= 2)%nat) as Hone.
  { intros ev det. exists (n0 ++ [audit_event e ev det])%list.
    rewrite Hn0, <- app_assoc. split; [done|]. split.
    - apply Forall_app. split; [done|]. apply Forall_singleton, prefix_length.
    - rewrite length_app. simpl. lia. }
  assert (exists new,
            audit_log (db (ensure_code (clk_code e) (entropy e) w)) =
              (audit_log (db w) ++ new)%list /\
            Forall bounded_detail new /\ (length new <= 2)%nat) as Hzero.
  { exists n0. repeat split; [done..|lia]. }
  kiosk_branches sha256 rq e w; cbn [snd]; autorewrite with world;
    cbn [audit_log set_audit_log set_attendance]; autorewrite with world;
    first [exact Hzero | apply Hone].
Qed.

(** X1 - the audit log is append-only under the kiosk: whatever requests
    are served, the log afterwards is the log before followed by new
    events, at most two for each request (the creation of the day's code
    and one event of the check-in), each with a detail of at most 1000
    characters, as [log] cuts it. *)
Theorem audit_log_only_grows (rqs : list (Request * KioskEnv)) (w : World) :
  exists new,
    audit_log (db (serve sha256 rqs w).2) = (audit_log (db w) ++ new)%list /\
    Forall bounded_detail new /\
    (length new <= 2 * length rqs)%nat.
Proof.
  revert w. induction rqs as [|[rq e] rqs IH]; intros w; cbn [serve snd].
  - exists []. rewrite app_nil_r. repeat split; [constructor|simpl; lia].
  - destruct (kiosk_audit_log rq e w) as (n1 & H1 & Hb1 & Hl1).
    destruct (IH (kiosk sha256 rq e w).2) as (n2 & H2 & Hb2 & Hl2).
    exists (n1 ++ n2)%list. rewrite H2, H1, <- app_assoc. split; [done|]. split.
    + by apply Forall_app.
    + rewrite length_app. cbn [length]. lia.
Qed.

End Growth.

Section Frame.
Variable sha256 : list byte -> list byte.

Lemma select_student_elem roll t stu :
  Sql.select_student roll t = Some stu -> stu ∈ students t /\ roll_no stu = roll.
Proof.
  unfold Sql.select_student. intros [Hin Heq%String.eqb_eq]%find_some.
  split; [by apply list_elem_of_In|done].
Qed.

Lemma kiosk_students rq e w :
  students (db (kiosk sha256 rq e w).2) = students (db w).
Proof. kiosk_branches sha256 rq e w; by world_simpl. Qed.

Lemma serve_students rqs w :
  students (db (serve sha256 rqs w).2) = students (db w).
Proof.
  revert w. induction rqs as [|[rq e] rqs IH]; intros w; cbn [serve snd]; [done|].
  by rewrite IH, kiosk_students.
Qed.

Lemma kiosk_new_rows rq e w :
  exists new,
    attendance (db (kiosk sha256 rq e w).2) = (attendance (db w) ++ new)%list /\
    Forall (checked_in_row (db w)) new /\
    (length new <= if is_post (rq, e) then 1 else 0)%nat.
Proof.
  destruct (kiosk_attendance sha256 rq e w) as [Heq|(stu & Hstu & Hresp & _ & Heq)].
  - exists []. rewrite app_nil_r. repeat split; [done|constructor|simpl; lia].
  - exists [attendance_row rq e stu]. split; [done|]. split.
    + apply Forall_singleton. split; [done|]. exists stu.
      split; [by apply select_student_elem in Hstu as [? _]|done].
    + unfold is_post. cbn [fst]. destruct (method rq) eqn:Hm; [|simpl; lia].
      exfalso. revert Hresp. rewrite kiosk_run, Hm. done.
Qed.

(** X2 - the kiosk never touches the roster and never removes or rewrites
    an attendance row: after any requests the students are the same, the
    attendance table is the old one followed by new rows, every new row is
    marked present and belongs to an enrolled student, and there are no
    more new rows than POST requests. *)
Theorem attendance_only_grows (rqs : list (Request * KioskEnv)) (w : World) :
  students (db (serve sha256 rqs w).2) = students (db w) /\
  exists new,
    attendance (db (serve sha256 rqs w).2) = (attendance (db w) ++ new)%list /\
    Forall (checked_in_row (db w)) new /\
    (length new <= length (List.filter is_post rqs))%nat.
Proof.
  split; [apply serve_students|].
  revert w. induction rqs as [|[rq e] rqs IH]; intros w; cbn [serve snd List.filter].
  - exists []. rewrite app_nil_r. repeat split; [constructor|simpl; lia].
  - destruct (kiosk_new_rows rq e w) as (n1 & H1 & Hr1 & Hl1).
    destruct (IH (kiosk sha256 rq e w).2) as (n2 & H2 & Hr2 & Hl2).
    exists (n1 ++ n2)%list. rewrite H2, H1, <- app_assoc. split; [done|]. split.
    + apply Forall_app. split; [done|].
      eapply Forall_impl; [exact Hr2|]. intros a [Hp (stu & Hin & Hid)].
      split; [done|]. exists stu. by rewrite kiosk_students in Hin.
    + rewrite length_app. destruct (is_post (rq, e)); cbn [length]; lia.
Qed.

(** X3 - the camera never decides a check-in: with any other camera (off,
    failing, or giving another picture) the kiosk gives the same response
    and leaves the same session, roster, day codes, attendance keys and
    number of audit events; only the stored picture and its path can
    differ. *)
Theorem camera_never_decides (rq : Request) (e : KioskEnv) (cam : Camera) (w : World) :
  let out1 := kiosk sha256 rq e w in
  let out2 := kiosk sha256 rq (with_camera cam e) w in
  out2.1 = out1.1 /\
  session out2.2 = session out1.2 /\
  students (db out2.2) = students (db out1.2) /\
  day_sessions (db out2.2) = day_sessions (db out1.2) /\
  att_key <$> attendance (db out2.2) = att_key <$> attendance (db out1.2) /\
  length (audit_log (db out2.2)) = length (audit_log (db out1.2)).
Proof.
  cbv zeta. rewrite !kiosk_students, !kiosk_day_sessions.
  rewrite (kiosk_run sha256 rq (with_camera cam e) w), (kiosk_run sha256 rq e w).
  cbv zeta. cbn [with_camera clk_code entropy clk_rl clk_snap clk_insert clk_log camera].
  destruct (method rq); [done|].
  destruct (20 <? _); [done|].
  destruct (_ || _); [done|].
  destruct (negb _); [done|].
  destruct (Sql.select_student _ _) as [stu|]; [|done].
  destruct (negb _); [done|].
  assert (forall c, Sql.same_key (attendance_row rq (with_camera c e) stu) =
                    Sql.same_key (attendance_row rq e stu)) as -> by done.
  destruct (existsb _ _); cbn [fst snd]; unfold shown; cbn [session db with_session];
    autorewrite with world;
    cbn [attendance audit_log set_audit_log set_attendance];
    rewrite ?fmap_app, ?length_app; done.
Qed.

Lemma snapshot_saved_keeps c cam roll w f :
  is_Some (snap_dir w !! f) -> is_Some (snap_dir (snapshot_saved c cam roll w) !! f).
Proof.
  unfold snapshot_saved. destruct (snapshot_of c cam roll) as [[g fr]|]; [|done].
  destruct (imwrite_ok cam); [|done].
  cbn [snap_dir with_snap_dir]. intros H.
  destruct (decide (g = f)) as [->|Hne].
  - rewrite lookup_insert_eq. eauto.
  - by rewrite lookup_insert_ne.
Qed.

Lemma snapshot_saved_file c cam roll w f :
  imwrite_ok cam = true ->
  fst <$> snapshot_of c cam roll = Some f ->
  is_Some (snap_dir (snapshot_saved c cam roll w) !! f).
Proof.
  unfold snapshot_saved. intros ->. destruct (snapshot_of c cam roll) as [[g fr]|]; [|done].
  intros [= ->]. cbn [snap_dir with_snap_dir]. rewrite lookup_insert_eq. eauto.
Qed.

Lemma snapshot_saved_unwritten c cam roll w :
  imwrite_ok cam = false -> snapshot_saved c cam roll w = w.
Proof.
  unfold snapshot_saved. intros ->. by destruct (snapshot_of c cam roll) as [[g fr]|].
Qed.

Lemma kiosk_snap_dir_keeps rq e w f :
  is_Some (snap_dir w !! f) -> is_Some (snap_dir (kiosk sha256 rq e w).2 !! f).
Proof.
  intros H.
  kiosk_branches sha256 rq e w; cbn [snd]; autorewrite with world; try done;
    apply snapshot_saved_keeps; by autorewrite with world.
Qed.

Lemma kiosk_snaps_ok rq e w :
  imwrite_ok (camera e) = true -> snaps_ok w -> snaps_ok (kiosk sha256 rq e w).2.
Proof.
  intros Hw Hok. unfold snaps_ok in *.
  destruct (kiosk_attendance sha256 rq e w) as [Heq|(stu & Hstu & Hresp & Hfresh & Heq)];
    rewrite Heq.
  - eapply Forall_impl; [exact Hok|]. intros a Ha f Hf.
    by apply kiosk_snap_dir_keeps, Ha.
  - apply Forall_app. split.
    + eapply Forall_impl; [exact Hok|]. intros a Ha f Hf.
      by apply kiosk_snap_dir_keeps, Ha.
    + apply Forall_singleton. intros f Hf. cbn [snapshot_path attendance_row] in Hf.
      revert Hresp. rewrite (kiosk_run sha256 rq e w). cbv zeta.
      destruct (method rq); [done|].
      destruct (20 <? _); [done|].
      destruct (_ || _); [done|].
      destruct (negb _); [done|].
      rewrite Hstu.
      destruct (negb _); [done|].
      rewrite Hfresh. intros _. cbn [snd]. autorewrite with world.
      by apply snapshot_saved_file.
Qed.

End Frame.

(** ** Admin routes *)

Lemma bind_run_site {A B} (m : MS A) (f : A -> MS B) (s : Site) :
  (m ≫= f) s =
  match m s with
  | (Ok a, s') => f a s'
  | (Raise e, s') => (Raise e, s')
  end.
Proof. reflexivity. Qed.

Lemma site_eta s : {| world := world s; admins := admins s |} = s.
Proof. by destruct s. Qed.

Lemma lift_require_admin s :
  lift require_admin s =
  (Ok (if admin (session (world s)) then None else Some (Redirect "admin_login")), s).
Proof.
  unfold lift, require_admin.
  destruct (admin (session (world s))); cbn [negb fst snd]; by rewrite site_eta.
Qed.

Lemma lift_flash m s : lift (flash m) s = (Ok tt, with_world (flashed m) s).
Proof. reflexivity. Qed.

Lemma lift_log c ev det s :
  lift (log c ev det) s =
  (Ok tt, with_world (logged {| ts := now c; event := ev; detail := Py.prefix 1000 det |}) s).
Proof. reflexivity. Qed.

(** [strip] applied twice is [strip]. *)
Lemma lstrip_head s :
  match Py.lstrip s with
  | String a _ => Py.isspace a = false
  | EmptyString => True
  end.
Proof.
  induction s as [|a s IH]; simpl; [done|].
  destruct (Py.isspace a) eqn:Ha; [exact IH|exact Ha].
Qed.

Lemma rstrip_head a s :
  Py.isspace a = false ->
  exists t, Py.rstrip (String a s) = String a t.
Proof.
  intros Ha. simpl. destruct (Py.rstrip s); rewrite ?Ha; eauto.
Qed.

Lemma rstrip_rstrip s : Py.rstrip (Py.rstrip s) = Py.rstrip s.
Proof.
  induction s as [|a s IH]; simpl; [done|].
  destruct (Py.rstrip s) as [|b t] eqn:Hr.
  - destruct (Py.isspace a) eqn:Ha; simpl; by rewrite ?Ha.
  - simpl in *. by rewrite IH.
Qed.

Lemma strip_strip s : Py.strip (Py.strip s) = Py.strip s.
Proof.
  unfold Py.strip. pose proof (lstrip_head s) as Hh.
  destruct (Py.lstrip s) as [|a t] eqn:Hl; [done|].
  destruct (rstrip_head a t Hh) as (u & Hu). rewrite Hu.
  assert (Py.lstrip (String a u) = String a u) as -> by (simpl; by rewrite Hh).
  by rewrite <- Hu, rstrip_rstrip.
Qed.

Lemma hash_pw_inj (sha256 : list byte -> list byte) (p1 p2 sl : string) :
  Inj (=) (=) sha256 -> hash_pw sha256 p1 sl = hash_pw sha256 p2 sl -> p1 = p2.
Proof.
  intros Hsha H.
  assert (verify_pw sha256 p1 sl (hash_pw sha256 p2 sl) = true) as Hv
    by (unfold verify_pw; by apply String.eqb_eq).
  apply verify_pw_iff in Hv.
  apply (iter_inj sha256 rounds Hsha) in Hv.
  apply encode_inj in Hv. by apply String.app_inj in Hv.
Qed.

Section AdminProperties.
Variable sha256 : list byte -> list byte.

(** X4 - without the admin flag in the session every admin route, asked
    with a method it is registered for, answers with the redirect to the
    login page and changes nothing: the dashboard (GET), add-student
    (POST), change-password (GET and POST), the snapshot files and the
    reports (GET). *)
Theorem admin_routes_need_admin (s : Site) (rq : Request) :
  admin (session (world s)) = false ->
  (forall ck ent c1 c2 c3, method rq = GET ->
     admin_dashboard rq ck ent c1 c2 c3 s = (Ok (Plain (Redirect "admin_login")), s)) /\
  (forall c cl r, method rq = POST ->
     admin_add_student sha256 rq c cl r s = (Ok (Plain (Redirect "admin_login")), s)) /\
  (forall c r,
     admin_change_password sha256 rq c r s = (Ok (Plain (Redirect "admin_login")), s)) /\
  (forall f, snapshot f s = (Ok (Plain (Redirect "admin_login")), s)) /\
  (forall c, method rq = GET ->
     admin_reports rq c (world s) = (Ok (Redirect "admin_login"), world s)).
Proof.
  intros Hno. split_and!.
  - intros ck ent c1 c2 c3 Hm. unfold admin_dashboard.
    by rewrite Hm, bind_run_site, lift_require_admin, Hno.
  - intros c cl r Hm. unfold admin_add_student.
    by rewrite Hm, bind_run_site, lift_require_admin, Hno.
  - intros c r. unfold admin_change_password.
    by rewrite bind_run_site, lift_require_admin, Hno.
  - intros f. unfold snapshot.
    by rewrite bind_run_site, lift_require_admin, Hno.
  - intros c Hm. unfold admin_reports, require_admin. by rewrite Hm, bind_run, Hno.
Qed.

Lemma admin_login_run rq c s :
  method rq = POST ->
  admin_login sha256 rq c s =
  match AdminSql.select_admin (Py.strip (form_get rq "username")) s with
  | Some row =>
      if String.eqb (hash_pw sha256 (Py.strip (form_get rq "password")) (adm_salt row))
           (pass_hash row)
      then (Ok (Plain (Redirect "admin_dashboard")),
            with_world
              (fun w =>
                 logged {| ts := now c; event := "ADMIN_LOGIN";
                           detail := Py.prefix 1000 (Py.strip (form_get rq "username")) |}
                   (with_session
                      (fun x => {| rl := rl x; admin := true; flashes := flashes x |}) w)) s)
      else (Ok (Plain (Redirect "admin_login")), with_world (flashed msg_invalid) s)
  | None => (Ok (Plain (Redirect "admin_login")), with_world (flashed msg_invalid) s)
  end.
Proof.
  intros Hm. unfold admin_login. rewrite Hm, bind_run_site. cbn [get_site].
  destruct (AdminSql.select_admin _ s) as [row|]; [|done].
  destruct (String.eqb _ _); [|done]. reflexivity.
Qed.

(** X5 - a login POST never raises, never touches the rate limit or the
    admin table, and reaches the dashboard exactly when the user name
    (stripped) has a row whose stored hash is the hash of the typed
    password (stripped) under the row's salt; then the session is admin.
    Otherwise the answer is the same whether the user is unknown or the
    password is wrong: the flash "Invalid credentials.", the redirect to
    the login page, the admin flag as it was, and no audit event. *)
Theorem login_needs_credentials (rq : Request) (c : Clock) (s : Site) :
  method rq = POST ->
  let out := admin_login sha256 rq c s in
  (exists resp, out.1 = Ok resp) /\
  rl (session (world out.2)) = rl (session (world s)) /\
  admins out.2 = admins s /\
  (out.1 = Ok (Plain (Redirect "admin_dashboard")) <-> credentials_ok sha256 rq s) /\
  (credentials_ok sha256 rq s -> admin (session (world out.2)) = true) /\
  (~ credentials_ok sha256 rq s ->
     out = (Ok (Plain (Redirect "admin_login")), with_world (flashed msg_invalid) s) /\
     admin (session (world out.2)) = admin (session (world s)) /\
     audit_log (db (world out.2)) = audit_log (db (world s))).
Proof.
  intros Hm out. subst out. rewrite (admin_login_run rq c s Hm). unfold credentials_ok.
  destruct (AdminSql.select_admin _ s) as [row|] eqn:Hsel.
  - destruct (String.eqb _ _) eqn:Hh.
    + apply String.eqb_eq in Hh.
      split; [eauto|]. split; [done|]. split; [done|].
      split; [split; [eauto|done]|]. split; [done|].
      intros Hno. exfalso. apply Hno. eauto.
    + apply String.eqb_neq in Hh.
      assert (~ exists row', Some row = Some row' /\
                hash_pw sha256 (Py.strip (form_get rq "password")) (adm_salt row') =
                pass_hash row') as Hno by (intros (row' & [= <-] & Hok); done).
      split; [eauto|]. split; [done|]. split; [done|].
      split; [split; [done|by intros ?]|]. split; [by intros ?|done].
  - assert (~ exists row' : AdminRow, None = Some row' /\
                hash_pw sha256 (Py.strip (form_get rq "password")) (adm_salt row') =
                pass_hash row') as Hno by (intros (row' & [=] & _)).
    split; [eauto|]. split; [done|]. split; [done|].
    split; [split; [done|by intros ?]|]. split; [by intros ?|done].
Qed.

Lemma init_db_run c r s :
  init_db sha256 c r s =
  match admins s with
  | [] => (Ok tt, with_world (logged (init_admin_event c))
                    (with_admins (fun _ => [default_admin sha256 r]) s))
  | _ :: _ => (Ok tt, s)
  end.
Proof.
  unfold init_db. rewrite bind_run_site. cbn [get_site].
  unfold AdminSql.count_admin.
  destruct s as [w [|a l]]; cbn [admins length]; [|done].
  reflexivity.
Qed.

(** X6 - [init_db] succeeds, leaves an admin table that is not empty, and
    is a no-op from then on: a second call changes nothing, and a table
    that already has a row is left alone, password included. On an empty
    table it inserts the one row admin/admin123 with id 1 under the fresh
    salt and appends the INIT_ADMIN event. *)
Theorem init_db_only_once (c1 c2 : Clock) (r1 r2 : list byte) (s : Site) :
  let s1 := (init_db sha256 c1 r1 s).2 in
  (init_db sha256 c1 r1 s).1 = Ok tt /\
  admins s1 <> [] /\
  init_db sha256 c2 r2 s1 = (Ok tt, s1) /\
  (admins s <> [] -> s1 = s) /\
  (admins s = [] ->
     admins s1 = [default_admin sha256 r1] /\
     audit_log (db (world s1)) = (audit_log (db (world s)) ++ [init_admin_event c1])%list).
Proof.
  cbv zeta. rewrite (init_db_run c1 r1 s).
  destruct (admins s) as [|a l] eqn:Ha; cbn [fst snd].
  - split; [done|]. split; [done|]. split; [by rewrite init_db_run|]. split; done.
  - split; [done|]. split; [by rewrite Ha|]. split; [by rewrite init_db_run, Ha|].
    split; done.
Qed.

(** X7 - after the first [init_db] on an empty admin table, the login
    admin / admin123 (spaces around either are stripped) reaches the
    dashboard and makes the session admin. *)
Theorem default_admin_logs_in (c c' : Clock) (r : list byte) (s : Site) (rq : Request) :
  admins s = [] ->
  method rq = POST ->
  Py.strip (form_get rq "username") = "admin" ->
  Py.strip (form_get rq "password") = "admin123" ->
  let out := admin_login sha256 rq c' (init_db sha256 c r s).2 in
  out.1 = Ok (Plain (Redirect "admin_dashboard")) /\
  admin (session (world out.2)) = true.
Proof.
  intros Ha Hm Hu Hp out. subst out.
  rewrite (init_db_run c r s), Ha. cbn [snd].
  rewrite (admin_login_run rq c' _ Hm), Hu, Hp.
  change (AdminSql.select_admin "admin" _) with (Some (default_admin sha256 r)).
  cbv beta iota.
  change (adm_salt (default_admin sha256 r)) with (token_hex r).
  change (pass_hash (default_admin sha256 r)) with (hash_pw sha256 "admin123" (token_hex r)).
  rewrite String.eqb_refl. split; reflexivity.
Qed.

Lemma admin_change_password_run rq c r s :
  admin (session (world s)) = true ->
  method rq = POST ->
  admin_change_password sha256 rq c r s =
  if Py.falsy (form_get rq "new")
     || negb (String.eqb (form_get rq "new") (form_get rq "new2"))
  then (Ok (Plain (Redirect "admin_change_password")), with_world (flashed msg_no_match) s)
  else
    match AdminSql.select_admin "admin" s with
    | Some row =>
        if String.eqb (hash_pw sha256 (form_get rq "old") (adm_salt row)) (pass_hash row)
        then (Ok (Plain (Redirect "admin_dashboard")),
              with_world
                (fun w => flashed msg_updated
                   (logged {| ts := now c; event := "ADMIN_PW_CHANGE";
                              detail := Py.prefix 1000 "admin password changed" |} w))
                (with_admins
                   (List.map (set_admin_password
                      (hash_pw sha256 (form_get rq "new") (token_hex r)) (token_hex r))) s))
        else (Ok (Plain (Redirect "admin_change_password")),
              with_world (flashed msg_old_wrong) s)
    | None => (Ok (Plain (Redirect "admin_change_password")),
               with_world (flashed msg_old_wrong) s)
    end.
Proof.
  intros Ha Hm. unfold admin_change_password.
  rewrite bind_run_site, lift_require_admin, Ha, Hm.
  destruct (_ || _); [done|].
  rewrite bind_run_site. cbn [get_site].
  destruct (AdminSql.select_admin "admin" s) as [row|]; [|done].
  destruct (String.eqb _ _); [|done]. reflexivity.
Qed.

Lemma select_admin_updated ph sl l row :
  find (fun r => String.eqb (username r) "admin") l = Some row ->
  find (fun r => String.eqb (username r) "admin") (List.map (set_admin_password ph sl) l) =
  Some {| adm_id := adm_id row; username := username row; pass_hash := ph; adm_salt := sl |}.
Proof.
  induction l as [|a l IH]; cbn [List.map find]; [done|].
  unfold set_admin_password at 1 2.
  destruct (String.eqb (username a) "admin") eqn:Ha; cbn [username]; rewrite Ha.
  - intros [= <-]. reflexivity.
  - exact IH.
Qed.

(** X10 - a password change of a logged-in admin is accepted exactly when
    the new password is not empty, equals its repetition, and the old one
    matches the row of admin; otherwise the admin table is as before. Once
    accepted, the user names are unchanged and the login with a password
    that strips to the new one succeeds. The new password is stored as
    typed while the login strips what is typed: with a collision-free
    hash, a new password with a leading or trailing space makes every
    later login as admin fail. *)
Theorem password_change_then_login (rq : Request) (c : Clock) (r : list byte) (s : Site) :
  admin (session (world s)) = true ->
  method rq = POST ->
  let out := admin_change_password sha256 rq c r s in
  let new := form_get rq "new" in
  (out.1 = Ok (Plain (Redirect "admin_dashboard")) <-> change_accepted sha256 rq s) /\
  (~ change_accepted sha256 rq s -> admins out.2 = admins s) /\
  (change_accepted sha256 rq s ->
     username <$> admins out.2 = username <$> admins s /\
     (forall rq' c',
        method rq' = POST ->
        Py.strip (form_get rq' "username") = "admin" ->
        Py.strip (form_get rq' "password") = new ->
        (admin_login sha256 rq' c' out.2).1 = Ok (Plain (Redirect "admin_dashboard"))) /\
     (Inj (=) (=) sha256 -> Py.strip new <> new ->
      forall rq' c',
        method rq' = POST ->
        Py.strip (form_get rq' "username") = "admin" ->
        (admin_login sha256 rq' c' out.2).1 = Ok (Plain (Redirect "admin_login")))).
Proof.
  intros Ha Hm out new. subst out.
  rewrite (admin_change_password_run rq c r s Ha Hm). unfold change_accepted. fold new.
  destruct (Py.falsy new || negb (String.eqb new (form_get rq "new2"))) eqn:Hnew.
  { assert (~ (new <> "" /\ new = form_get rq "new2" /\
               exists row, AdminSql.select_admin "admin" s = Some row /\
                 hash_pw sha256 (form_get rq "old") (adm_salt row) = pass_hash row)) as Hno.
    { intros (Hne & Heq & _). apply orb_true_iff in Hnew as [Hf|Hf].
      - destruct new; done.
      - rewrite Heq, String.eqb_refl in Hf. done. }
    split; [split; [done|by intros ?]|]. split; [done|by intros ?]. }
  apply orb_false_iff in Hnew as [Hne Heq].
  apply negb_false_iff, String.eqb_eq in Heq.
  assert (new <> "") as Hne' by (intros Hn; by rewrite Hn in Hne).
  destruct (AdminSql.select_admin "admin" s) as [row|] eqn:Hsel.
  2:{ assert (~ (new <> "" /\ new = form_get rq "new2" /\
                 exists row, None = Some row /\
                   hash_pw sha256 (form_get rq "old") (adm_salt row) = pass_hash row)) as Hno
        by (intros (_ & _ & row & [=] & _)).
      split; [split; [done|by intros ?]|]. split; [done|by intros ?]. }
  destruct (String.eqb _ _) eqn:Hold.
  2:{ apply String.eqb_neq in Hold.
      assert (~ (new <> "" /\ new = form_get rq "new2" /\
                 exists row', Some row = Some row' /\
                   hash_pw sha256 (form_get rq "old") (adm_salt row') = pass_hash row')) as Hno
        by (intros (_ & _ & row' & [= <-] & Hok); done).
      split; [split; [done|by intros ?]|]. split; [done|by intros ?]. }
  apply String.eqb_eq in Hold. cbn [fst snd].
  split; [split; [eauto 6|done]|].
  split; [intros Hno; exfalso; apply Hno; eauto 6|].
  intros _.
  set (ph := hash_pw sha256 new (token_hex r)).
  set (s' := with_world _ (with_admins _ s)).
  assert (AdminSql.select_admin "admin" s' =
          Some {| adm_id := adm_id row; username := username row;
                  pass_hash := ph; adm_salt := token_hex r |}) as Hsel'.
  { unfold AdminSql.select_admin in *. subst s'. cbn [admins with_world with_admins].
    by apply select_admin_updated. }
  split; [|split].
  - subst s'. cbn [admins with_world with_admins].
    rewrite <- list_fmap_compose. apply list_fmap_ext. intros _ a _.
    unfold compose, set_admin_password. by destruct (String.eqb (username a) "admin").
  - intros rq' c' Hm' Hu Hp.
    rewrite (admin_login_run rq' c' s' Hm'), Hu, Hsel', Hp. cbv beta iota.
    cbn [adm_salt pass_hash]. subst ph. by rewrite String.eqb_refl.
  - intros Hsha Hstrip rq' c' Hm' Hu.
    rewrite (admin_login_run rq' c' s' Hm'), Hu, Hsel'. cbv beta iota.
    cbn [adm_salt pass_hash]. subst ph.
    destruct (String.eqb _ _) eqn:Hh; [|done].
    apply String.eqb_eq, (hash_pw_inj sha256 _ _ _ Hsha) in Hh.
    exfalso. apply Hstrip. by rewrite <- Hh, strip_strip.
Qed.

End AdminProperties.

(** ** Enrolment *)

Lemma next_rowid_fresh (ids : list N) : AdminSql.next_rowid ids ∉ ids.
Proof.
  assert (forall x, x ∈ ids -> x <= foldr N.max 0 ids) as Hmax.
  { induction ids as [|y ids IH]; intros x Hx; [by apply not_elem_of_nil in Hx|].
    cbn [foldr]. apply elem_of_cons in Hx as [->|Hx]; [lia|].
    specialize (IH x Hx). lia. }
  intros Hin. apply Hmax in Hin. unfold AdminSql.next_rowid in Hin. lia.
Qed.

Lemma existsb_roll_elem roll (l : list Student) :
  existsb (fun s => String.eqb (roll_no s) roll) l = false -> roll ∉ roll_no <$> l.
Proof.
  induction l as [|x l IH]; simpl; intros H.
  - apply not_elem_of_nil.
  - apply orb_false_iff in H as [Hx Hl].
    apply not_elem_of_cons. split; [|by apply IH].
    intros ->. by rewrite String.eqb_refl in Hx.
Qed.

Lemma select_student_existsb roll t :
  existsb (fun s => String.eqb (roll_no s) roll) (students t) =
  bool_decide (is_Some (Sql.select_student roll t)).
Proof.
  unfold Sql.select_student.
  induction (students t) as [|x l IH]; simpl; [done|].
  by destruct (String.eqb (roll_no x) roll).
Qed.

Lemma select_student_app roll l s t :
  find (fun x => String.eqb (roll_no x) roll) l = None ->
  roll_no s = roll ->
  Sql.select_student roll (set_students (l ++ [s]) t) = Some s.
Proof.
  intros Hnone Hroll. unfold Sql.select_student. cbn [students set_students].
  induction l as [|x l IH]; simpl in *.
  - by rewrite Hroll, String.eqb_refl.
  - destruct (String.eqb (roll_no x) roll); [done|]. by apply IH.
Qed.

Lemma fields_complete rq :
  form_complete rq ->
  Py.falsy (Py.strip (form_get rq "roll_no")) || Py.falsy (Py.strip (form_get rq "full_name"))
  || Py.falsy (Py.strip (form_get rq "class_name")) || Py.falsy (Py.strip (form_get rq "section"))
  || Py.falsy (Py.strip (form_get rq "pin")) = false.
Proof.
  intros (H1 & H2 & H3 & H4 & H5). unfold added_roll, added_pin in *.
  by rewrite !falsy_false.
Qed.

Section Enrolment.
Variable sha256 : list byte -> list byte.

Lemma admin_add_student_run rq c cl r s :
  admin (session (world s)) = true ->
  method rq = POST ->
  form_complete rq ->
  admin_add_student sha256 rq c cl r s =
  (Ok (Plain (Redirect "admin_dashboard")),
   if existsb (fun x => String.eqb (roll_no x) (added_roll rq)) (students (db (world s)))
   then with_world (flashed msg_roll_exists) s
   else
     with_world
       (fun w =>
          flashed msg_added
            (logged {| ts := now cl; event := "ADD_STUDENT";
                       detail := Py.prefix 1000
                         ("roll=" ++ added_roll rq ++ ", name="
                          ++ Py.strip (form_get rq "full_name") ++ ", class="
                          ++ Py.strip (form_get rq "class_name") ++ "-"
                          ++ Py.strip (form_get rq "section")) |}
               (with_db
                  (set_students
                     (students (db w) ++ [new_student sha256 rq c r (db w)])) w))) s).
Proof.
  intros Ha Hm Hf. unfold admin_add_student.
  rewrite Hm, bind_run_site, lift_require_admin, Ha, (fields_complete rq Hf).
  rewrite bind_run_site. unfold try_except_integrity_site.
  rewrite bind_run_site. unfold lift at 1. unfold AdminSql.insert_student.
  fold (added_roll rq).
  destruct (existsb _ _); reflexivity.
Qed.

Lemma admin_add_student_other rq c cl r s :
  ~ (admin (session (world s)) = true /\ method rq = POST /\ form_complete rq) ->
  db (world (admin_add_student sha256 rq c cl r s).2) = db (world s).
Proof.
  intros Hno. unfold admin_add_student.
  destruct (method rq) eqn:Hm; [done|].
  rewrite bind_run_site, lift_require_admin.
  destruct (admin (session (world s))) eqn:Ha; [|done].
  destruct (_ || _) eqn:Hf; [done|].
  exfalso. apply Hno. split; [done|]. split; [done|].
  unfold form_complete, added_roll, added_pin.
  repeat (apply orb_false_iff in Hf as [Hf ?]).
  split_and!; intros Heq; rewrite Heq in *; done.
Qed.

Lemma roster_ok_add rq c r t :
  roster_ok t ->
  existsb (fun x => String.eqb (roll_no x) (added_roll rq)) (students t) = false ->
  roster_ok (set_students (students t ++ [new_student sha256 rq c r t]) t).
Proof.
  intros (Hr & Hi & Hrefs) Hnew. unfold roster_ok, roll_unique, id_unique, refs_ok.
  cbn [students attendance set_students]. rewrite !fmap_app. split_and!.
  - apply NoDup_app. split; [done|]. split; [|apply NoDup_singleton].
    intros x Hx ->%list_elem_of_singleton. revert Hx. by apply existsb_roll_elem.
  - apply NoDup_app. split; [done|]. split; [|apply NoDup_singleton].
    intros x Hx ->%list_elem_of_singleton. revert Hx. apply next_rowid_fresh.
  - eapply Forall_impl; [exact Hrefs|]. intros a Ha. apply elem_of_app. by left.
Qed.

Lemma admin_add_student_roster_ok rq c cl r s :
  roster_ok (db (world s)) -> roster_ok (db (world (admin_add_student sha256 rq c cl r s).2)).
Proof.
  intros Hok.
  destruct (admin (session (world s))) eqn:Ha.
  2:{ rewrite admin_add_student_other; [done|]. intros (? & _). congruence. }
  destruct (method rq) eqn:Hm.
  { rewrite admin_add_student_other; [done|]. intros (_ & ? & _). congruence. }
  assert (Decision (form_complete rq)) as [Hf|Hnf] by (unfold form_complete; apply _).
  2:{ rewrite admin_add_student_other; [done|]. by intros (_ & _ & ?). }
  rewrite (admin_add_student_run rq c cl r s Ha Hm Hf). cbn [snd].
  destruct (existsb _ _) eqn:Hex; [done|].
  cbn [world with_world]. world_simpl. by apply roster_ok_add.
Qed.

Lemma kiosk_roster_ok rq e w : roster_ok (db w) -> roster_ok (db (kiosk sha256 rq e w).2).
Proof.
  intros (Hr & Hi & Hrefs). unfold roster_ok, roll_unique, id_unique, refs_ok.
  rewrite kiosk_students. split; [done|]. split; [done|].
  destruct (kiosk_new_rows sha256 rq e w) as (new & -> & Hnew & _).
  apply Forall_app. split; [done|].
  eapply Forall_impl; [exact Hnew|]. intros a (_ & stu & Hin & <-).
  apply list_elem_of_fmap. eauto.
Qed.

(** X9 - the roster stays consistent: unique roll numbers, unique ids and
    attendance rows that all belong to enrolled students are preserved by
    [admin_add_student] and by every kiosk request; and adding a roll
    number that exists only flashes "Roll number already exists.", with
    the store as it was. *)
Theorem roster_stays_consistent (rq : Request) (c cl : Clock) (r : list byte) (s : Site) :
  roster_ok (db (world s)) ->
  let out := admin_add_student sha256 rq c cl r s in
  roster_ok (db (world out.2)) /\
  (forall rq' e, roster_ok (db (kiosk sha256 rq' e (world s)).2)) /\
  (admin (session (world s)) = true -> method rq = POST -> form_complete rq ->
   forall stu, Sql.select_student (added_roll rq) (db (world s)) = Some stu ->
     out = (Ok (Plain (Redirect "admin_dashboard")), with_world (flashed msg_roll_exists) s)).
Proof.
  intros Hok out. split; [by apply admin_add_student_roster_ok|].
  split; [intros; by apply kiosk_roster_ok|].
  intros Ha Hm Hf stu Hstu. subst out.
  rewrite (admin_add_student_run rq c cl r s Ha Hm Hf), select_student_existsb, Hstu.
  by rewrite bool_decide_eq_true_2 by eauto.
Qed.

(** X8 - enrolment and check-in compose: when an admin adds a student with
    a complete form and a roll number not yet in use, the roster holds the
    new student under the stripped roll, and a first kiosk POST with the
    same roll and PIN fields and the day's code checks that student in,
    leaving exactly one attendance row of the student for the day. *)
Theorem enrolled_student_checks_in
    (rq : Request) (c cl : Clock) (r : list byte) (s : Site) (rq' : Request) (e : KioskEnv) :
  admin (session (world s)) = true ->
  method rq = POST ->
  form_complete rq ->
  Sql.select_student (added_roll rq) (db (world s)) = None ->
  refs_ok (db (world s)) ->
  let s1 := (admin_add_student sha256 rq c cl r s).2 in
  let stu := new_student sha256 rq c r (db (world s)) in
  method rq' = POST ->
  attempts (session (world s)) < 20 ->
  form_get rq' "roll_no" = form_get rq "roll_no" ->
  form_get rq' "pin" = form_get rq "pin" ->
  submitted_code rq' <> "" ->
  submitted_code rq' = todays_code (clk_code e) (entropy e) (world s1) ->
  Sql.select_student (added_roll rq) (db (world s1)) = Some stu /\
  (kiosk sha256 rq' e (world s1)).1 = Ok (CheckedIn stu) /\
  records_of (stu_id stu) (today (clk_insert e)) (db (kiosk sha256 rq' e (world s1)).2) =
    [attendance_row rq' e stu].
Proof.
  intros Ha Hm Hf Hnew Hrefs s1 stu Hm' Hlt Hroll Hpin Hcode Heq.
  assert (existsb (fun x => String.eqb (roll_no x) (added_roll rq))
            (students (db (world s))) = false) as Hex.
  { rewrite select_student_existsb, Hnew. apply bool_decide_eq_false_2. by intros [? [=]]. }
  assert (s1 = with_world
            (fun w =>
               flashed msg_added
                 (logged {| ts := now cl; event := "ADD_STUDENT";
                            detail := Py.prefix 1000
                              ("roll=" ++ added_roll rq ++ ", name="
                               ++ Py.strip (form_get rq "full_name") ++ ", class="
                               ++ Py.strip (form_get rq "class_name") ++ "-"
                               ++ Py.strip (form_get rq "section")) |}
                    (with_db
                       (set_students
                          (students (db w) ++ [new_student sha256 rq c r (db w)])) w))) s)
    as Hs1.
  { subst s1. by rewrite (admin_add_student_run rq c cl r s Ha Hm Hf), Hex. }
  assert (Sql.select_student (added_roll rq) (db (world s1)) = Some stu) as Hsel.
  { rewrite Hs1. cbn [world with_world]. world_simpl.
    change (Sql.select_student ?x (set_audit_log ?l ?t)) with (Sql.select_student x t).
    by apply select_student_app. }
  assert (attendance (db (world s1)) = attendance (db (world s))) as Hatt
    by (rewrite Hs1; cbn [world with_world]; by world_simpl).
  assert (session (world s1) = push_flash msg_added (session (world s))) as Hsess
    by (rewrite Hs1; cbn [world with_world]; by world_simpl).
  assert (valid_checkin sha256 rq' e (world s1) stu) as Hv.
  { unfold valid_checkin, submitted_roll, submitted_pin. rewrite Hroll, Hpin, Hsess.
    destruct Hf as (Hr & _ & _ & _ & Hp).
    split; [exact Hm'|]. split; [exact Hlt|]. split; [exact Hr|]. split; [exact Hp|].
    split; [exact Hcode|]. split; [exact Heq|]. split; [exact Hsel|].
    change (pin_hash stu) with (hash_pw sha256 (added_pin rq) (token_hex r)).
    change (salt stu) with (token_hex r). reflexivity. }
  assert (existsb (Sql.same_key (attendance_row rq' e stu)) (attendance (db (world s1)))
          = false) as Hfresh.
  { rewrite Hatt. apply existsb_same_key_false. intros Hin.
    apply list_elem_of_fmap in Hin as (a & Hk & Ha').
    unfold refs_ok in Hrefs. rewrite Forall_forall in Hrefs.
    specialize (Hrefs a Ha'). injection Hk as Hid _. cbn [student_id attendance_row] in Hid.
    rewrite <- Hid in Hrefs. revert Hrefs. apply next_rowid_fresh. }
  split; [done|].
  rewrite (kiosk_valid sha256 rq' e (world s1) stu Hv). cbv zeta. rewrite Hfresh.
  split; [done|]. cbn [snd]. unfold records_of. world_simpl.
  rewrite Hatt, List.filter_app.
  assert (List.filter
            (fun a => N.eqb (student_id a) (stu_id stu) &&
                      String.eqb (att_day a) (today (clk_insert e)))
            (attendance (db (world s))) = []) as ->.
  { apply existsb_same_key_false in Hfresh. rewrite Hatt in Hfresh.
    destruct (List.filter _ _) as [|a l] eqn:Hfil; [done|]. exfalso. apply Hfresh.
    assert (In a (a :: l)) as Hin by (by left). rewrite <- Hfil in Hin.
    apply filter_In in Hin as [Hin Hp]. apply andb_true_iff in Hp as [Hi%N.eqb_eq Hd%String.eqb_eq].
    apply list_elem_of_fmap. exists a. split; [|by apply list_elem_of_In].
    unfold att_key. cbn [student_id att_day attendance_row]. by rewrite Hi, Hd. }
  cbn [app List.filter student_id att_day attendance_row].
  by rewrite N.eqb_refl, String.eqb_refl.
Qed.

(** X11 - [admin_logout] clears the whole session, not only the admin
    flag: it redirects to the login page, leaves the store alone, and the
    rate-limit bucket is gone, so the next kiosk POST is not limited,
    however many attempts the session had made, and counts as the first. *)
Theorem logout_resets_rate_limit (w : World) (rq : Request) (e : KioskEnv) :
  method rq = POST ->
  let w1 := (admin_logout w).2 in
  (admin_logout w).1 = Ok (Redirect "admin_login") /\
  session w1 = empty_session /\
  db w1 = db w /\
  ~ rate_limited (kiosk sha256 rq e w1) /\
  attempts (session (kiosk sha256 rq e w1).2) = 1.
Proof.
  intros Hm w1. subst w1. unfold admin_logout. rewrite bind_run. cbn [modify mret M_ret fst snd].
  split; [done|]. split; [done|]. split; [done|].
  set (w1 := with_session _ w).
  assert (attempts (session w1) = 0) as H0 by done.
  split.
  - unfold rate_limited. kiosk_branches sha256 rq e w1; cbn [fst]; done.
  - rewrite kiosk_attempts. unfold is_post. cbn [fst]. by rewrite Hm, H0.
Qed.

(** X13 - snapshot links resolve as long as the pictures are written: when
    every snapshot path of the attendance table names a file of the
    snapshot directory and [cv2.imwrite] writes the picture of every
    request, this still holds after the requests, and for an admin
    [snapshot] serves the file of every stored path.  A check-in whose
    picture is not written is recorded all the same, with the name of a
    file that is not there: the link of that row is answered 404. *)
Theorem snapshot_links_resolve (rqs : list (Request * KioskEnv)) (s : Site) :
  snaps_ok (world s) ->
  let s' := with_world (fun w => (serve sha256 rqs w).2) s in
  (Forall (fun p => imwrite_ok (camera p.2) = true) rqs ->
   snaps_ok (world s') /\
   (admin (session (world s')) = true ->
    forall a f, a ∈ attendance (db (world s')) -> snapshot_path a = Some f ->
      exists frame,
        snap_dir (world s') !! f = Some frame /\
        snapshot f s' = (Ok (SnapshotFile frame), s'))) /\
  (forall rq e stu frame,
     valid_checkin sha256 rq e (world s) stu ->
     records_of (stu_id stu) (today (clk_insert e)) (db (world s)) = [] ->
     OPENCV_OK (camera e) = true ->
     isOpened (camera e) = true ->
     read_ok (camera e) = true ->
     read_frame (camera e) = Some frame ->
     imwrite_ok (camera e) = false ->
     let file := today (clk_snap e) ++ "_" ++ submitted_roll rq ++ "_"
                 ++ stamp (clk_snap e) ++ ".jpg" in
     snap_dir (world s) !! file = None ->
     let s1 := with_world (fun w => (kiosk sha256 rq e w).2) s in
     attendance (db (world s1)) =
       (attendance (db (world s)) ++ [attendance_row rq e stu])%list /\
     snapshot_path (attendance_row rq e stu) = Some file /\
     ~ snaps_ok (world s1) /\
     (admin (session (world s1)) = true ->
      snapshot file s1 = (Raise (HTTPException 404), s1))).
Proof.
  intros Hok s'. split.
  - intros Hwrites.
    assert (forall w, snaps_ok w -> snaps_ok (serve sha256 rqs w).2) as Hserve.
    { induction Hwrites as [|[rq e] rqs Hw Hrest IH]; intros w Hsn; cbn [serve snd]; [done|].
      by apply IH, kiosk_snaps_ok. }
    assert (snaps_ok (world s')) as Hok'
      by (subst s'; cbn [world with_world]; by apply Hserve).
    split; [done|].
    intros Ha a f Hin Hf. unfold snaps_ok in Hok'. rewrite Forall_forall in Hok'.
    destruct (Hok' a Hin f Hf) as [frame Hframe]. exists frame. split; [done|].
    unfold snapshot. rewrite bind_run_site, lift_require_admin, Ha.
    rewrite bind_run_site. cbn [get_site]. by rewrite Hframe.
  - intros rq e stu frame Hv Hrec Hcv Hopen Hread Hframe Hw file Hnone s1.
    assert (existsb (Sql.same_key (attendance_row rq e stu)) (attendance (db (world s)))
            = false) as Hfresh.
    { apply not_true_is_false. intros H.
      apply (existsb_same_key_records (attendance_row rq e stu) (db (world s))) in H.
      by apply H. }
    assert (snapshot_path (attendance_row rq e stu) = Some file) as Hpath.
    { cbn [snapshot_path attendance_row]. unfold snapshot_of.
      by rewrite Hcv, Hopen, Hread, Hframe. }
    pose proof (kiosk_valid sha256 rq e (world s) stu Hv) as Hrun.
    cbv zeta in Hrun. rewrite Hfresh, (snapshot_saved_unwritten _ _ _ _ Hw) in Hrun.
    assert (attendance (db (world s1)) =
            (attendance (db (world s)) ++ [attendance_row rq e stu])%list) as Hatt.
    { subst s1. cbn [world with_world]. rewrite Hrun. cbn [snd]. by autorewrite with world. }
    assert (snap_dir (world s1) !! file = None) as Hdir.
    { subst s1. cbn [world with_world]. rewrite Hrun. cbn [snd]. by autorewrite with world. }
    split; [exact Hatt|]. split; [exact Hpath|]. split.
    + intros Hs. unfold snaps_ok in Hs. rewrite Hatt in Hs.
      apply Forall_app in Hs as [_ Hlast]. rewrite Forall_singleton in Hlast.
      specialize (Hlast file Hpath). rewrite Hdir in Hlast. by destruct Hlast.
    + intros Ha. unfold snapshot. rewrite bind_run_site, lift_require_admin, Ha.
      rewrite bind_run_site. cbn [get_site]. rewrite Hdir.
      unfold lift, abort, raise. cbn [fst snd]. by rewrite site_eta.
Qed.

End Enrolment.

(** ** Dashboard *)

Lemma flip_ordering {A} (cmp : A -> A -> comparison) :
  Ordering cmp -> Ordering (fun a b => cmp b a).
Proof.
  intros Hcmp. split; cbv beta.
  - intros a b c H1 H2. by apply (cmp_lt_trans c b a).
  - intros a b c H. symmetry. apply (cmp_eq_r c a b).
    by rewrite (cmp_opp b a), H.
  - intros a b c H. by apply (cmp_eq_l c b a).
  - intros a b. apply (cmp_opp b a).
Qed.

Lemma latest_first_ordering :
  Ordering (fun p1 p2 : Attendance * Student =>
              String.compare (checked_in_at p2.1) (checked_in_at p1.1)).
Proof.
  apply (flip_ordering
           (fun p1 p2 : Attendance * Student =>
              String.compare (checked_in_at p1.1) (checked_in_at p2.1))).
  apply (on_key_ordering (fun p : Attendance * Student => checked_in_at p.1) String.compare).
Qed.

Global Instance latest_first_trans : Transitive AdminSql.latest_first.
Proof.
  intros a b c. unfold AdminSql.latest_first.
  apply (@ordering_le_trans _
           (fun p1 p2 : Attendance * Student =>
              String.compare (checked_in_at p2.1) (checked_in_at p1.1))
           latest_first_ordering).
Qed.

Global Instance latest_first_total : Total AdminSql.latest_first.
Proof.
  intros a b. unfold AdminSql.latest_first.
  rewrite (String.compare_antisym (checked_in_at a.1) (checked_in_at b.1)).
  destruct (String.compare (checked_in_at b.1) (checked_in_at a.1)); simpl;
    (by left) || (by right).
Qed.

Lemma join_students_elem d t p :
  p ∈ AdminSql.join_students d t ->
  p.1 ∈ attendance t /\ att_day p.1 = d /\ p.2 ∈ students t /\ stu_id p.2 = student_id p.1.
Proof.
  unfold AdminSql.join_students. rewrite list_elem_of_In, in_flat_map.
  intros (a & Ha & Hp). destruct (String.eqb (att_day a) d) eqn:Hd; [|done].
  apply in_map_iff in Hp as (s & <- & Hs). apply filter_In in Hs as [Hs Hid].
  cbn [fst snd]. apply String.eqb_eq in Hd. apply N.eqb_eq in Hid.
  by rewrite <- !list_elem_of_In in *.
Qed.

Lemma join_students_length d t :
  id_unique t -> refs_ok t ->
  length (AdminSql.join_students d t) = length (rows_of_day d t).
Proof.
  intros Hid Hrefs. unfold AdminSql.join_students, rows_of_day, refs_ok in *.
  induction Hrefs as [|a l Ha Hl IH]; [done|].
  cbn [flat_map List.filter]. rewrite length_app, IH.
  destruct (String.eqb (att_day a) d); [|done].
  rewrite length_map. cbn [length]. f_equal.
  assert (length (List.filter (fun s => N.eqb (stu_id s) (student_id a)) (students t)) <= 1)%nat
    as Hle.
  { apply (filter_key_length stu_id _ (student_id a)); [|exact Hid].
    intros s. apply N.eqb_eq. }
  apply list_elem_of_fmap in Ha as (s & Hs & Hin).
  destruct (List.filter _ (students t)) as [|x xs] eqn:Hf; [|simpl in *; lia].
  exfalso. assert (In s []) as []. rewrite <- Hf. apply filter_In.
  split; [by apply list_elem_of_In|]. apply N.eqb_eq. done.
Qed.

Lemma rows_of_day_ids d t :
  att_unique t -> NoDup (student_id <$> rows_of_day d t).
Proof.
  unfold att_unique, rows_of_day.
  induction (attendance t) as [|a l IH]; cbn [fmap list_fmap List.filter]; [constructor|].
  intros [Hnot Hnd]%NoDup_cons. specialize (IH Hnd).
  destruct (String.eqb (att_day a) d) eqn:Hd; [|done].
  cbn [fmap list_fmap]. apply NoDup_cons. split; [|done].
  intros Hin. apply Hnot.
  apply list_elem_of_fmap in Hin as (b & Hid & Hb).
  apply list_elem_of_In, filter_In in Hb as [Hb Hdb].
  apply list_elem_of_fmap. exists b. split; [|by apply list_elem_of_In].
  unfold att_key. apply String.eqb_eq in Hd, Hdb. by rewrite Hid, Hd, Hdb.
Qed.

Lemma rows_of_day_bound d t :
  att_unique t -> refs_ok t ->
  (length (rows_of_day d t) <= length (students t))%nat.
Proof.
  intros Hu Hrefs.
  rewrite <- (length_fmap student_id (rows_of_day d t)), <- (length_fmap stu_id (students t)).
  apply submseteq_length, NoDup_submseteq; [by apply rows_of_day_ids|].
  intros x (a & -> & Ha)%list_elem_of_fmap.
  unfold refs_ok in Hrefs. rewrite Forall_forall in Hrefs. apply Hrefs.
  unfold rows_of_day in Ha. by apply list_elem_of_In, filter_In in Ha as [?%list_elem_of_In _].
Qed.

Lemma admin_dashboard_run rq ck ent c1 c2 c3 s :
  admin (session (world s)) = true ->
  method rq = GET ->
  admin_dashboard rq ck ent c1 c2 c3 s =
  let s1 := with_world (ensure_code ck ent) s in
  (Ok (Dashboard (today c3) (todays_code ck ent (world s))
         (AdminSql.count_students (db (world s1)))
         (AdminSql.count_attendance (today c1) (db (world s1)))
         (AdminSql.recent_checkins (today c2) (db (world s1)))),
   with_world shown s1).
Proof.
  intros Ha Hm. unfold admin_dashboard.
  rewrite Hm, bind_run_site, lift_require_admin, Ha.
  rewrite bind_run_site. unfold lift at 1. rewrite get_or_create_session_code_run.
  cbn [fst snd]. rewrite bind_run_site. reflexivity.
Qed.

Lemma ensure_code_day_rows c r w d :
  rows_of_day d (db (ensure_code c r w)) = rows_of_day d (db w).
Proof. unfold rows_of_day. by rewrite ensure_code_attendance. Qed.

(** X12 - the dashboard of an admin shows the day's code, the number of
    students, the number of attendance rows of the day, and at most 50
    recent check-ins, latest first, each the attendance row of the day
    joined with its student; the only changes are the creation of the
    day's code and the queued flash messages, which the page shows and
    takes out of the session. On a consistent store the present count is
    at most the number of students, and the list has min(50, present)
    entries. *)
Theorem dashboard_counts
    (rq : Request) (ck c1 c2 c3 : Clock) (ent : Entropy3) (s : Site) :
  admin (session (world s)) = true ->
  method rq = GET ->
  let t := db (world s) in
  exists recent ps,
    admin_dashboard rq ck ent c1 c2 c3 s =
      (Ok (Dashboard (today c3) (todays_code ck ent (world s))
             (N.of_nat (length (students t)))
             (N.of_nat (length (rows_of_day (today c1) t)))
             recent),
       with_world (fun w => shown (ensure_code ck ent w)) s) /\
    recent = AdminSql.recent_row <$> ps /\
    (length recent <= 50)%nat /\
    StronglySorted AdminSql.latest_first ps /\
    Forall (fun p => p.1 ∈ rows_of_day (today c2) t /\ p.2 ∈ students t /\
                     stu_id p.2 = student_id p.1) ps /\
    (att_unique t -> id_unique t -> refs_ok t ->
       (length (rows_of_day (today c1) t) <= length (students t))%nat /\
       length recent = Nat.min 50 (length (rows_of_day (today c2) t))).
Proof.
  intros Ha Hm t.
  set (t1 := db (ensure_code ck ent (world s))).
  assert (students t1 = students t) as Hst by apply ensure_code_students.
  assert (attendance t1 = attendance t) as Hat by apply ensure_code_attendance.
  assert (AdminSql.join_students (today c2) t1 = AdminSql.join_students (today c2) t) as Hj
    by (unfold AdminSql.join_students; by rewrite Hst, Hat).
  set (sorted := merge_sort AdminSql.latest_first (AdminSql.join_students (today c2) t)).
  assert (sorted ≡ₚ AdminSql.join_students (today c2) t) as Hperm
    by apply merge_sort_Permutation.
  exists (AdminSql.recent_row <$> take 50 sorted), (take 50 sorted).
  split; [|split; [done|split; [|split; [|split]]]].
  - rewrite (admin_dashboard_run rq ck ent c1 c2 c3 s Ha Hm). cbv zeta.
    cbn [world with_world].
    unfold AdminSql.count_students, AdminSql.count_attendance, AdminSql.recent_checkins.
    fold t1. rewrite Hst, Hj. fold sorted.
    change (List.filter (fun a => String.eqb (att_day a) (today c1)) (attendance t1))
      with (rows_of_day (today c1) t1).
    unfold t1. by rewrite ensure_code_day_rows.
  - rewrite length_fmap, length_take. lia.
  - assert (StronglySorted AdminSql.latest_first sorted) as Hs
      by apply (StronglySorted_merge_sort AdminSql.latest_first).
    rewrite <- (take_drop 50 sorted) in Hs. by apply StronglySorted_app_1_l in Hs.
  - apply Forall_forall. intros p Hp.
    assert (p ∈ AdminSql.join_students (today c2) t) as Hin.
    { rewrite <- Hperm. rewrite <- (take_drop 50 sorted). apply elem_of_app. by left. }
    apply join_students_elem in Hin as (H1 & H2 & H3 & H4).
    split; [|done]. unfold rows_of_day. apply list_elem_of_In, filter_In.
    split; [by apply list_elem_of_In|by apply String.eqb_eq].
  - intros Hu Hid Hrefs. split; [by apply rows_of_day_bound|].
    rewrite length_fmap, length_take, Hperm, join_students_length by done. lia.
Qed.

(** ** The PIN *)

Lemma form_get_typed_pin p rq k :
  form_get (typed_pin p rq) k = if decide (k = "pin") then p else form_get rq k.
Proof.
  unfold form_get, typed_pin. cbn [form].
  destruct (decide (k = "pin")) as [->|Hk].
  - by rewrite lookup_insert_eq.
  - by rewrite lookup_insert_ne.
Qed.

Section Pin.
Variable sha256 : list byte -> list byte.

(** X14 - the typed PIN leaves no trace: the kiosk uses a PIN that is not
    blank only to compare its hash with the stored one. Two requests that
    differ in the PIN alone, both matching or both not matching the
    student of the roll number, get the same response and leave the same
    world: session, flash, tables, audit log and pictures. *)
Theorem pin_leaves_no_trace (rq : Request) (p1 p2 : string) (e : KioskEnv) (w : World) :
  Py.strip p1 <> "" ->
  Py.strip p2 <> "" ->
  (forall stu, Sql.select_student (submitted_roll rq) (db w) = Some stu ->
     (hash_pw sha256 (Py.strip p1) (salt stu) = pin_hash stu <->
      hash_pw sha256 (Py.strip p2) (salt stu) = pin_hash stu)) ->
  kiosk sha256 (typed_pin p1 rq) e w = kiosk sha256 (typed_pin p2 rq) e w.
Proof.
  intros H1 H2 Hsame.
  rewrite !kiosk_run. cbv zeta.
  unfold attendance_row, snapshot_of, submitted_roll, submitted_pin, submitted_code.
  rewrite !form_get_typed_pin.
  change (method (typed_pin p1 rq)) with (method rq).
  change (method (typed_pin p2 rq)) with (method rq).
  change (remote_addr (typed_pin p1 rq)) with (remote_addr rq).
  change (remote_addr (typed_pin p2 rq)) with (remote_addr rq).
  change (headers (typed_pin p1 rq)) with (headers rq).
  change (headers (typed_pin p2 rq)) with (headers rq).
  repeat match goal with |- context [decide (?a = ?b)] =>
    destruct (decide (a = b)) as [?|_]; [discriminate|] end.
  destruct (decide ("pin" = "pin")) as [_|?]; [|done].
  destruct (method rq); [done|].
  destruct (20 <? attempts (session w) + 1); [done|].
  rewrite (falsy_false _ H1), (falsy_false _ H2).
  destruct (Py.falsy (Py.strip (form_get rq "roll_no")) || false
            || Py.falsy (Py.upper (Py.strip (form_get rq "session_code")))); [done|].
  destruct (negb (String.eqb _ _)); [done|].
  fold (submitted_roll rq).
  destruct (Sql.select_student (submitted_roll rq) (db w)) as [stu|] eqn:Hstu; [|done].
  destruct (Hsame stu eq_refl) as [Hf Hg].
  destruct (String.eqb_spec (hash_pw sha256 (Py.strip p1) (salt stu)) (pin_hash stu)) as [Ha|Ha];
    destruct (String.eqb_spec (hash_pw sha256 (Py.strip p2) (salt stu)) (pin_hash stu))
      as [Hb|Hb]; try reflexivity.
  - exfalso. exact (Hb (Hf Ha)).
  - exfalso. exact (Ha (Hg Hb)).
Qed.

End Pin.

(** ** The rate limit over all routes *)

Lemma keeps_M_ret {A} (a : A) : keeps_rl_M (mret a).
Proof. by intros w. Qed.

Lemma keeps_M_bind {A B} (m : M A) (f : A -> M B) :
  keeps_rl_M m -> (forall a, keeps_rl_M (f a)) -> keeps_rl_M (m ≫= f).
Proof.
  intros Hm Hf w. rewrite bind_run. specialize (Hm w).
  destruct (m w) as [[a|x] w']; cbn [snd] in *; [|done].
  by rewrite Hf.
Qed.

Lemma keeps_M_flash m : keeps_rl_M (flash m).
Proof. by intros w. Qed.

Lemma keeps_M_log c ev det : keeps_rl_M (log c ev det).
Proof. by intros w. Qed.

Lemma keeps_M_page : keeps_rl_M page.
Proof. by intros w. Qed.

Lemma keeps_M_abort {A} code : keeps_rl_M (abort (A:=A) code).
Proof. by intros w. Qed.

Lemma keeps_M_get_world : keeps_rl_M get_world.
Proof. by intros w. Qed.

Lemma keeps_M_require_admin : keeps_rl_M require_admin.
Proof. intros w. unfold require_admin. by destruct (negb _). Qed.

Lemma keeps_M_admin_flag :
  keeps_rl_M (modify (with_session (fun x => {| rl := rl x; admin := true;
                                                flashes := flashes x |}))).
Proof. by intros w. Qed.

Lemma keeps_M_session_code c r : keeps_rl_M (get_or_create_session_code c r).
Proof.
  intros w. rewrite get_or_create_session_code_run. cbn [snd].
  by rewrite ensure_code_session.
Qed.

Lemma keeps_M_insert_student roll name cls sec ph sl created :
  keeps_rl_M (AdminSql.insert_student roll name cls sec ph sl created).
Proof. intros w. unfold AdminSql.insert_student. by destruct (existsb _ _). Qed.

Lemma keeps_ret {A} (a : A) : keeps_rl (mret a).
Proof. by intros s. Qed.

Lemma keeps_bind {A B} (m : MS A) (f : A -> MS B) :
  keeps_rl m -> (forall a, keeps_rl (f a)) -> keeps_rl (m ≫= f).
Proof.
  intros Hm Hf s. rewrite bind_run_site. specialize (Hm s).
  destruct (m s) as [[a|x] s']; cbn [snd] in *; [|done].
  by rewrite Hf.
Qed.

Lemma keeps_lift {A} (m : M A) : keeps_rl_M m -> keeps_rl (lift m).
Proof. intros Hm s. unfold lift. cbn [snd world]. apply Hm. Qed.

Lemma keeps_get_site : keeps_rl get_site.
Proof. by intros s. Qed.

Lemma keeps_update_admin_password ph sl :
  keeps_rl (AdminSql.update_admin_password ph sl).
Proof. by intros s. Qed.

Lemma keeps_try {A} (body handler : MS A) :
  keeps_rl body -> keeps_rl handler -> keeps_rl (try_except_integrity_site body handler).
Proof.
  intros Hb Hh s. unfold try_except_integrity_site. specialize (Hb s).
  destruct (body s) as [[a|[code|]] s']; cbn [snd] in *; [done..|].
  by rewrite Hh.
Qed.

(** A handler built from the parts above keeps the entry. *)
Ltac keeps :=
  repeat first
    [ progress intros
    | apply keeps_ret | apply keeps_get_site | apply keeps_update_admin_password
    | apply keeps_try | apply keeps_bind | apply keeps_lift
    | apply keeps_M_ret | apply keeps_M_flash | apply keeps_M_log | apply keeps_M_page
    | apply keeps_M_abort | apply keeps_M_get_world | apply keeps_M_require_admin
    | apply keeps_M_admin_flag | apply keeps_M_session_code
    | apply keeps_M_insert_student | apply keeps_M_bind
    | match goal with
      | |- keeps_rl (match ?x with _ => _ end) => destruct x
      | |- keeps_rl_M (match ?x with _ => _ end) => destruct x
      end ].

Section RateLimit.
Variable sha256 : list byte -> list byte.

Lemma admin_login_keeps rq c : keeps_rl (admin_login sha256 rq c).
Proof. unfold admin_login. cbv zeta. keeps. Qed.

Lemma admin_dashboard_keeps rq ck ent c1 c2 c3 :
  keeps_rl (admin_dashboard rq ck ent c1 c2 c3).
Proof. unfold admin_dashboard. cbv zeta. keeps. Qed.

Lemma admin_add_student_keeps rq c cl r : keeps_rl (admin_add_student sha256 rq c cl r).
Proof. unfold admin_add_student. cbv zeta. keeps. Qed.

Lemma admin_reports_keeps rq c : keeps_rl_M (admin_reports rq c).
Proof. unfold admin_reports. cbv zeta. keeps. Qed.

Lemma admin_change_password_keeps rq c r :
  keeps_rl (admin_change_password sha256 rq c r).
Proof. unfold admin_change_password. cbv zeta. keeps. Qed.

Lemma snapshot_keeps f : keeps_rl (snapshot f).
Proof. unfold snapshot. keeps. Qed.

Lemma visit_attempts v s :
  attempts (session (world (visit sha256 v s))) =
  counted (attempts (session (world s))) v.
Proof.
  unfold attempts at 1.
  destruct v as [|rq e|rq c| |rq ck ent c1 c2 c3|rq c cl r|rq c|rq c r|f];
    cbn [visit]; unfold counted; cbn [is_logout kiosk_post].
  - reflexivity.
  - unfold lift. cbn [snd world]. rewrite kiosk_rl.
    destruct (method rq); cbn [count]; reflexivity.
  - by rewrite admin_login_keeps.
  - reflexivity.
  - by rewrite admin_dashboard_keeps.
  - by rewrite admin_add_student_keeps.
  - by rewrite (keeps_lift _ (admin_reports_keeps rq c)).
  - by rewrite admin_change_password_keeps.
  - by rewrite snapshot_keeps.
Qed.

Lemma browse_attempts vs s :
  attempts (session (world (browse sha256 vs s))) =
  attempts_after vs (attempts (session (world s))).
Proof.
  unfold browse, attempts_after. revert s.
  induction vs as [|v vs IH]; intros s; cbn [fold_left]; [done|].
  by rewrite IH, visit_attempts.
Qed.

Lemma attempts_after_no_logout vs n :
  Forall (fun v => is_logout v = false) vs ->
  attempts_after vs n = n + N.of_nat (length (List.filter kiosk_post vs)).
Proof.
  unfold attempts_after. intros Hvs. revert n.
  induction Hvs as [|v vs Hv Hvs IH]; intros n; cbn [fold_left List.filter].
  - cbn [length]. lia.
  - rewrite IH. unfold counted. rewrite Hv.
    destruct (kiosk_post v); cbn [length]; lia.
Qed.

(** C5, as amended.  The per-session counter, over all the routes.  The
    counter seen by a check-in is the number of POSTs to the kiosk since
    the session started or was last cleared by a logout, whatever was
    visited in between and whatever the POSTs submitted; the check-in
    stores that number plus one, and is turned away with 429 exactly when
    twenty or more came before it, so the 21st in a row is.  The refused
    request leaves only the bumped counter (and the day's code) behind: no
    field is read, nothing is flashed, logged, captured or inserted.
    Without a logout the counter never decreases: in a session that starts
    without one it is the number of POSTs to the kiosk.  A logout, which
    needs no login, puts it back to zero. *)
Theorem rate_limit_counts_posts_since_logout
    (vs : list Visit) (s : Site) (rq : Request) (e : KioskEnv) :
  method rq = POST ->
  let s' := browse sha256 vs s in
  let n := attempts_after vs (attempts (session (world s))) in
  let out := kiosk sha256 rq e (world s') in
  attempts (session (world s')) = n /\
  (exists t, rl (session out.2) = Some {| count := n + 1; rl_ts := t |}) /\
  (20 <= n ->
     out = (Raise (HTTPException 429),
            bumped (clk_rl e) (ensure_code (clk_code e) (entropy e) (world s')))) /\
  (n < 20 -> ~ rate_limited out) /\
  (Forall (fun v => is_logout v = false) vs ->
     n = attempts (session (world s)) + N.of_nat (length (List.filter kiosk_post vs))) /\
  attempts (session (world (browse sha256 (vs ++ [ToLogout]) s))) = 0.
Proof.
  intros Hpost s' n out.
  assert (attempts (session (world s')) = n) as Hn by apply browse_attempts.
  split; [exact Hn|]. split; [|split; [|split; [|split]]].
  - subst out. rewrite kiosk_rl, Hpost, Hn. eauto.
  - intros Hge. subst out. rewrite kiosk_run, Hpost. cbv zeta.
    assert ((20 <? attempts (session (world s')) + 1) = true) as ->; [|done].
    apply N.ltb_lt. lia.
  - intros Hlt. subst out. unfold rate_limited.
    assert ((20 <? attempts (session (world s')) + 1) = false) as Hok
      by (apply N.ltb_ge; lia).
    kiosk_branches sha256 rq e (world s'); cbn [fst]; congruence.
  - intros Hvs. subst n. by apply attempts_after_no_logout.
  - rewrite browse_attempts. unfold attempts_after. rewrite fold_left_app. reflexivity.
Qed.

End RateLimit.

(** ** The further properties on the sample data *)

Import SampleSite.

Lemma roster_ok_office : roster_ok (db (world office)).
Proof.
  split_and!.
  - unfold roll_unique. vm_compute. by apply (bool_decide_unpack _).
  - unfold id_unique. vm_compute. by apply (bool_decide_unpack _).
  - unfold refs_ok. apply Forall_singleton. vm_compute. constructor.
Qed.

Lemma snaps_ok_office : snaps_ok (world office).
Proof. apply Forall_singleton. intros f. vm_compute. discriminate. Qed.

(** X4 on the sample: a visitor who is not logged in asks for a snapshot
    and for the dashboard. *)
Lemma visitor_redirected_example :
  admin (session (world lobby)) = false /\
  snapshot "2026-01-05_12_20260105_085500.jpg" lobby =
    (Ok (Plain (Redirect "admin_login")), lobby) /\
  admin_dashboard report_get monday dice monday monday monday lobby =
    (Ok (Plain (Redirect "admin_login")), lobby).
Proof.
  assert (admin (session (world lobby)) = false) as H by (vm_compute; reflexivity).
  destruct (admin_routes_need_admin spin lobby report_get H) as (Hd & _ & _ & Hs & _).
  split; [exact H|]. split; [exact (Hs _)|].
  apply Hd. vm_compute; reflexivity.
Defined.

(** X5 on the sample: a wrong password for admin. *)
Lemma wrong_password_example :
  method wrong_login_post = POST /\
  ~ credentials_ok spin wrong_login_post lobby /\
  admin_login spin wrong_login_post monday lobby =
    (Ok (Plain (Redirect "admin_login")), with_world (flashed msg_invalid) lobby).
Proof.
  assert (method wrong_login_post = POST) as Hm by (vm_compute; reflexivity).
  assert (~ credentials_ok spin wrong_login_post lobby) as Hno.
  { intros (row & Hsel & Hh). vm_compute in Hsel. injection Hsel as <-.
    vm_compute in Hh. discriminate. }
  destruct (login_needs_credentials spin wrong_login_post monday lobby Hm)
    as (_ & _ & _ & _ & _ & Hfail).
  destruct (Hfail Hno) as (Hout & _).
  exact (conj Hm (conj Hno Hout)).
Defined.

(** X7 on the sample: the first start, then the default login. *)
Lemma first_login_example :
  admins first_start = [] /\
  method login_post = POST /\
  Py.strip (form_get login_post "username") = "admin" /\
  Py.strip (form_get login_post "password") = "admin123" /\
  (admin_login spin login_post monday (init_db spin monday salt_bytes first_start).2).1 =
    Ok (Plain (Redirect "admin_dashboard")).
Proof.
  assert (admins first_start = []) as H1 by reflexivity.
  assert (method login_post = POST) as H2 by (vm_compute; reflexivity).
  assert (Py.strip (form_get login_post "username") = "admin") as H3
    by (vm_compute; reflexivity).
  assert (Py.strip (form_get login_post "password") = "admin123") as H4
    by (vm_compute; reflexivity).
  destruct (default_admin_logs_in spin monday monday salt_bytes first_start login_post
              H1 H2 H3 H4) as (Hout & _).
  exact (conj H1 (conj H2 (conj H3 (conj H4 Hout)))).
Defined.

(** X8 on the sample: Dawa is enrolled with roll 7 and checks in. *)
Lemma new_student_checks_in_example :
  admin (session (world office)) = true /\
  method add_post = POST /\
  form_complete add_post /\
  Sql.select_student (added_roll add_post) (db (world office)) = None /\
  refs_ok (db (world office)) /\
  method dawa_post = POST /\
  attempts (session (world office)) < 20 /\
  form_get dawa_post "roll_no" = form_get add_post "roll_no" /\
  form_get dawa_post "pin" = form_get add_post "pin" /\
  submitted_code dawa_post <> "" /\
  submitted_code dawa_post =
    todays_code (clk_code env) (entropy env)
      (world (admin_add_student spin add_post monday monday salt_bytes office).2) /\
  (kiosk spin dawa_post env
     (world (admin_add_student spin add_post monday monday salt_bytes office).2)).1 =
    Ok (CheckedIn (new_student spin add_post monday salt_bytes (db (world office)))).
Proof.
  assert (admin (session (world office)) = true) as H1 by (vm_compute; reflexivity).
  assert (method add_post = POST) as H2 by (vm_compute; reflexivity).
  assert (form_complete add_post) as H3 by (split_and!; vm_compute; discriminate).
  assert (Sql.select_student (added_roll add_post) (db (world office)) = None) as H4
    by (vm_compute; reflexivity).
  assert (refs_ok (db (world office))) as H5 by apply roster_ok_office.
  assert (method dawa_post = POST) as H6 by (vm_compute; reflexivity).
  assert (attempts (session (world office)) < 20) as H7 by (vm_compute; reflexivity).
  assert (form_get dawa_post "roll_no" = form_get add_post "roll_no") as H8
    by (vm_compute; reflexivity).
  assert (form_get dawa_post "pin" = form_get add_post "pin") as H9
    by (vm_compute; reflexivity).
  assert (submitted_code dawa_post <> "") as H10 by (vm_compute; discriminate).
  assert (submitted_code dawa_post =
            todays_code (clk_code env) (entropy env)
              (world (admin_add_student spin add_post monday monday salt_bytes office).2)) as H11
    by (vm_compute; reflexivity).
  destruct (enrolled_student_checks_in spin add_post monday monday salt_bytes office dawa_post env
              H1 H2 H3 H4 H5 H6 H7 H8 H9 H10 H11) as (_ & Hin & _).
  exact (conj H1 (conj H2 (conj H3 (conj H4 (conj H5 (conj H6 (conj H7 (conj H8
           (conj H9 (conj H10 (conj H11 Hin))))))))))).
Defined.

(** X9 on the sample: roll 12 is added a second time. *)
Lemma roll_exists_example :
  roster_ok (db (world office)) /\
  roster_ok
    (db (world (admin_add_student spin add_again_post monday monday salt_bytes office).2)) /\
  admin_add_student spin add_again_post monday monday salt_bytes office =
    (Ok (Plain (Redirect "admin_dashboard")), with_world (flashed msg_roll_exists) office).
Proof.
  assert (roster_ok (db (world office))) as H by apply roster_ok_office.
  destruct (roster_stays_consistent spin add_again_post monday monday salt_bytes office H)
    as (Hok & _ & Hdup).
  split; [exact H|]. split; [exact Hok|].
  apply (Hdup ltac:(vm_compute; reflexivity) ltac:(vm_compute; reflexivity)
              ltac:(split_and!; vm_compute; discriminate) twelve).
  vm_compute; reflexivity.
Defined.

(** X10 on the sample: the password is changed, and the new one logs in. *)
Lemma new_password_example :
  admin (session (world office)) = true /\
  method change_post = POST /\
  change_accepted spin change_post office /\
  (admin_login spin new_login_post monday
     (admin_change_password spin change_post monday salt_bytes office).2).1 =
    Ok (Plain (Redirect "admin_dashboard")).
Proof.
  assert (admin (session (world office)) = true) as H1 by (vm_compute; reflexivity).
  assert (method change_post = POST) as H2 by (vm_compute; reflexivity).
  assert (change_accepted spin change_post office) as H3.
  { split; [vm_compute; discriminate|]. split; [vm_compute; reflexivity|].
    exists head_row. split; vm_compute; reflexivity. }
  destruct (password_change_then_login spin change_post monday salt_bytes office H1 H2)
    as (_ & _ & Hacc).
  destruct (Hacc H3) as (_ & Hlogin & _).
  split; [exact H1|]. split; [exact H2|]. split; [exact H3|].
  apply Hlogin; vm_compute; reflexivity.
Defined.

(** X11 on the sample: after twenty-one attempts the session is limited;
    after a logout it is not. *)
Lemma logout_example :
  method good_post = POST /\
  rate_limited (kiosk spin good_post env (serve spin burst enrolled).2) /\
  ~ rate_limited (kiosk spin good_post env (admin_logout (serve spin burst enrolled).2).2).
Proof.
  assert (method good_post = POST) as Hm by (vm_compute; reflexivity).
  destruct (logout_resets_rate_limit spin (serve spin burst enrolled).2 good_post env Hm)
    as (_ & _ & _ & Hfree & _).
  split; [exact Hm|]. split; [|exact Hfree].
  unfold rate_limited. vm_compute. reflexivity.
Defined.

(** X12 on the sample: the dashboard of the teacher. *)
Lemma dashboard_example :
  admin (session (world office)) = true /\
  method report_get = GET /\
  exists recent,
    (admin_dashboard report_get monday dice monday monday monday office).1 =
      Ok (Dashboard (today monday) (todays_code monday dice (world office))
            (N.of_nat (length (students (db (world office)))))
            (N.of_nat (length (rows_of_day (today monday) (db (world office)))))
            recent) /\
    (length recent <= 50)%nat.
Proof.
  assert (admin (session (world office)) = true) as H1 by (vm_compute; reflexivity).
  assert (method report_get = GET) as H2 by (vm_compute; reflexivity).
  destruct (dashboard_counts report_get monday monday monday monday dice office H1 H2)
    as (recent & ps & Hrun & _ & Hlen & _).
  split; [exact H1|]. split; [exact H2|].
  exists recent. rewrite Hrun. split; [reflexivity|exact Hlen].
Defined.

(** X13 on the sample: the student with roll 5 checks in in front of the
    camera, and the teacher opens the picture; with a disk that takes no
    picture, the teacher gets a 404. *)
Lemma snapshot_example :
  snaps_ok (world office) /\
  snaps_ok (world (with_world (fun w => (serve spin [(five_post, env)] w).2) office)) /\
  (exists frame,
     snapshot "2026-01-05_5_20260105_090000.jpg"
       (with_world (fun w => (serve spin [(five_post, env)] w).2) office) =
     (Ok (SnapshotFile frame),
      with_world (fun w => (serve spin [(five_post, env)] w).2) office)) /\
  snapshot "2026-01-05_5_20260105_090000.jpg"
    (with_world (fun w => (kiosk spin five_post full_disk w).2) office) =
  (Raise (HTTPException 404),
   with_world (fun w => (kiosk spin five_post full_disk w).2) office).
Proof.
  assert (snaps_ok (world office)) as H by apply snaps_ok_office.
  destruct (snapshot_links_resolve spin [(five_post, env)] office H) as (Hgood & Hbad).
  destruct (Hgood ltac:(apply Forall_singleton; reflexivity)) as (Hok & Hlink).
  split; [exact H|]. split; [exact Hok|]. split.
  - destruct (Hlink ltac:(vm_compute; reflexivity)
                {| student_id := 2; att_day := "2026-01-05"; status := "P";
                   checked_in_at := "2026-01-05 09:00:00";
                   snapshot_path := Some "2026-01-05_5_20260105_090000.jpg";
                   ip := Some "127.0.0.1"; user_agent := Some "" |}
                "2026-01-05_5_20260105_090000.jpg") as (frame & _ & Hserve).
    + vm_compute. apply list_elem_of_In. right. left. reflexivity.
    + reflexivity.
    + exists frame. exact Hserve.
  - assert (valid_checkin spin five_post full_disk (world office) five) as Hv
      by (unfold valid_checkin; split_and!; vm_compute; congruence).
    destruct (Hbad five_post full_disk five [xff; xd8] Hv
                ltac:(vm_compute; reflexivity) eq_refl eq_refl eq_refl eq_refl eq_refl
                ltac:(vm_compute; reflexivity)) as (_ & _ & _ & Hmissing).
    apply Hmissing. vm_compute. reflexivity.
Defined.

(** X14 on the sample: two wrong PINs for roll 12. *)
Lemma two_wrong_pins_example :
  Py.strip "0000" <> "" /\
  Py.strip " 1234 " <> "" /\
  kiosk spin (typed_pin "0000" good_post) env enrolled =
  kiosk spin (typed_pin " 1234 " good_post) env enrolled.
Proof.
  assert (Py.strip "0000" <> "") as H1 by (vm_compute; discriminate).
  assert (Py.strip " 1234 " <> "") as H2 by (vm_compute; discriminate).
  split; [exact H1|]. split; [exact H2|].
  apply (pin_leaves_no_trace spin good_post "0000" " 1234 " env enrolled H1 H2).
  intros stu Hstu. vm_compute in Hstu. injection Hstu as <-.
  split; intros H; vm_compute in H; discriminate.
Defined.


(** C5 fails as stated: after 21 check-in attempts the session is turned
    away; a visit to the logout route, which asks for no login, puts the
    counter back to zero, and the next attempt is served. *)
Lemma logout_resets_counter :
  rate_limited
    (kiosk spin blank_post env
       (world (browse spin (replicate 21 (ToKiosk blank_post env)) first_start))) /\
  attempts
    (session (world (browse spin (replicate 21 (ToKiosk blank_post env) ++ [ToLogout])
                       first_start))) = 0 /\
  ~ rate_limited
      (kiosk spin blank_post env
         (world (browse spin (replicate 21 (ToKiosk blank_post env) ++ [ToLogout])
                   first_start))).
Proof. unfold rate_limited. split_and!; vm_compute; congruence. Qed.

(** C5 as amended, on the sample: the 21st POST in a row, with visits to
    other routes before and in between. *)
Lemma twenty_first_post_example :
  method blank_post = POST /\
  (kiosk spin blank_post env
     (world (browse spin
               ([ToHome; ToLogin wrong_login_post monday]
                ++ replicate 20 (ToKiosk blank_post env)
                ++ [ToReports report_get monday])
               first_start))).1 = Raise (HTTPException 429).
Proof.
  assert (method blank_post = POST) as H by reflexivity.
  destruct (rate_limit_counts_posts_since_logout spin
              ([ToHome; ToLogin wrong_login_post monday]
               ++ replicate 20 (ToKiosk blank_post env)
               ++ [ToReports report_get monday])
              first_start blank_post env H) as (_ & _ & Hover & _).
  split; [exact H|].
  rewrite Hover; [reflexivity|]. vm_compute. discriminate.
Defined.
